(** * res_speech_gdfe: the endpointer and the per-utterance lifecycle

    A shallow embedding of [res/res_speech_gdfe.c], the Asterisk speech
    engine for Google DialogFlow: the audio level estimator
    ([calculate_audio_level]), the voice activity detector inside
    [gdf_write], the utterance lifecycle ([gdf_start], [gdf_write],
    [gdf_stop_recognition]), the recording and call-log side channel and
    the property setter [gdf_change]; then the control path around them:
    grammars ([gdf_activate]), the property getter ([gdf_get_setting]),
    the results of an utterance ([gdf_get_results]), teardown
    ([gdf_destroy]) and the loading of the configuration ([load_config]).

    C [int]s are [Z] with their 32-bit wrap-around written out (an [int]
    that overflows is taken to wrap), pointers to streams are
    [option FILE], string fields are [string]s.  Calls into the
    DialogFlow library and into the C library are recorded in an event
    trace; what those calls answer is an input of the model.  Diagnostics
    through [ast_log] and the mutex operations are left out: the model is
    sequential. *)

From Stdlib Require Import ZArith List String Ascii Bool Lia DecimalString.
From Stdlib Require DecimalPos.
Import ListNotations.
Local Open Scope string_scope.
Local Open Scope list_scope.
Local Open Scope Z_scope.

(** ** Machine integers *)

Module CInt.

Definition INT_MIN : Z := - 2 ^ 31.
Definition INT_MAX : Z := 2 ^ 31 - 1.
Definition LONG_MIN : Z := - 2 ^ 63.
Definition LONG_MAX : Z := 2 ^ 63 - 1.
Definition SHRT_MIN : Z := - 2 ^ 15.
Definition SHRT_MAX : Z := 2 ^ 15 - 1.

(** Conversion to [int]: reduction modulo 2^32 into the signed range. *)
Definition to_int (z : Z) : Z := (z + 2 ^ 31) mod 2 ^ 32 - 2 ^ 31.

(** Conversion to [size_t] (64 bits, unsigned). *)
Definition to_size_t (z : Z) : Z := z mod 2 ^ 64.

(** [a + b] and [a++] on [int]. *)
Definition int_add (a b : Z) : Z := to_int (a + b).

Definition is_short (z : Z) : Prop := SHRT_MIN <= z <= SHRT_MAX.

(** C truth values. *)
Definition of_bool (b : bool) : Z := if b then 1 else 0.
Definition truthy (z : Z) : bool := negb (z =? 0).

End CInt.
Import CInt.

(** ** The audio level estimator *)

(** [data] of [gdf_write] is a pointer: the model reads the sample at index
    [i] from it as [slin i], for whatever index the code asks. *)
Definition samples := nat -> Z.

(** The memory that holds exactly the samples of [l], followed by zeros. *)
Definition frame_of (l : list Z) : samples := fun i => nth i l 0.

(** The loop of [calculate_audio_level]: [n] iterations from index [i],
    [sum] being the [long long] accumulator (at most 2^31 terms of at most
    2^15 each, so it never wraps). *)
Fixpoint sum_abs_from (slin : samples) (i n : nat) (sum : Z) : Z :=
  match n with
  | O => sum
  | S n' => sum_abs_from slin (S i) n' (sum + Z.abs (slin i))
  end.

(** [static int calculate_audio_level(const short *slin, int len)].
    [sum / len] is C's truncating division; a zero divisor is a fault,
    [None]. *)
Definition calculate_audio_level (slin : samples) (len : Z) : option Z :=
  let sum := sum_abs_from slin 0 (Z.to_nat len) 0 in
  if len =? 0 then None else Some (to_int (Z.quot sum len)).

(** What the specification asks of the estimator: the mean absolute
    magnitude of a sample sequence, rounded down. *)
Definition sum_abs (l : list Z) : Z :=
  fold_right (fun s acc => Z.abs s + acc) 0 l.
Definition mean_abs (l : list Z) : Z := sum_abs l / Z.of_nat (List.length l).

(** ** Strings of the C library *)

Module CString.

Definition tolower (c : ascii) : ascii :=
  let n := nat_of_ascii c in
  if ((65 <=? n) && (n <=? 90))%nat then ascii_of_nat (n + 32) else c.

Definition code (c : ascii) : Z := Z.of_nat (nat_of_ascii c).

(** [strcasecmp]: zero exactly when the strings agree up to case. *)
Fixpoint strcasecmp (a b : string) : Z :=
  match a, b with
  | EmptyString, EmptyString => 0
  | EmptyString, String d _ => - code (tolower d)
  | String c _, EmptyString => code (tolower c)
  | String c a', String d b' =>
      if Ascii.eqb (tolower c) (tolower d) then strcasecmp a' b'
      else code (tolower c) - code (tolower d)
  end.

(** What a C function reads of [s]: the characters before the first NUL,
    here in lower case. *)
Fixpoint c_lower (s : string) : string :=
  match s with
  | EmptyString => EmptyString
  | String c s' =>
      if Ascii.eqb c zero then EmptyString
      else String (tolower c) (c_lower s')
  end.

(** [ast_strlen_zero] on a string that is not [NULL]. *)
Definition ast_strlen_zero (s : string) : bool :=
  match s with EmptyString => true | _ => false end.

Definition isspace (c : ascii) : bool :=
  let n := nat_of_ascii c in ((n =? 32) || ((9 <=? n) && (n <=? 13)))%nat.

Definition digit_of (c : ascii) : option Z :=
  let n := nat_of_ascii c in
  if ((48 <=? n) && (n <=? 57))%nat then Some (Z.of_nat (n - 48)) else None.

Fixpoint skip_space (s : string) : string :=
  match s with
  | String c s' => if isspace c then skip_space s' else s
  | EmptyString => s
  end.

(** The digits at the head of [s], accumulated in base ten; [None] when
    there is none. *)
Fixpoint scan_digits (s : string) (acc : option Z) : option Z :=
  match s with
  | String c s' =>
      match digit_of c with
      | Some d =>
          let a := match acc with Some a => a | None => 0 end in
          scan_digits s' (Some (10 * a + d))
      | None => acc
      end
  | EmptyString => acc
  end.

(** The value [sscanf(value, "%d", &i)] converts, [None] when it returns
    anything but 1: white space is skipped, a sign is optional, at least
    one digit is needed and what follows the digits is ignored.  The
    conversion goes through [long] (saturating) and is then stored into
    the [int]. *)
Definition sscanf_d (value : string) : option Z :=
  let store (sign : Z) (digits : option Z) :=
    match digits with
    | Some n => Some (to_int (Z.max LONG_MIN (Z.min LONG_MAX (sign * n))))
    | None => None
    end in
  match skip_space value with
  | String "-" s' => store (-1) (scan_digits s' None)
  | String "+" s' => store 1 (scan_digits s' None)
  | s => store 1 (scan_digits s None)
  end.

(** [sprintf(buf, "%d", z)] and the ["%02d"] conversion. *)
Definition fmt_d (z : Z) : string := NilZero.string_of_int (Z.to_int z).
Definition fmt_02d (z : Z) : string :=
  if (0 <=? z) && (z <? 10) then "0" ++ fmt_d z else fmt_d z.

End CString.
Import CString.

(** ** Data model *)

Inductive VAD_STATE : Type :=
| VAD_STATE_START
| VAD_STATE_SPEAK
| VAD_STATE_SILENT.

Inductive gdf_call_log_type : Type :=
| CALL_LOG_TYPE_SESSION
| CALL_LOG_TYPE_ENDPOINTER
| CALL_LOG_TYPE_DIALOGFLOW.

(** The states of Asterisk's [struct ast_speech] (asterisk/speech.h). *)
Inductive ast_speech_states : Type :=
| AST_SPEECH_STATE_NOT_READY
| AST_SPEECH_STATE_READY
| AST_SPEECH_STATE_WAIT
| AST_SPEECH_STATE_DONE.

(** Modelled from the spec: [enum dialogflow_session_state] is declared in
    libdfegrpc.h, which is not part of the sources; the statuses "include
    at least RUNNING, FINISHED, ERROR", and the engine tests for the last
    two only. *)
Inductive dialogflow_session_state : Type :=
| DF_STATE_RUNNING
| DF_STATE_FINISHED
| DF_STATE_ERROR.

(** An open stream ([FILE *] that is not [NULL]), by identity. *)
Definition FILE := nat.

(** [struct dialogflow_log_data]: a name and a value. *)
Definition dialogflow_log_data := (string * string)%type.

Definition VAD_STATE_eqb (a b : VAD_STATE) : bool :=
  match a, b with
  | VAD_STATE_START, VAD_STATE_START
  | VAD_STATE_SPEAK, VAD_STATE_SPEAK
  | VAD_STATE_SILENT, VAD_STATE_SILENT => true
  | _, _ => false
  end.

(** [struct gdf_pvt], without the mutex and the session pointer. *)
Record gdf_pvt : Type := Build_gdf_pvt {
  vad_state : VAD_STATE;
  vad_state_duration : Z;
  vad_change_duration : Z;
  voice_threshold : Z;
  voice_minimum_duration : Z;
  silence_minimum_duration : Z;
  call_log_open_already_attempted : Z;
  call_log_file_handle : option FILE;
  utterance_counter : Z;
  utterance_preendpointer_recording_open_already_attempted : Z;
  utterance_preendpointer_recording_file_handle : option FILE;
  utterance_postendpointer_recording_open_already_attempted : Z;
  utterance_postendpointer_recording_file_handle : option FILE;
  logical_agent_name : string;
  project_id : string;
  session_id : string;
  service_key : string;
  endpoint : string;
  event : string;
  language : string;
  lastAudioResponse : string;
  call_log_path : string;
  call_log_file_basename : string;
  call_logging_application_name : string;
  call_logging_context : string
}.

(** Field assignments [pvt->f = v] (and [ast_string_field_set]). *)
Definition set_vad_state (v : VAD_STATE) (p : gdf_pvt) : gdf_pvt :=
  Build_gdf_pvt v (vad_state_duration p) (vad_change_duration p)
    (voice_threshold p) (voice_minimum_duration p)
    (silence_minimum_duration p) (call_log_open_already_attempted p)
    (call_log_file_handle p) (utterance_counter p)
    (utterance_preendpointer_recording_open_already_attempted p)
    (utterance_preendpointer_recording_file_handle p)
    (utterance_postendpointer_recording_open_already_attempted p)
    (utterance_postendpointer_recording_file_handle p) (logical_agent_name p)
    (project_id p) (session_id p) (service_key p) (endpoint p) (event p)
    (language p) (lastAudioResponse p) (call_log_path p)
    (call_log_file_basename p) (call_logging_application_name p)
    (call_logging_context p).
Definition set_vad_state_duration (v : Z) (p : gdf_pvt) : gdf_pvt :=
  Build_gdf_pvt (vad_state p) v (vad_change_duration p) (voice_threshold p)
    (voice_minimum_duration p) (silence_minimum_duration p)
    (call_log_open_already_attempted p) (call_log_file_handle p)
    (utterance_counter p)
    (utterance_preendpointer_recording_open_already_attempted p)
    (utterance_preendpointer_recording_file_handle p)
    (utterance_postendpointer_recording_open_already_attempted p)
    (utterance_postendpointer_recording_file_handle p) (logical_agent_name p)
    (project_id p) (session_id p) (service_key p) (endpoint p) (event p)
    (language p) (lastAudioResponse p) (call_log_path p)
    (call_log_file_basename p) (call_logging_application_name p)
    (call_logging_context p).
Definition set_vad_change_duration (v : Z) (p : gdf_pvt) : gdf_pvt :=
  Build_gdf_pvt (vad_state p) (vad_state_duration p) v (voice_threshold p)
    (voice_minimum_duration p) (silence_minimum_duration p)
    (call_log_open_already_attempted p) (call_log_file_handle p)
    (utterance_counter p)
    (utterance_preendpointer_recording_open_already_attempted p)
    (utterance_preendpointer_recording_file_handle p)
    (utterance_postendpointer_recording_open_already_attempted p)
    (utterance_postendpointer_recording_file_handle p) (logical_agent_name p)
    (project_id p) (session_id p) (service_key p) (endpoint p) (event p)
    (language p) (lastAudioResponse p) (call_log_path p)
    (call_log_file_basename p) (call_logging_application_name p)
    (call_logging_context p).
Definition set_voice_threshold (v : Z) (p : gdf_pvt) : gdf_pvt :=
  Build_gdf_pvt (vad_state p) (vad_state_duration p) (vad_change_duration p) v
    (voice_minimum_duration p) (silence_minimum_duration p)
    (call_log_open_already_attempted p) (call_log_file_handle p)
    (utterance_counter p)
    (utterance_preendpointer_recording_open_already_attempted p)
    (utterance_preendpointer_recording_file_handle p)
    (utterance_postendpointer_recording_open_already_attempted p)
    (utterance_postendpointer_recording_file_handle p) (logical_agent_name p)
    (project_id p) (session_id p) (service_key p) (endpoint p) (event p)
    (language p) (lastAudioResponse p) (call_log_path p)
    (call_log_file_basename p) (call_logging_application_name p)
    (call_logging_context p).
Definition set_voice_minimum_duration (v : Z) (p : gdf_pvt) : gdf_pvt :=
  Build_gdf_pvt (vad_state p) (vad_state_duration p) (vad_change_duration p)
    (voice_threshold p) v (silence_minimum_duration p)
    (call_log_open_already_attempted p) (call_log_file_handle p)
    (utterance_counter p)
    (utterance_preendpointer_recording_open_already_attempted p)
    (utterance_preendpointer_recording_file_handle p)
    (utterance_postendpointer_recording_open_already_attempted p)
    (utterance_postendpointer_recording_file_handle p) (logical_agent_name p)
    (project_id p) (session_id p) (service_key p) (endpoint p) (event p)
    (language p) (lastAudioResponse p) (call_log_path p)
    (call_log_file_basename p) (call_logging_application_name p)
    (call_logging_context p).
Definition set_silence_minimum_duration (v : Z) (p : gdf_pvt) : gdf_pvt :=
  Build_gdf_pvt (vad_state p) (vad_state_duration p) (vad_change_duration p)
    (voice_threshold p) (voice_minimum_duration p) v
    (call_log_open_already_attempted p) (call_log_file_handle p)
    (utterance_counter p)
    (utterance_preendpointer_recording_open_already_attempted p)
    (utterance_preendpointer_recording_file_handle p)
    (utterance_postendpointer_recording_open_already_attempted p)
    (utterance_postendpointer_recording_file_handle p) (logical_agent_name p)
    (project_id p) (session_id p) (service_key p) (endpoint p) (event p)
    (language p) (lastAudioResponse p) (call_log_path p)
    (call_log_file_basename p) (call_logging_application_name p)
    (call_logging_context p).
Definition set_call_log_open_already_attempted
  (v : Z) (p : gdf_pvt) : gdf_pvt :=
  Build_gdf_pvt (vad_state p) (vad_state_duration p) (vad_change_duration p)
    (voice_threshold p) (voice_minimum_duration p)
    (silence_minimum_duration p) v (call_log_file_handle p)
    (utterance_counter p)
    (utterance_preendpointer_recording_open_already_attempted p)
    (utterance_preendpointer_recording_file_handle p)
    (utterance_postendpointer_recording_open_already_attempted p)
    (utterance_postendpointer_recording_file_handle p) (logical_agent_name p)
    (project_id p) (session_id p) (service_key p) (endpoint p) (event p)
    (language p) (lastAudioResponse p) (call_log_path p)
    (call_log_file_basename p) (call_logging_application_name p)
    (call_logging_context p).
Definition set_call_log_file_handle
  (v : option FILE) (p : gdf_pvt) : gdf_pvt :=
  Build_gdf_pvt (vad_state p) (vad_state_duration p) (vad_change_duration p)
    (voice_threshold p) (voice_minimum_duration p)
    (silence_minimum_duration p) (call_log_open_already_attempted p) v
    (utterance_counter p)
    (utterance_preendpointer_recording_open_already_attempted p)
    (utterance_preendpointer_recording_file_handle p)
    (utterance_postendpointer_recording_open_already_attempted p)
    (utterance_postendpointer_recording_file_handle p) (logical_agent_name p)
    (project_id p) (session_id p) (service_key p) (endpoint p) (event p)
    (language p) (lastAudioResponse p) (call_log_path p)
    (call_log_file_basename p) (call_logging_application_name p)
    (call_logging_context p).
Definition set_utterance_counter (v : Z) (p : gdf_pvt) : gdf_pvt :=
  Build_gdf_pvt (vad_state p) (vad_state_duration p) (vad_change_duration p)
    (voice_threshold p) (voice_minimum_duration p)
    (silence_minimum_duration p) (call_log_open_already_attempted p)
    (call_log_file_handle p) v
    (utterance_preendpointer_recording_open_already_attempted p)
    (utterance_preendpointer_recording_file_handle p)
    (utterance_postendpointer_recording_open_already_attempted p)
    (utterance_postendpointer_recording_file_handle p) (logical_agent_name p)
    (project_id p) (session_id p) (service_key p) (endpoint p) (event p)
    (language p) (lastAudioResponse p) (call_log_path p)
    (call_log_file_basename p) (call_logging_application_name p)
    (call_logging_context p).
Definition set_utterance_preendpointer_recording_open_already_attempted
  (v : Z) (p : gdf_pvt) : gdf_pvt :=
  Build_gdf_pvt (vad_state p) (vad_state_duration p) (vad_change_duration p)
    (voice_threshold p) (voice_minimum_duration p)
    (silence_minimum_duration p) (call_log_open_already_attempted p)
    (call_log_file_handle p) (utterance_counter p) v
    (utterance_preendpointer_recording_file_handle p)
    (utterance_postendpointer_recording_open_already_attempted p)
    (utterance_postendpointer_recording_file_handle p) (logical_agent_name p)
    (project_id p) (session_id p) (service_key p) (endpoint p) (event p)
    (language p) (lastAudioResponse p) (call_log_path p)
    (call_log_file_basename p) (call_logging_application_name p)
    (call_logging_context p).
Definition set_utterance_preendpointer_recording_file_handle
  (v : option FILE) (p : gdf_pvt) : gdf_pvt :=
  Build_gdf_pvt (vad_state p) (vad_state_duration p) (vad_change_duration p)
    (voice_threshold p) (voice_minimum_duration p)
    (silence_minimum_duration p) (call_log_open_already_attempted p)
    (call_log_file_handle p) (utterance_counter p)
    (utterance_preendpointer_recording_open_already_attempted p) v
    (utterance_postendpointer_recording_open_already_attempted p)
    (utterance_postendpointer_recording_file_handle p) (logical_agent_name p)
    (project_id p) (session_id p) (service_key p) (endpoint p) (event p)
    (language p) (lastAudioResponse p) (call_log_path p)
    (call_log_file_basename p) (call_logging_application_name p)
    (call_logging_context p).
Definition set_utterance_postendpointer_recording_open_already_attempted
  (v : Z) (p : gdf_pvt) : gdf_pvt :=
  Build_gdf_pvt (vad_state p) (vad_state_duration p) (vad_change_duration p)
    (voice_threshold p) (voice_minimum_duration p)
    (silence_minimum_duration p) (call_log_open_already_attempted p)
    (call_log_file_handle p) (utterance_counter p)
    (utterance_preendpointer_recording_open_already_attempted p)
    (utterance_preendpointer_recording_file_handle p) v
    (utterance_postendpointer_recording_file_handle p) (logical_agent_name p)
    (project_id p) (session_id p) (service_key p) (endpoint p) (event p)
    (language p) (lastAudioResponse p) (call_log_path p)
    (call_log_file_basename p) (call_logging_application_name p)
    (call_logging_context p).
Definition set_utterance_postendpointer_recording_file_handle
  (v : option FILE) (p : gdf_pvt) : gdf_pvt :=
  Build_gdf_pvt (vad_state p) (vad_state_duration p) (vad_change_duration p)
    (voice_threshold p) (voice_minimum_duration p)
    (silence_minimum_duration p) (call_log_open_already_attempted p)
    (call_log_file_handle p) (utterance_counter p)
    (utterance_preendpointer_recording_open_already_attempted p)
    (utterance_preendpointer_recording_file_handle p)
    (utterance_postendpointer_recording_open_already_attempted p) v
    (logical_agent_name p) (project_id p) (session_id p) (service_key p)
    (endpoint p) (event p) (language p) (lastAudioResponse p)
    (call_log_path p) (call_log_file_basename p)
    (call_logging_application_name p) (call_logging_context p).
Definition set_project_id (v : string) (p : gdf_pvt) : gdf_pvt :=
  Build_gdf_pvt (vad_state p) (vad_state_duration p) (vad_change_duration p)
    (voice_threshold p) (voice_minimum_duration p)
    (silence_minimum_duration p) (call_log_open_already_attempted p)
    (call_log_file_handle p) (utterance_counter p)
    (utterance_preendpointer_recording_open_already_attempted p)
    (utterance_preendpointer_recording_file_handle p)
    (utterance_postendpointer_recording_open_already_attempted p)
    (utterance_postendpointer_recording_file_handle p) (logical_agent_name p)
    v (session_id p) (service_key p) (endpoint p) (event p) (language p)
    (lastAudioResponse p) (call_log_path p) (call_log_file_basename p)
    (call_logging_application_name p) (call_logging_context p).
Definition set_session_id (v : string) (p : gdf_pvt) : gdf_pvt :=
  Build_gdf_pvt (vad_state p) (vad_state_duration p) (vad_change_duration p)
    (voice_threshold p) (voice_minimum_duration p)
    (silence_minimum_duration p) (call_log_open_already_attempted p)
    (call_log_file_handle p) (utterance_counter p)
    (utterance_preendpointer_recording_open_already_attempted p)
    (utterance_preendpointer_recording_file_handle p)
    (utterance_postendpointer_recording_open_already_attempted p)
    (utterance_postendpointer_recording_file_handle p) (logical_agent_name p)
    (project_id p) v (service_key p) (endpoint p) (event p) (language p)
    (lastAudioResponse p) (call_log_path p) (call_log_file_basename p)
    (call_logging_application_name p) (call_logging_context p).
Definition set_event (v : string) (p : gdf_pvt) : gdf_pvt :=
  Build_gdf_pvt (vad_state p) (vad_state_duration p) (vad_change_duration p)
    (voice_threshold p) (voice_minimum_duration p)
    (silence_minimum_duration p) (call_log_open_already_attempted p)
    (call_log_file_handle p) (utterance_counter p)
    (utterance_preendpointer_recording_open_already_attempted p)
    (utterance_preendpointer_recording_file_handle p)
    (utterance_postendpointer_recording_open_already_attempted p)
    (utterance_postendpointer_recording_file_handle p) (logical_agent_name p)
    (project_id p) (session_id p) (service_key p) (endpoint p) v (language p)
    (lastAudioResponse p) (call_log_path p) (call_log_file_basename p)
    (call_logging_application_name p) (call_logging_context p).
Definition set_language (v : string) (p : gdf_pvt) : gdf_pvt :=
  Build_gdf_pvt (vad_state p) (vad_state_duration p) (vad_change_duration p)
    (voice_threshold p) (voice_minimum_duration p)
    (silence_minimum_duration p) (call_log_open_already_attempted p)
    (call_log_file_handle p) (utterance_counter p)
    (utterance_preendpointer_recording_open_already_attempted p)
    (utterance_preendpointer_recording_file_handle p)
    (utterance_postendpointer_recording_open_already_attempted p)
    (utterance_postendpointer_recording_file_handle p) (logical_agent_name p)
    (project_id p) (session_id p) (service_key p) (endpoint p) (event p) v
    (lastAudioResponse p) (call_log_path p) (call_log_file_basename p)
    (call_logging_application_name p) (call_logging_context p).
Definition set_call_log_path (v : string) (p : gdf_pvt) : gdf_pvt :=
  Build_gdf_pvt (vad_state p) (vad_state_duration p) (vad_change_duration p)
    (voice_threshold p) (voice_minimum_duration p)
    (silence_minimum_duration p) (call_log_open_already_attempted p)
    (call_log_file_handle p) (utterance_counter p)
    (utterance_preendpointer_recording_open_already_attempted p)
    (utterance_preendpointer_recording_file_handle p)
    (utterance_postendpointer_recording_open_already_attempted p)
    (utterance_postendpointer_recording_file_handle p) (logical_agent_name p)
    (project_id p) (session_id p) (service_key p) (endpoint p) (event p)
    (language p) (lastAudioResponse p) v (call_log_file_basename p)
    (call_logging_application_name p) (call_logging_context p).
Definition set_call_log_file_basename (v : string) (p : gdf_pvt) : gdf_pvt :=
  Build_gdf_pvt (vad_state p) (vad_state_duration p) (vad_change_duration p)
    (voice_threshold p) (voice_minimum_duration p)
    (silence_minimum_duration p) (call_log_open_already_attempted p)
    (call_log_file_handle p) (utterance_counter p)
    (utterance_preendpointer_recording_open_already_attempted p)
    (utterance_preendpointer_recording_file_handle p)
    (utterance_postendpointer_recording_open_already_attempted p)
    (utterance_postendpointer_recording_file_handle p) (logical_agent_name p)
    (project_id p) (session_id p) (service_key p) (endpoint p) (event p)
    (language p) (lastAudioResponse p) (call_log_path p) v
    (call_logging_application_name p) (call_logging_context p).
Definition set_call_logging_application_name
  (v : string) (p : gdf_pvt) : gdf_pvt :=
  Build_gdf_pvt (vad_state p) (vad_state_duration p) (vad_change_duration p)
    (voice_threshold p) (voice_minimum_duration p)
    (silence_minimum_duration p) (call_log_open_already_attempted p)
    (call_log_file_handle p) (utterance_counter p)
    (utterance_preendpointer_recording_open_already_attempted p)
    (utterance_preendpointer_recording_file_handle p)
    (utterance_postendpointer_recording_open_already_attempted p)
    (utterance_postendpointer_recording_file_handle p) (logical_agent_name p)
    (project_id p) (session_id p) (service_key p) (endpoint p) (event p)
    (language p) (lastAudioResponse p) (call_log_path p)
    (call_log_file_basename p) v (call_logging_context p).
Definition set_call_logging_context (v : string) (p : gdf_pvt) : gdf_pvt :=
  Build_gdf_pvt (vad_state p) (vad_state_duration p) (vad_change_duration p)
    (voice_threshold p) (voice_minimum_duration p)
    (silence_minimum_duration p) (call_log_open_already_attempted p)
    (call_log_file_handle p) (utterance_counter p)
    (utterance_preendpointer_recording_open_already_attempted p)
    (utterance_preendpointer_recording_file_handle p)
    (utterance_postendpointer_recording_open_already_attempted p)
    (utterance_postendpointer_recording_file_handle p) (logical_agent_name p)
    (project_id p) (session_id p) (service_key p) (endpoint p) (event p)
    (language p) (lastAudioResponse p) (call_log_path p)
    (call_log_file_basename p) (call_logging_application_name p) v.

(** [struct gdf_config]; the three [enable_] fields are [int]s holding
    what [ast_true] returned. *)
Record gdf_config : Type := Build_gdf_config {
  vad_voice_threshold : Z;
  vad_voice_minimum_duration : Z;
  vad_silence_minimum_duration : Z;
  enable_call_logs : Z;
  enable_preendpointer_recordings : Z;
  enable_postendpointer_recordings : Z;
  cfg_service_key : string;
  cfg_endpoint : string;
  call_log_location : string
}.

(** What the engine observes of its surroundings and does not decide. *)
Record platform : Type := Build_platform {
  (** what [gdf_get_config] finds in the container, [NULL] when nothing *)
  config : option gdf_config;
  (** whether [fopen(path, "w")] succeeds *)
  fopen_succeeds : string -> bool;
  (** Asterisk's linear to mu-law table *)
  AST_LIN2MU : Z -> Z;
  (** [ast_str_substitute_variables_varshead] on the location template,
      with [APPLICATION] bound to the first argument *)
  substitute_variables : string -> string -> string;
  (** minute and second of [ast_localtime(ast_tvnow())] *)
  tm_min : Z;
  tm_sec : Z
}.

(** What the DialogFlow library answers during one call of the engine. *)
Record df_answers : Type := Build_df_answers {
  df_start_recognition_ret : Z;
  df_write_audio_ret : dialogflow_session_state;
  df_get_response_count_ret : Z;
  df_recognize_event_ret : Z
}.

(** The calls that leave the engine, in the order they are made. *)
Inductive io_event : Type :=
| io_fopen (path : string) (result : option FILE)
| io_fclose (f : FILE)
| io_fwrite (f : FILE) (bytes : list Z)
| io_fprintf (f : FILE) (type : gdf_call_log_type) (log_event : string)
    (log_data : list dialogflow_log_data)
| io_mkdir (path : string)
| io_df_set_session_id (value : string)
| io_df_set_project_id (value : string)
| io_df_start_recognition (lang : string)
| io_df_write_audio (mulaw : list Z)
| io_df_get_response_count
| io_df_stop_recognition
| io_df_recognize_event (name lang : string).

(** [struct ast_speech] with its private data, the streams handed out so
    far and the trace of calls. *)
Record world : Type := Build_world {
  state : ast_speech_states;
  AST_SPEECH_QUIET : bool;
  AST_SPEECH_SPOKE : bool;
  data : gdf_pvt;
  next_FILE : FILE;
  trace : list io_event
}.

(** ** The monad of engine code: state, with faults *)

Definition M (A : Type) : Type := world -> option (A * world).

Definition ret {A} (a : A) : M A := fun w => Some (a, w).

Definition bind {A B} (m : M A) (k : A -> M B) : M B :=
  fun w => match m w with
           | Some (a, w') => k a w'
           | None => None
           end.

Definition fault {A} : M A := fun _ => None.

Notation "x <- m ;; k" := (bind m (fun x => k))
  (at level 61, m at next level, right associativity).
Notation "m ;; k" := (bind m (fun _ => k))
  (at level 61, right associativity).

Definition lift {A} (o : option A) : M A :=
  match o with Some a => ret a | None => fault end.

(** Assignments to the parts of the world. *)
Definition set_data (p : gdf_pvt) (w : world) : world :=
  Build_world (state w) (AST_SPEECH_QUIET w) (AST_SPEECH_SPOKE w) p
    (next_FILE w) (trace w).

Definition set_state (s : ast_speech_states) (w : world) : world :=
  Build_world s (AST_SPEECH_QUIET w) (AST_SPEECH_SPOKE w) (data w)
    (next_FILE w) (trace w).

Definition set_flags (quiet spoke : bool) (w : world) : world :=
  Build_world (state w) quiet spoke (data w) (next_FILE w) (trace w).

Definition set_next_FILE (n : FILE) (w : world) : world :=
  Build_world (state w) (AST_SPEECH_QUIET w) (AST_SPEECH_SPOKE w) (data w)
    n (trace w).

Definition add_trace (evs : list io_event) (w : world) : world :=
  Build_world (state w) (AST_SPEECH_QUIET w) (AST_SPEECH_SPOKE w) (data w)
    (next_FILE w) (trace w ++ evs).

Definition get_pvt : M gdf_pvt := fun w => Some (data w, w).

Definition modify_pvt (f : gdf_pvt -> gdf_pvt) : M unit :=
  fun w => Some (tt, set_data (f (data w)) w).

Definition emit (e : io_event) : M unit :=
  fun w => Some (tt, add_trace [e] w).

(** [ast_speech_change_state] of res_speech.c: [WAIT] also raises the
    spoke flag. *)
Definition ast_speech_change_state (s : ast_speech_states) : M unit :=
  fun w =>
    Some (tt, set_state s
                (match s with
                 | AST_SPEECH_STATE_WAIT => set_flags (AST_SPEECH_QUIET w) true w
                 | _ => w
                 end)).

(** [ast_test_flag(speech, AST_SPEECH_SPOKE)]. *)
Definition test_spoke : M bool := fun w => Some (AST_SPEECH_SPOKE w, w).

(** [ast_set_flag] of [AST_SPEECH_QUIET], then of [AST_SPEECH_SPOKE]. *)
Definition set_quiet_and_spoke : M unit :=
  fun w => Some (tt, set_flags true true w).

Definition fresh_FILE : M FILE :=
  fun w => Some (next_FILE w, set_next_FILE (S (next_FILE w)) w).

(** Writing through a stream pointer: [NULL] is a fault. *)
Definition fwrite (bytes : list Z) (stream : option FILE) : M unit :=
  match stream with
  | Some f => emit (io_fwrite f bytes)
  | None => fault
  end.

Definition fprintf (stream : option FILE) (type : gdf_call_log_type)
    (log_event : string) (log_data : list dialogflow_log_data) : M unit :=
  match stream with
  | Some f => emit (io_fprintf f type log_event log_data)
  | None => fault
  end.

Definition fclose (f : FILE) : M unit := emit (io_fclose f).

(** ** The engine *)

Section Engine.

Variable env : platform.

(** [fopen(path, "w")]: a stream nobody holds yet, or [NULL]. *)
Definition fopen (path : string) : M (option FILE) :=
  if fopen_succeeds env path then
    f <- fresh_FILE ;; emit (io_fopen path (Some f)) ;; ret (Some f)
  else
    emit (io_fopen path None) ;; ret None.

(** *** The call log *)

Definition call_log_enabled_for_pvt : M Z :=
  match config env with
  | Some cfg =>
      let log_enabled := enable_call_logs cfg in
      if truthy log_enabled then
        pvt <- get_pvt ;;
        ret (of_bool (match call_log_file_handle pvt with
                      | Some _ => true
                      | None => false
                      end))
      else ret log_enabled
  | None => ret 0
  end.

(** The JSON line is kept as its type, its event and its attributes; the
    time stamp is left out. *)
Definition gdf_log_call_event (type : gdf_call_log_type) (log_event : string)
    (log_data : list dialogflow_log_data) : M unit :=
  enabled <- call_log_enabled_for_pvt ;;
  if negb (truthy enabled) then ret tt
  else
    pvt <- get_pvt ;;
    fprintf (call_log_file_handle pvt) type log_event log_data.

Definition gdf_log_call_event_only (type : gdf_call_log_type)
    (log_event : string) : M unit :=
  gdf_log_call_event type log_event [].

Definition write_end_of_recognition_call_event : M unit :=
  gdf_log_call_event_only CALL_LOG_TYPE_SESSION "end".

(** [build_log_related_filename_to_thread_local_str], lines 706 to 719.
    The code hands [call_log_path] and [call_log_file_basename] to
    [ast_str_set] and [ast_str_append] as the format itself; the
    concatenation below is what these calls produce when neither string
    holds a conversion specification (no percent sign), and only then. *)
Definition build_log_related_filename_to_thread_local_str
    (include_utterance_counter : Z) (type extension : string) : M string :=
  pvt <- get_pvt ;;
  let path := call_log_path pvt in
  let path := (path ++ call_log_file_basename pvt)%string in
  let path := (path ++ "_" ++ type)%string in
  let path := if truthy include_utterance_counter
              then (path ++ "_" ++ fmt_d (utterance_counter pvt))%string
              else path in
  ret (path ++ "." ++ extension)%string.

Definition should_start_call_log : M Z :=
  pvt <- get_pvt ;;
  let should_start :=
    of_bool (negb (truthy (call_log_open_already_attempted pvt))) in
  if truthy should_start then
    match config env with
    | Some cfg => ret (Z.land should_start (enable_call_logs cfg))
    | None => ret should_start
    end
  else ret should_start.

Definition calculate_log_path : M unit :=
  pvt <- get_pvt ;;
  let var := call_logging_application_name pvt in
  match config env with
  | Some cfg =>
      let path := substitute_variables env var (call_log_location cfg) in
      modify_pvt (set_call_log_path path)
  | None => ret tt
  end.

Definition calculate_log_file_basename : M unit :=
  pvt <- get_pvt ;;
  modify_pvt (set_call_log_file_basename
    (fmt_02d (tm_min env) ++ fmt_02d (tm_sec env) ++ "_" ++ session_id pvt)%string).

Definition mkdir_log_path : M unit :=
  pvt <- get_pvt ;; emit (io_mkdir (call_log_path pvt)).

Definition start_call_log : M unit :=
  modify_pvt (set_call_log_open_already_attempted 1) ;;
  calculate_log_path ;;
  calculate_log_file_basename ;;
  pvt <- get_pvt ;;
  if negb (ast_strlen_zero (call_log_path pvt)) then
    mkdir_log_path ;;
    path <- build_log_related_filename_to_thread_local_str 0 "log" "jsonl" ;;
    log_file <- fopen path ;;
    match log_file with
    | Some f => modify_pvt (set_call_log_file_handle (Some f))
    | None => ret tt
    end
  else ret tt.

(** [log_endpointer_start_event], lines 752 to 777.  Each tunable is
    printed with [sprintf] and "%d" into an array of 11 characters,
    which holds every [int] but the negative ones of ten digits; [fmt_d]
    is the text that is printed, and the array is taken to hold it. *)
Definition log_endpointer_start_event : M unit :=
  pvt <- get_pvt ;;
  let threshold := fmt_d (voice_threshold pvt) in
  let voice_duration := fmt_d (voice_minimum_duration pvt) in
  let silence_duration := fmt_d (silence_minimum_duration pvt) in
  gdf_log_call_event CALL_LOG_TYPE_ENDPOINTER "start"
    [("voice_threshold", threshold);
     ("voice_duration", voice_duration);
     ("silence_duration", silence_duration)].

(** *** Recordings *)

Definition are_currently_recording_pre_endpointed_audio : M Z :=
  pvt <- get_pvt ;;
  ret (of_bool (match utterance_preendpointer_recording_file_handle pvt with
                | Some _ => true
                | None => false
                end)).

Definition open_preendpointed_recording_file : M Z :=
  path <- build_log_related_filename_to_thread_local_str 1 "pre" "ul" ;;
  modify_pvt (set_utterance_preendpointer_recording_open_already_attempted 1) ;;
  record_file <- fopen path ;;
  match record_file with
  | Some f =>
      gdf_log_call_event CALL_LOG_TYPE_ENDPOINTER "pre_recording_start"
        [("filename", path)] ;;
      modify_pvt (set_utterance_preendpointer_recording_file_handle (Some f)) ;;
      ret 0
  | None => ret (-1)
  end.

Definition open_postendpointed_recording_file : M Z :=
  path <- build_log_related_filename_to_thread_local_str 1 "post" "ul" ;;
  modify_pvt (set_utterance_postendpointer_recording_open_already_attempted 1) ;;
  record_file <- fopen path ;;
  match record_file with
  | Some f =>
      gdf_log_call_event CALL_LOG_TYPE_ENDPOINTER "post_recording_start"
        [("filename", path)] ;;
      modify_pvt (set_utterance_postendpointer_recording_file_handle (Some f)) ;;
      ret 0
  | None => ret (-1)
  end.

(** The four locals that [maybe_record_audio] reads under the lock; they
    keep their initial 0 unless a recording is enabled and the call log
    path is set. *)
Record recording_flags : Type := Build_recording_flags {
  currently_recording_preendpointed_audio : Z;
  already_attempted_open_for_preendpointed_audio : Z;
  currently_recording_postendpointed_audio : Z;
  already_attempted_open_for_postendpointed_audio : Z
}.

Definition read_recording_flags
    (enable_preendpointer_recordings enable_postendpointer_recordings : Z)
    (pvt : gdf_pvt) : recording_flags :=
  let have_call_log_path := negb (ast_strlen_zero (call_log_path pvt)) in
  if (truthy enable_postendpointer_recordings
      || truthy enable_preendpointer_recordings) && have_call_log_path
  then
    Build_recording_flags
      (of_bool (match utterance_preendpointer_recording_file_handle pvt with
                | Some _ => true | None => false end))
      (utterance_preendpointer_recording_open_already_attempted pvt)
      (of_bool (match utterance_postendpointer_recording_file_handle pvt with
                | Some _ => true | None => false end))
      (utterance_postendpointer_recording_open_already_attempted pvt)
  else Build_recording_flags 0 0 0 0.

Definition maybe_record_audio (mulaw : list Z) (current_vad_state : VAD_STATE)
    : M unit :=
  let enable_preendpointer_recordings :=
    match config env with
    | Some cfg => enable_preendpointer_recordings cfg
    | None => 0
    end in
  let enable_postendpointer_recordings :=
    match config env with
    | Some cfg => enable_postendpointer_recordings cfg
    | None => 0
    end in
  pvt <- get_pvt ;;
  let flags := read_recording_flags enable_preendpointer_recordings
                 enable_postendpointer_recordings pvt in
  (if truthy enable_preendpointer_recordings then
     currently_recording <-
       (if negb (truthy (currently_recording_preendpointed_audio flags))
           && negb (truthy (already_attempted_open_for_preendpointed_audio flags))
        then
          r <- open_preendpointed_recording_file ;;
          ret (if negb (truthy r) then 1
               else currently_recording_preendpointed_audio flags)
        else ret (currently_recording_preendpointed_audio flags)) ;;
     if truthy currently_recording then
       pvt <- get_pvt ;;
       fwrite mulaw (utterance_preendpointer_recording_file_handle pvt)
     else ret tt
   else ret tt) ;;
  (if truthy enable_postendpointer_recordings
      && VAD_STATE_eqb current_vad_state VAD_STATE_SPEAK then
     currently_recording <-
       (if negb (truthy (currently_recording_postendpointed_audio flags))
           && negb (truthy (already_attempted_open_for_postendpointed_audio flags))
        then
          r <- open_postendpointed_recording_file ;;
          ret (if negb (truthy r) then 1
               else currently_recording_postendpointed_audio flags)
        else ret (currently_recording_postendpointed_audio flags)) ;;
     if truthy currently_recording then
       pvt <- get_pvt ;;
       fwrite mulaw (utterance_postendpointer_recording_file_handle pvt)
     else ret tt
   else ret tt).

Definition close_preendpointed_audio_recording : M unit :=
  pvt <- get_pvt ;;
  match utterance_preendpointer_recording_file_handle pvt with
  | Some f =>
      fclose f ;;
      modify_pvt (set_utterance_preendpointer_recording_file_handle None)
  | None => ret tt
  end ;;
  gdf_log_call_event_only CALL_LOG_TYPE_ENDPOINTER "pre_recording_stop".

Definition close_postendpointed_audio_recording : M unit :=
  pvt <- get_pvt ;;
  match utterance_postendpointer_recording_file_handle pvt with
  | Some f =>
      fclose f ;;
      modify_pvt (set_utterance_postendpointer_recording_file_handle None)
  | None => ret tt
  end ;;
  gdf_log_call_event_only CALL_LOG_TYPE_ENDPOINTER "post_recording_stop".

Definition gdf_stop_recognition : M Z :=
  close_preendpointed_audio_recording ;;
  close_postendpointed_audio_recording ;;
  ast_speech_change_state AST_SPEECH_STATE_DONE ;;
  write_end_of_recognition_call_event ;;
  ret 0.

(** *** The endpointer and the write path *)

(** [gdf_write], lines 550 to 562: the time of audio that disagrees with
    the current state. *)
Definition vote (vad_state : VAD_STATE) (avg_level threshold : Z)
    (change_duration datams : Z) : Z :=
  if avg_level >=? threshold then
    if negb (VAD_STATE_eqb vad_state VAD_STATE_SPEAK)
    then int_add change_duration datams
    else 0
  else
    if negb (VAD_STATE_eqb vad_state VAD_STATE_SPEAK)
    then 0
    else int_add change_duration datams.

(** The locals [vad_state], [cur_duration] and [change_duration] of
    [gdf_write]. *)
Record vad_locals : Type := Build_vad_locals {
  l_vad_state : VAD_STATE;
  l_cur_duration : Z;
  l_change_duration : Z
}.

(** [gdf_write], lines 564 to 581, without the two log calls: the
    transition rule. *)
Definition transition (l : vad_locals) (voice_duration silence_duration : Z)
    : vad_locals :=
  match l_vad_state l with
  | VAD_STATE_START =>
      if l_change_duration l >=? voice_duration
      then Build_vad_locals VAD_STATE_SPEAK 0 0
      else l
  | VAD_STATE_SPEAK =>
      if l_change_duration l >=? silence_duration
      then Build_vad_locals VAD_STATE_SILENT 0 0
      else l
  | VAD_STATE_SILENT => l
  end.

(** [datasamples = len / sizeof(short)] and [datams = datasamples / 8]. *)
Definition datasamples_of (len : Z) : Z := to_int (to_size_t len / 2).
Definition datams_of (len : Z) : Z := Z.quot (datasamples_of len) 8.

(** The endpointer's part of one [gdf_write], lines 536 to 581, as a
    function of the private data and of the level of the frame. *)
Definition vad_step (pvt : gdf_pvt) (avg_level len : Z) : vad_locals :=
  let datams := datams_of len in
  let cur_duration := int_add (vad_state_duration pvt) datams in
  let change_duration :=
    vote (vad_state pvt) avg_level (voice_threshold pvt)
      (vad_change_duration pvt) datams in
  transition (Build_vad_locals (vad_state pvt) cur_duration change_duration)
    (voice_minimum_duration pvt) (silence_minimum_duration pvt).

(** The mu-law copy of the first [datasamples] samples, lines 603 to 609
    and 625 to 631.
    The code allocates [datasamples] bytes on the stack and passes the
    count on as a [size_t]; the list below is that buffer for a count that
    is 0 or more.  A negative [len] gives a negative count, for which the
    list is empty while the code asks for a buffer of nearly 2^64 bytes. *)
Definition lin2mu_frame (data : samples) (datasamples : Z) : list Z :=
  map (fun i => AST_LIN2MU env (data i)) (seq 0 (Z.to_nat datasamples)).

(** The assignments of lines 583 to 587. *)
Definition commit (l : vad_locals) (pvt : gdf_pvt) : gdf_pvt :=
  set_vad_change_duration (l_change_duration l)
    (set_vad_state_duration (l_cur_duration l)
       (set_vad_state (l_vad_state l) pvt)).

(** [gdf_write], lines 535 to 587: the endpointer reads the private data,
    takes the level of the frame, logs a transition and stores the three
    locals back.  It yields [orig_vad_state] and [vad_state]. *)
Definition gdf_write_endpointer (data : samples) (len : Z)
    : M (VAD_STATE * VAD_STATE) :=
  pvt <- get_pvt ;;
  let orig_vad_state := vad_state pvt in
  avg_level <- lift (calculate_audio_level data len) ;;
  let l := vad_step pvt avg_level len in
  (match orig_vad_state, l_vad_state l with
   | VAD_STATE_START, VAD_STATE_SPEAK =>
       gdf_log_call_event_only CALL_LOG_TYPE_ENDPOINTER "start_of_speech"
   | VAD_STATE_SPEAK, VAD_STATE_SILENT =>
       gdf_log_call_event_only CALL_LOG_TYPE_ENDPOINTER "end_of_speech"
   | _, _ => ret tt
   end) ;;
  modify_pvt (commit l) ;;
  ret (orig_vad_state, l_vad_state l).

(** [gdf_write], lines 595 to 600: the exchange is opened on the frame
    that commits to speech. *)
Definition gdf_write_start (df : df_answers)
    (orig_vad_state vad_state : VAD_STATE) : M unit :=
  if VAD_STATE_eqb vad_state VAD_STATE_SPEAK
     && VAD_STATE_eqb orig_vad_state VAD_STATE_START then
    pvt <- get_pvt ;;
    emit (io_df_start_recognition (language pvt)) ;;
    if truthy (df_start_recognition_ret df) then
      gdf_stop_recognition ;; ret tt
    else ret tt
  else ret tt.

(** [gdf_write], lines 602 to 634: the frame is converted, recorded and
    forwarded.  While [AST_SPEECH_SPOKE] is not set the library is asked
    for its number of responses (line 615), and not otherwise: the test
    of the flag comes first in the condition. *)
Definition gdf_write_forward (df : df_answers) (data : samples)
    (datasamples : Z) (vad_state : VAD_STATE) : M unit :=
  if negb (VAD_STATE_eqb vad_state VAD_STATE_START) then
    let mulaw := lin2mu_frame data datasamples in
    maybe_record_audio mulaw vad_state ;;
    emit (io_df_write_audio mulaw) ;;
    let state := df_write_audio_ret df in
    spoke <- test_spoke ;;
    (if negb spoke then
       emit io_df_get_response_count ;;
       if df_get_response_count_ret df >? 0 then set_quiet_and_spoke
       else ret tt
     else ret tt) ;;
    match state with
    | DF_STATE_FINISHED | DF_STATE_ERROR =>
        emit io_df_stop_recognition ;;
        gdf_stop_recognition ;; ret tt
    | _ => ret tt
    end
  else
    recording <- are_currently_recording_pre_endpointed_audio ;;
    if truthy recording then
      let mulaw := lin2mu_frame data datasamples in
      maybe_record_audio mulaw vad_state
    else ret tt.

(** [static int gdf_write(struct ast_speech *speech, void *data, int len)]:
    the three blocks in sequence.  The level is taken over [len], the
    number of bytes, as the call at line 549 passes it. *)
Definition gdf_write (df : df_answers) (data : samples) (len : Z) : M Z :=
  states <- gdf_write_endpointer data len ;;
  gdf_write_start df (fst states) (snd states) ;;
  gdf_write_forward df data (datasamples_of len) (snd states) ;;
  ret 0.

(** *** Starting an utterance *)

(** [static int gdf_start(struct ast_speech *speech)], lines 779 to 829.
    The utterance counter is printed like the tunables of
    [log_endpointer_start_event], into an array of 11 characters that is
    taken to hold it. *)
Definition gdf_start (df : df_answers) : M Z :=
  pvt <- get_pvt ;;
  let event := event pvt in
  let language := language pvt in
  let project_id := project_id pvt in
  modify_pvt (fun p =>
    set_utterance_counter (int_add (utterance_counter p) 1)
      (set_vad_change_duration 0
         (set_vad_state_duration 0
            (set_vad_state VAD_STATE_START
               (set_event "" p))))) ;;
  should_start <- should_start_call_log ;;
  (if truthy should_start then start_call_log else ret tt) ;;
  pvt <- get_pvt ;;
  gdf_log_call_event CALL_LOG_TYPE_SESSION "start"
    [("event", event);
     ("language", language);
     ("project_id", project_id);
     ("logical_agent_name", logical_agent_name pvt);
     ("utterance", fmt_d (utterance_counter pvt));
     ("context", call_logging_context pvt);
     ("application", call_logging_application_name pvt)] ;;
  log_endpointer_start_event ;;
  (if negb (ast_strlen_zero event) then
     emit (io_df_recognize_event event language) ;;
     if truthy (df_recognize_event_ret df) then
       ast_speech_change_state AST_SPEECH_STATE_NOT_READY
     else
       gdf_stop_recognition ;; ret tt
   else ast_speech_change_state AST_SPEECH_STATE_READY) ;;
  ret 0.

(** [activate_old_style_event]: the name after ["event:"] primes the next
    utterance. *)
Definition EVENT_COLON_LEN : nat := 6.

Definition activate_old_style_event (grammar_name : string) : M unit :=
  let name :=
    substring EVENT_COLON_LEN (String.length grammar_name - EVENT_COLON_LEN)
      grammar_name in
  modify_pvt (set_event name).

(** *** Properties *)

Definition GDF_PROP_SESSION_ID_NAME := "session_id".
Definition GDF_PROP_ALTERNATE_SESSION_NAME := "name".
Definition GDF_PROP_PROJECT_ID_NAME := "project_id".
Definition GDF_PROP_LANGUAGE_NAME := "language".
Definition GDF_PROP_LOG_CONTEXT := "log_context".
Definition GDF_PROP_ALTERNATE_LOG_CONTEXT := "logContext".
Definition GDF_PROP_APPLICATION_CONTEXT := "application".
Definition VAD_PROP_VOICE_THRESHOLD := "voice_threshold".
Definition VAD_PROP_VOICE_DURATION := "voice_duration".
Definition VAD_PROP_SILENCE_DURATION := "silence_duration".

(** The body shared by the three numeric properties of [gdf_change]. *)
Definition change_tunable (set : Z -> gdf_pvt -> gdf_pvt) (value : string)
    : M Z :=
  if ast_strlen_zero value then ret (-1)
  else match sscanf_d value with
       | Some i => modify_pvt (set i) ;; ret 0
       | None => ret (-1)
       end.

(** [!strcasecmp(name, prop)]. *)
Definition named (name prop : string) : bool := strcasecmp name prop =? 0.

Definition gdf_change (name value : string) : M Z :=
  if named name GDF_PROP_SESSION_ID_NAME || named name GDF_PROP_ALTERNATE_SESSION_NAME
  then
    if ast_strlen_zero value then ret (-1)
    else
      emit (io_df_set_session_id value) ;;
      modify_pvt (set_session_id value) ;; ret 0
  else if named name GDF_PROP_PROJECT_ID_NAME then
    if ast_strlen_zero value then ret (-1)
    else
      modify_pvt (set_project_id value) ;;
      emit (io_df_set_project_id value) ;; ret 0
  else if named name GDF_PROP_LANGUAGE_NAME then
    modify_pvt (set_language value) ;; ret 0
  else if named name GDF_PROP_LOG_CONTEXT || named name GDF_PROP_ALTERNATE_LOG_CONTEXT
  then
    modify_pvt (set_call_logging_context value) ;; ret 0
  else if named name GDF_PROP_APPLICATION_CONTEXT then
    modify_pvt (set_call_logging_application_name value) ;; ret 0
  else if named name VAD_PROP_VOICE_THRESHOLD then
    change_tunable set_voice_threshold value
  else if named name VAD_PROP_VOICE_DURATION then
    change_tunable set_voice_minimum_duration value
  else if named name VAD_PROP_SILENCE_DURATION then
    change_tunable set_silence_minimum_duration value
  else ret (-1).

End Engine.

(** *** A new session *)

(** [gdf_create]: the private data is zeroed, the thresholds come from the
    configuration, the session id is the printed address [sid]. *)
Definition new_pvt (cfg : gdf_config) (sid : string) : gdf_pvt :=
  Build_gdf_pvt VAD_STATE_START 0 0
    (vad_voice_threshold cfg) (vad_voice_minimum_duration cfg)
    (vad_silence_minimum_duration cfg)
    0 None 0 0 None 0 None
    "" "" sid "" "" "" "" "" "" "" "unknown" "".

Definition new_world (cfg : gdf_config) (sid : string) : world :=
  Build_world AST_SPEECH_STATE_NOT_READY false false (new_pvt cfg sid)
    0%nat [].

(** [gdf_create] reads the configuration without testing the pointer; the
    calls that set up the library's session are not traced. *)
Definition gdf_create (env : platform) (sid : string) : option world :=
  match config env with
  | Some cfg => Some (new_world cfg sid)
  | None => None
  end.

(** ** Runs *)

(** The frames of a call in arrival order, each with what the DialogFlow
    library answers while it is written. *)
Definition frame : Type := (df_answers * samples * Z)%type.

(** The worlds after each frame of [frames], from [w]; [None] when a write
    faults. *)
Fixpoint write_frames (env : platform) (frames : list frame) (w : world)
    : option (list world) :=
  match frames with
  | [] => Some []
  | (df, data, len) :: rest =>
      match gdf_write env df data len w with
      | Some (_, w') =>
          match write_frames env rest w' with
          | Some ws => Some (w' :: ws)
          | None => None
          end
      | None => None
      end
  end.

(** ** Observations on worlds and traces *)

(** The stream a call-log line goes to: what [call_log_enabled_for_pvt]
    lets through. *)
Definition call_log_stream (env : platform) (pvt : gdf_pvt) : option FILE :=
  match config env with
  | Some cfg =>
      if truthy (enable_call_logs cfg) then call_log_file_handle pvt else None
  | None => None
  end.

(** The events of one [gdf_log_call_event]: a line, or nothing. *)
Definition log_line (env : platform) (pvt : gdf_pvt) (type : gdf_call_log_type)
    (log_event : string) (log_data : list dialogflow_log_data) : list io_event :=
  match call_log_stream env pvt with
  | Some f => [io_fprintf f type log_event log_data]
  | None => []
  end.

(** The streams that a trace closes, in order. *)
Fixpoint fcloses (t : list io_event) : list FILE :=
  match t with
  | io_fclose f :: t' => f :: fcloses t'
  | _ :: t' => fcloses t'
  | [] => []
  end.

(** The paths that a trace opens or tries to, in order. *)
Fixpoint fopens (t : list io_event) : list string :=
  match t with
  | io_fopen path _ :: t' => path :: fopens t'
  | _ :: t' => fopens t'
  | [] => []
  end.

(** The directories that a trace makes, in order. *)
Fixpoint mkdirs (t : list io_event) : list string :=
  match t with
  | io_mkdir path :: t' => path :: mkdirs t'
  | _ :: t' => mkdirs t'
  | [] => []
  end.

(** The call-log lines of a trace: type and event, in order. *)
Fixpoint log_lines (t : list io_event) : list (gdf_call_log_type * string) :=
  match t with
  | io_fprintf _ type log_event _ :: t' => (type, log_event) :: log_lines t'
  | _ :: t' => log_lines t'
  | [] => []
  end.

(** The streams a pointer holds: one, or none for [NULL]. *)
Definition held (stream : option FILE) : list FILE :=
  match stream with Some f => [f] | None => [] end.

(** The endpointer's view of the private data. *)
Definition vad_of (pvt : gdf_pvt) : vad_locals :=
  Build_vad_locals (vad_state pvt) (vad_state_duration pvt)
    (vad_change_duration pvt).

(** The three tunables. *)
Definition tunables_of (pvt : gdf_pvt) : Z * Z * Z :=
  (voice_threshold pvt, voice_minimum_duration pvt,
   silence_minimum_duration pvt).

(** The calls into the DialogFlow library that a trace makes, in order. *)
Fixpoint df_calls (t : list io_event) : list io_event :=
  match t with
  | (io_df_set_session_id _ | io_df_set_project_id _
     | io_df_start_recognition _ | io_df_write_audio _
     | io_df_get_response_count
     | io_df_stop_recognition | io_df_recognize_event _ _) as e :: t' =>
      e :: df_calls t'
  | _ :: t' => df_calls t'
  | [] => []
  end.

(** The lines of one [gdf_stop_recognition] while the call log is written. *)
Definition stop_lines : list (gdf_call_log_type * string) :=
  [(CALL_LOG_TYPE_ENDPOINTER, "pre_recording_stop");
   (CALL_LOG_TYPE_ENDPOINTER, "post_recording_stop");
   (CALL_LOG_TYPE_SESSION, "end")].

(** How often a trace logs the event [name]. *)
Definition times_logged (name : string) (t : list io_event) : nat :=
  List.length (filter (fun l => String.eqb (snd l) name) (log_lines t)).

(** The recording streams that the private data holds. *)
Definition recordings (pvt : gdf_pvt) : list FILE :=
  held (utterance_preendpointer_recording_file_handle pvt)
  ++ held (utterance_postendpointer_recording_file_handle pvt).

(** The three numeric properties of [gdf_change]: the name, the field and
    its assignment. *)
Definition tunable_properties
    : list (string * (gdf_pvt -> Z) * (Z -> gdf_pvt -> gdf_pvt)) :=
  [(VAD_PROP_VOICE_THRESHOLD, voice_threshold, set_voice_threshold);
   (VAD_PROP_VOICE_DURATION, voice_minimum_duration,
    set_voice_minimum_duration);
   (VAD_PROP_SILENCE_DURATION, silence_minimum_duration,
    set_silence_minimum_duration)].

(** The streams that a trace has opened and not closed, in the order in
    which they were opened. *)
Fixpoint open_streams_from (t : list io_event) (open : list FILE)
    : list FILE :=
  match t with
  | io_fopen _ (Some f) :: t' => open_streams_from t' (open ++ [f])
  | io_fclose f :: t' => open_streams_from t' (remove Nat.eq_dec f open)
  | _ :: t' => open_streams_from t' open
  | [] => open
  end.

Definition open_streams (t : list io_event) : list FILE :=
  open_streams_from t [].

(** Whether [value] starts with an integer as the conversion [%d] reads
    one: white space, then an optional sign, then a digit. *)
Definition starts_with_integer (value : string) : bool :=
  let digit_first (s : string) :=
    match s with
    | String c _ => match digit_of c with Some _ => true | None => false end
    | EmptyString => false
    end in
  match skip_space value with
  | String "-" s' => digit_first s'
  | String "+" s' => digit_first s'
  | s => digit_first s
  end.

(** The events of one [gdf_stop_recognition] on the private data [pvt]:
    the recordings that are open are closed, each close is followed by
    its stop line, and the session's end line comes last. *)
Definition finalize_events (env : platform) (pvt : gdf_pvt) : list io_event :=
  map io_fclose (held (utterance_preendpointer_recording_file_handle pvt))
  ++ log_line env pvt CALL_LOG_TYPE_ENDPOINTER "pre_recording_stop" []
  ++ map io_fclose (held (utterance_postendpointer_recording_file_handle pvt))
  ++ log_line env pvt CALL_LOG_TYPE_ENDPOINTER "post_recording_stop" []
  ++ log_line env pvt CALL_LOG_TYPE_SESSION "end" [].

(** The world that one [gdf_stop_recognition] leaves. *)
Definition finalized (env : platform) (w : world) : world :=
  Build_world AST_SPEECH_STATE_DONE (AST_SPEECH_QUIET w) (AST_SPEECH_SPOKE w)
    (set_utterance_postendpointer_recording_file_handle None
       (set_utterance_preendpointer_recording_file_handle None (data w)))
    (next_FILE w)
    (trace w ++ finalize_events env (data w)).

(** What the recording side channel may change between two worlds: the
    recording fields, the streams handed out and the trace, which only
    grows. *)
Definition recording_only (w w' : world) : Prop :=
  state w' = state w
  /\ AST_SPEECH_SPOKE w' = AST_SPEECH_SPOKE w
  /\ vad_of (data w') = vad_of (data w)
  /\ tunables_of (data w') = tunables_of (data w)
  /\ call_log_file_handle (data w') = call_log_file_handle (data w)
  /\ call_log_path (data w') = call_log_path (data w)
  /\ language (data w') = language (data w)
  /\ exists d, trace w' = trace w ++ d.

(** What a whole [gdf_write] may change beyond the endpointer's fields:
    the speech state and flags, the recording fields, the streams handed
    out, and the trace, which only grows. *)
Definition forwarding_only (w w' : world) : Prop :=
  vad_of (data w') = vad_of (data w)
  /\ tunables_of (data w') = tunables_of (data w)
  /\ call_log_file_handle (data w') = call_log_file_handle (data w)
  /\ language (data w') = language (data w)
  /\ exists d, trace w' = trace w ++ d.

(** The line that the endpointer logs when it commits a transition. *)
Definition transition_line (env : platform) (pvt : gdf_pvt) (l : vad_locals)
    : list io_event :=
  match vad_state pvt, l_vad_state l with
  | VAD_STATE_START, VAD_STATE_SPEAK =>
      log_line env pvt CALL_LOG_TYPE_ENDPOINTER "start_of_speech" []
  | VAD_STATE_SPEAK, VAD_STATE_SILENT =>
      log_line env pvt CALL_LOG_TYPE_ENDPOINTER "end_of_speech" []
  | _, _ => []
  end.

(** The statuses on which [gdf_write] stops the exchange. *)
Definition terminal (s : dialogflow_session_state) : bool :=
  match s with
  | DF_STATE_FINISHED | DF_STATE_ERROR => true
  | DF_STATE_RUNNING => false
  end.

(** What opening the call log may change between two worlds: the call-log
    fields and the streams handed out; the trace grows by events that close
    nothing, log nothing and do not reach the DialogFlow library. *)
Definition call_log_only (w w' : world) : Prop :=
  state w' = state w
  /\ recordings (data w') = recordings (data w)
  /\ exists d,
       trace w' = trace w ++ d
       /\ fcloses d = [] /\ log_lines d = [] /\ df_calls d = [].

(** The world after [gdf_write] has looked for responses: the library is
    asked for its count while the spoke flag is down, and a count above 0
    raises both flags. *)
Definition responded (df : df_answers) (w : world) : world :=
  if AST_SPEECH_SPOKE w then w
  else
    let w1 := add_trace [io_df_get_response_count] w in
    if df_get_response_count_ret df >? 0 then set_flags true true w1 else w1.

(** ** Sequences of states *)

Definition states (ws : list world) : list VAD_STATE :=
  map (fun w => vad_state (data w)) ws.

(** Whether a sequence of states goes from [VAD_STATE_START] straight to
    [VAD_STATE_SILENT] somewhere. *)
Fixpoint skips (l : list VAD_STATE) : bool :=
  match l with
  | VAD_STATE_START :: ((VAD_STATE_SILENT :: _) as l') => true
  | _ :: l' => skips l'
  | [] => false
  end.

(** Whether a sequence of states shows [VAD_STATE_SPEAK] before it shows
    [VAD_STATE_SILENT], if it shows [VAD_STATE_SILENT] at all. *)
Fixpoint speaking_first (l : list VAD_STATE) : bool :=
  match l with
  | VAD_STATE_START :: l' => speaking_first l'
  | VAD_STATE_SPEAK :: _ => true
  | VAD_STATE_SILENT :: _ => false
  | [] => true
  end.

(** ** A session to run *)

Module Example.

(** Thresholds 100, 40 ms and 500 ms; call log and both recordings on
    ([ast_true] yields -1). *)
Definition cfg : gdf_config :=
  Build_gdf_config 100 40 500 (-1) (-1) (-1) "" ""
    "/var/log/dialogflow/${APPLICATION}/".

(** The same with the call log off. *)
Definition cfg_no_call_log : gdf_config :=
  Build_gdf_config 100 40 500 0 (-1) (-1) "" ""
    "/var/log/dialogflow/${APPLICATION}/".

Definition substitute (application template : string) : string :=
  ("/var/log/dialogflow/" ++ application ++ "/")%string.

Definition env : platform :=
  Build_platform (Some cfg) (fun _ => true) (fun s => Z.shiftr s 8)
    substitute 7 9.

Definition env_no_call_log : platform :=
  Build_platform (Some cfg_no_call_log) (fun _ => true) (fun s => Z.shiftr s 8)
    substitute 7 9.

(** The library answers that all is well, and that an operation failed. *)
Definition df_ok : df_answers := Build_df_answers 0 DF_STATE_RUNNING 0 0.
Definition df_start_fails : df_answers :=
  Build_df_answers 1 DF_STATE_RUNNING 0 0.
Definition df_write_error : df_answers :=
  Build_df_answers 0 DF_STATE_ERROR 0 0.
Definition df_event_fails : df_answers :=
  Build_df_answers 0 DF_STATE_RUNNING 0 1.

(** The world after [m], and [w] itself should [m] fault. *)
Definition after {A} (m : M A) (w : world) : world :=
  match m w with
  | Some (_, w') => w'
  | None => w
  end.

(** What [gdf_create] leaves. *)
Definition created (c : gdf_config) : world := new_world c "0x7f01".

(** A session whose first utterance has been started. *)
Definition started : world := after (gdf_start env df_ok) (created cfg).

Definition started_no_call_log : world :=
  after (gdf_start env_no_call_log df_ok) (created cfg_no_call_log).

(** A frame of 5 ms (40 samples, 80 bytes) in memory that holds 150
    throughout. *)
Definition frame_5ms : frame := (df_ok, fun _ => 150, 80).

(** A frame of 5 ms: the 40 samples are all 150 and the memory behind them
    holds zeros. *)
Definition samples_5ms : list Z := repeat 150 40.
Definition frame_5ms_alone : frame := (df_ok, frame_of samples_5ms, 80).

(** A frame of 20 ms (160 samples, 320 bytes): the samples are all 150 and
    the memory behind them holds zeros. *)
Definition samples_20ms : list Z := repeat 150 160.
Definition frame_20ms (df : df_answers) : frame :=
  (df, frame_of samples_20ms, 320).

(** A frame of 20 ms in memory that holds 600 throughout. *)
Definition loud_20ms (df : df_answers) : frame := (df, fun _ => 600, 320).

(** The last world of a run. *)
Definition after_frames (e : platform) (frames : list frame) (w : world)
    : world :=
  match write_frames e frames w with
  | Some ws => last ws w
  | None => w
  end.

(** A session one frame short of speech: 20 ms of the 40 ms are in. *)
Definition about_to_speak : world :=
  after_frames env [loud_20ms df_ok] started.

(** A session that is speaking: two loud frames make 40 ms. *)
Definition speaking : world :=
  after_frames env [loud_20ms df_ok; loud_20ms df_ok] started.

(** The same session with the call log off. *)
Definition speaking_no_call_log : world :=
  after_frames env_no_call_log [loud_20ms df_ok; loud_20ms df_ok]
    started_no_call_log.

(** A new session primed with the event [welcome]. *)
Definition primed : world :=
  after (activate_old_style_event "event:welcome") (created cfg).

End Example.

(** ** What a run may change *)

(** Every returning run of [m] takes a world to one that [R] relates to
    it. *)
Definition steps (R : world -> world -> Prop) {A} (m : M A) : Prop :=
  forall w a w', m w = Some (a, w') -> R w w'.

(** The trace grows, and only by events that [allowed] lets through. *)
Definition grows_by (allowed : io_event -> bool) (w w' : world) : Prop :=
  exists d, trace w' = trace w ++ d /\ forallb allowed d = true.

(** An observation of the world is what it was. *)
Definition unchanged {X} (observe : world -> X) (w w' : world) : Prop :=
  observe w' = observe w.

(** Events by kind. *)
Definition is_df_call (e : io_event) : bool :=
  match e with
  | io_df_set_session_id _ | io_df_set_project_id _
  | io_df_start_recognition _ | io_df_write_audio _
  | io_df_get_response_count
  | io_df_stop_recognition | io_df_recognize_event _ _ => true
  | _ => false
  end.

Definition is_fopen (e : io_event) : bool :=
  match e with
  | io_fopen _ _ => true
  | _ => false
  end.

Definition is_file_creation (e : io_event) : bool :=
  match e with
  | io_fopen _ _ | io_mkdir _ => true
  | _ => false
  end.

Definition not_df_call (e : io_event) : bool := negb (is_df_call e).

Definition not_file_creation (e : io_event) : bool :=
  negb (is_file_creation e).

(** The three "already attempted" flags, as C truth values. *)
Definition attempted_flags (w : world) : bool * bool * bool :=
  (truthy (call_log_open_already_attempted (data w)),
   truthy (utterance_preendpointer_recording_open_already_attempted (data w)),
   truthy (utterance_postendpointer_recording_open_already_attempted (data w))).

(** A flag that is set stays set. *)
Definition flags_stay (w w' : world) : Prop :=
  (truthy (call_log_open_already_attempted (data w)) = true ->
   truthy (call_log_open_already_attempted (data w')) = true)
  /\ (truthy (utterance_preendpointer_recording_open_already_attempted (data w))
      = true ->
      truthy (utterance_preendpointer_recording_open_already_attempted (data w'))
      = true)
  /\ (truthy (utterance_postendpointer_recording_open_already_attempted (data w))
      = true ->
      truthy (utterance_postendpointer_recording_open_already_attempted (data w'))
      = true).

(** What [gdf_start] sets at its head and nothing later in it touches. *)
Definition utterance_of (w : world) : vad_locals * string * Z * (Z * Z * Z) :=
  (vad_of (data w), event (data w), utterance_counter (data w),
   tunables_of (data w)).

(** A session whose call log has been tried and is not open. *)
Definition call_log_given_up (w : world) : Prop :=
  truthy (call_log_open_already_attempted (data w)) = true
  /\ call_log_file_handle (data w) = None.

(** From a session that has given up its call log, a run leads to one that
    has; it writes no line of a call log and makes no directory, which
    [start_call_log] does before it opens the file of a call log. *)
Definition never_logs (w w' : world) : Prop :=
  call_log_given_up w ->
  call_log_given_up w'
  /\ exists d, trace w' = trace w ++ d /\ log_lines d = [] /\ mkdirs d = [].

(** A session whose call log could not be opened, while its recordings
    can. *)
Module CallLogExample.

Definition env : platform :=
  Build_platform (Some Example.cfg)
    (fun path =>
       negb (String.eqb path
               "/var/log/dialogflow/unknown/0709_0x7f01_log.jsonl"))
    (fun s => Z.shiftr s 8) Example.substitute 7 9.

Definition given_up : world :=
  Example.after (gdf_start env Example.df_ok) (Example.created Example.cfg).

Definition loud : samples := fun _ => 600.

(** One frame short of speech: 20 ms of the 40 ms are in. *)
Definition about_to_speak : world :=
  Example.after_frames env [Example.loud_20ms Example.df_ok] given_up.

End CallLogExample.

(** ** Runs of frames against the state *)

(** The milliseconds that [gdf_write] counts for a frame. *)
Definition frame_ms (fr : frame) : Z := datams_of (snd fr).

Definition total_ms (frames : list frame) : Z :=
  fold_right (fun fr acc => frame_ms fr + acc) 0 frames.

(** Whether the level of a frame votes against the state [s]: voice while
    waiting for speech, silence during speech. *)
Definition disagrees (s : VAD_STATE) (threshold : Z) (fr : frame) : bool :=
  match calculate_audio_level (snd (fst fr)) (snd fr) with
  | Some avg_level =>
      match s with
      | VAD_STATE_START => avg_level >=? threshold
      | VAD_STATE_SPEAK => avg_level <? threshold
      | VAD_STATE_SILENT => false
      end
  | None => false
  end.

(** The minimum that the disagreement has to reach in a state, and the
    state that follows. *)
Definition minimum_duration (s : VAD_STATE) (pvt : gdf_pvt) : Z :=
  match s with
  | VAD_STATE_START => voice_minimum_duration pvt
  | _ => silence_minimum_duration pvt
  end.

Definition next_vad_state (s : VAD_STATE) : VAD_STATE :=
  match s with
  | VAD_STATE_START => VAD_STATE_SPEAK
  | _ => VAD_STATE_SILENT
  end.

(** ** The control path: grammars, settings, teardown *)

(** The assignments to the string fields that the write path leaves alone. *)
Definition set_logical_agent_name (v : string) (p : gdf_pvt) : gdf_pvt :=
  Build_gdf_pvt (vad_state p) (vad_state_duration p) (vad_change_duration p)
    (voice_threshold p) (voice_minimum_duration p)
    (silence_minimum_duration p) (call_log_open_already_attempted p)
    (call_log_file_handle p) (utterance_counter p)
    (utterance_preendpointer_recording_open_already_attempted p)
    (utterance_preendpointer_recording_file_handle p)
    (utterance_postendpointer_recording_open_already_attempted p)
    (utterance_postendpointer_recording_file_handle p) v (project_id p)
    (session_id p) (service_key p) (endpoint p) (event p) (language p)
    (lastAudioResponse p) (call_log_path p) (call_log_file_basename p)
    (call_logging_application_name p) (call_logging_context p).
Definition set_service_key (v : string) (p : gdf_pvt) : gdf_pvt :=
  Build_gdf_pvt (vad_state p) (vad_state_duration p) (vad_change_duration p)
    (voice_threshold p) (voice_minimum_duration p)
    (silence_minimum_duration p) (call_log_open_already_attempted p)
    (call_log_file_handle p) (utterance_counter p)
    (utterance_preendpointer_recording_open_already_attempted p)
    (utterance_preendpointer_recording_file_handle p)
    (utterance_postendpointer_recording_open_already_attempted p)
    (utterance_postendpointer_recording_file_handle p) (logical_agent_name p)
    (project_id p) (session_id p) v (endpoint p) (event p) (language p)
    (lastAudioResponse p) (call_log_path p) (call_log_file_basename p)
    (call_logging_application_name p) (call_logging_context p).
Definition set_endpoint (v : string) (p : gdf_pvt) : gdf_pvt :=
  Build_gdf_pvt (vad_state p) (vad_state_duration p) (vad_change_duration p)
    (voice_threshold p) (voice_minimum_duration p)
    (silence_minimum_duration p) (call_log_open_already_attempted p)
    (call_log_file_handle p) (utterance_counter p)
    (utterance_preendpointer_recording_open_already_attempted p)
    (utterance_preendpointer_recording_file_handle p)
    (utterance_postendpointer_recording_open_already_attempted p)
    (utterance_postendpointer_recording_file_handle p) (logical_agent_name p)
    (project_id p) (session_id p) (service_key p) v (event p) (language p)
    (lastAudioResponse p) (call_log_path p) (call_log_file_basename p)
    (call_logging_application_name p) (call_logging_context p).
Definition set_lastAudioResponse (v : string) (p : gdf_pvt) : gdf_pvt :=
  Build_gdf_pvt (vad_state p) (vad_state_duration p) (vad_change_duration p)
    (voice_threshold p) (voice_minimum_duration p)
    (silence_minimum_duration p) (call_log_open_already_attempted p)
    (call_log_file_handle p) (utterance_counter p)
    (utterance_preendpointer_recording_open_already_attempted p)
    (utterance_preendpointer_recording_file_handle p)
    (utterance_postendpointer_recording_open_already_attempted p)
    (utterance_postendpointer_recording_file_handle p) (logical_agent_name p)
    (project_id p) (session_id p) (service_key p) (endpoint p) (event p)
    (language p) v (call_log_path p) (call_log_file_basename p)
    (call_logging_application_name p) (call_logging_context p).

(** [strncasecmp(a, b, n)]: [strcasecmp] on the first [n] characters. *)
Definition strncasecmp (a b : string) (n : nat) : Z :=
  strcasecmp (substring 0 n a) (substring 0 n b).

(** [s + n], for a string of at least [n] characters. *)
Fixpoint advance (n : nat) (s : string) : string :=
  match n, s with
  | O, _ => s
  | S n', String _ s' => advance n' s'
  | S _, EmptyString => EmptyString
  end.

(** [strchr(s, c)] for a [c] that is not NUL: the offset of the first [c]. *)
Fixpoint strchr (s : string) (c : ascii) : option nat :=
  match s with
  | EmptyString => None
  | String d s' =>
      if Ascii.eqb d c then Some O else option_map S (strchr s' c)
  end.

(** [S_OR(a, b)]: [a] unless it is [NULL] or empty. *)
Definition S_OR (a : option string) (b : string) : string :=
  match a with
  | Some s => if ast_strlen_zero s then b else s
  | None => b
  end.

(** [struct gdf_logical_agent]: a section of the configuration other than
    [general]. *)
Record gdf_logical_agent : Type := Build_gdf_logical_agent {
  agent_name : string;
  agent_project_id : string;
  agent_service_key : string;
  agent_endpoint : string
}.

(** [get_logical_agent_by_name]: [config->logical_agents] is the list of
    the agents in the order [load_config] linked them; [ao2_find] yields
    the first that [logical_agent_compare_callback] matches, and agents
    that differ by case only share their hash. *)
Definition get_logical_agent_by_name (logical_agents : list gdf_logical_agent)
    (name : string) : option gdf_logical_agent :=
  find (fun agent => strcasecmp (agent_name agent) name =? 0) logical_agents.

(** The setters of the library's session that the trace has no event for
    are collected as the value of the action that calls them. *)
Inductive session_call : Type :=
| call_df_set_project_id (value : string)
| call_df_set_endpoint (value : string)
| call_df_set_auth_key (value : string).

Definition EVENT_COLON : string := "event:".
Definition BUILTIN_COLON_GRAMMAR_SLASH_LEN : nat := 16.
Definition BUILTIN_COLON_GRAMMAR_SLASH : string := "builtin:grammar/".

Definition is_grammar_old_style_event (grammar_name : string) : bool :=
  strncasecmp grammar_name EVENT_COLON EVENT_COLON_LEN =? 0.

Definition is_grammar_new_style_format (grammar_name : string) : bool :=
  strncasecmp grammar_name BUILTIN_COLON_GRAMMAR_SLASH
    BUILTIN_COLON_GRAMMAR_SLASH_LEN =? 0.

Section Control.

Variable env : platform.

(** [config->logical_agents] of the configuration that [gdf_get_config]
    finds. *)
Variable logical_agents : list gdf_logical_agent.

Definition activate_agent_for_name (name : string) (name_len : nat)
    (event : string) : M (list session_call) :=
  modify_pvt (set_logical_agent_name (substring 0 name_len name)) ;;
  (match config env with
   | Some cfg =>
       pvt <- get_pvt ;;
       let logical_agent_map :=
         get_logical_agent_by_name logical_agents (logical_agent_name pvt) in
       modify_pvt (fun p =>
         set_event event
           (set_endpoint
              (S_OR (option_map agent_endpoint logical_agent_map)
                 (cfg_endpoint cfg))
              (set_service_key
                 (S_OR (option_map agent_service_key logical_agent_map)
                    (cfg_service_key cfg))
                 (set_project_id
                    (S_OR (option_map agent_project_id logical_agent_map)
                       (logical_agent_name p))
                    p))))
   | None =>
       modify_pvt (fun p =>
         set_event event (set_project_id (logical_agent_name p) p))
   end) ;;
  pvt <- get_pvt ;;
  ret [call_df_set_project_id (project_id pvt);
       call_df_set_endpoint (endpoint pvt);
       call_df_set_auth_key (service_key pvt)].

Definition activate_new_style_grammar (grammar_name : string)
    : M (list session_call) :=
  let name_part := advance BUILTIN_COLON_GRAMMAR_SLASH_LEN grammar_name in
  match strchr name_part "?" with
  | Some question_mark =>
      activate_agent_for_name name_part question_mark
        (advance (S question_mark) name_part)
  | None =>
      activate_agent_for_name name_part (String.length name_part) ""
  end.

(** [gdf_activate]: the answer, and the setters it called. *)
Definition gdf_activate (grammar_name : string) : M (Z * list session_call) :=
  if is_grammar_old_style_event grammar_name then
    activate_old_style_event grammar_name ;; ret (0, [])
  else if is_grammar_new_style_format grammar_name then
    calls <- activate_new_style_grammar grammar_name ;; ret (0, calls)
  else ret (-1, []).

End Control.

(** [ast_copy_string(dst, src, size)] of asterisk/strings.h: what [dst]
    holds afterwards.  With a size of 0 the terminator is written in front
    of the buffer, a fault. *)
Definition ast_copy_string (src : string) (size : nat) : option string :=
  match size with
  | O => None
  | S n => Some (substring 0 n src)
  end.

(** [ast_build_string(&buf, &len, "%d", z)] of asterisk/strings.h: what the
    buffer holds afterwards, [None] when it is left as it was (no space). *)
Definition ast_build_string_d (z : Z) (space : nat) : option string :=
  match space with
  | O => None
  | S n => Some (substring 0 n (fmt_d z))
  end.

(** What the library's session answers to its two getters. *)
Record df_session : Type := Build_df_session {
  df_get_session_id_ret : string;
  df_get_project_id_ret : string
}.

(** [gdf_get_setting], compiled for Asterisk 13 and later: [None] for a
    fault, else the answer and what the buffer of [len] bytes holds
    ([None]: what it held before). *)
Definition gdf_get_setting (session : df_session) (name : string) (len : nat)
    (pvt : gdf_pvt) : option (Z * option string) :=
  let copied (src : string) :=
    match ast_copy_string src len with
    | Some buf => Some (0, Some buf)
    | None => None
    end in
  if named name GDF_PROP_SESSION_ID_NAME then
    copied (df_get_session_id_ret session)
  else if named name GDF_PROP_PROJECT_ID_NAME then
    copied (df_get_project_id_ret session)
  else if named name GDF_PROP_LANGUAGE_NAME then
    copied (language pvt)
  else if named name VAD_PROP_VOICE_THRESHOLD then
    Some (0, ast_build_string_d (voice_threshold pvt) len)
  else if named name VAD_PROP_VOICE_DURATION then
    Some (0, ast_build_string_d (voice_minimum_duration pvt) len)
  else if named name VAD_PROP_SILENCE_DURATION then
    Some (0, ast_build_string_d (silence_minimum_duration pvt) len)
  else Some (-1, None).

(** What [gdf_destroy] does to the world outside: calls into the library,
    a file removed, a stream closed. *)
Inductive teardown_call : Type :=
| td_df_stop_recognition
| td_unlink (path : string)
| td_df_close_session
| td_fclose (f : FILE).

(** [gdf_destroy]: its calls in order; it answers 0. *)
Definition gdf_destroy (w : world) : Z * list teardown_call :=
  let pvt := data w in
  (0,
   (match state w with
    | AST_SPEECH_STATE_READY => [td_df_stop_recognition]
    | _ => []
    end)
   ++ (if negb (ast_strlen_zero (lastAudioResponse pvt))
       then [td_unlink (lastAudioResponse pvt)] else [])
   ++ [td_df_close_session]
   ++ match call_log_file_handle pvt with
      | Some f => [td_fclose f]
      | None => []
      end).

(** A configuration with two logical agents, to run the control path. *)
Module ControlExample.

Definition cfg : gdf_config :=
  Build_gdf_config 512 40 500 (-1) 0 0 "{general key}"
    "dialogflow.googleapis.com" "/var/log/dialogflow/".

Definition env : platform :=
  Build_platform (Some cfg) (fun _ => true) (fun s => Z.shiftr s 8)
    Example.substitute 7 9.

Definition agents : list gdf_logical_agent :=
  [Build_gdf_logical_agent "Sales" "sales-project-1" ""
     "eu-dialogflow.googleapis.com";
   Build_gdf_logical_agent "Support" "support-7" "{support key}" ""].

End ControlExample.

(** ** The results of an utterance *)

(** [struct dialogflow_result] of libdfegrpc.h, as far as the engine reads
    it. *)
Record dialogflow_result : Type := Build_dialogflow_result {
  df_slot : string;
  df_value : string;
  df_valueLen : Z;
  df_score : Z
}.

(** [struct ast_speech_result] of asterisk/speech.h, as far as the engine
    fills it. *)
Record ast_speech_result : Type := Build_ast_speech_result {
  text : string;
  score : Z;
  grammar : string
}.

(** What [gdf_get_results] is answered by the library and the system. *)
Record results_answers : Type := Build_results_answers {
  df_get_result_count_ret : Z;
  (** [df_get_result(session, i)], [None] for [NULL] *)
  df_get_result_ret : nat -> option dialogflow_result;
  (** [mkstemps]: the descriptor and the six characters put for [XXXXXX],
      [None] when it fails *)
  mkstemps_ret : option (Z * string);
  (** [open] of the last-resort name *)
  open_ret : Z;
  google_synth_speech_ret : Z
}.

(** What [gdf_get_results] does to the world outside. *)
Inductive results_call : Type :=
| rc_mkstemps (created : option string)
| rc_open (path : string) (fd : Z)
| rc_write (fd : Z) (buf : string) (count : Z)
| rc_close (fd : Z)
| rc_google_synth_speech (key synth_text language destination : string)
| rc_unlink (path : string).

(** The locals that the loop over the results carries. *)
Record results_loop : Type := Build_results_loop {
  start : list ast_speech_result;
  fulfillment_text : option dialogflow_result;
  output_audio : option dialogflow_result
}.

(** One round of the loop, for what [df_get_result] answered. *)
Definition results_round (acc : results_loop)
    (df_result : option dialogflow_result) : results_loop :=
  match df_result with
  | Some r =>
      if named (df_slot r) "output_audio" then
        Build_results_loop (start acc) (fulfillment_text acc) (Some r)
      else
        Build_results_loop
          (start acc
           ++ [Build_ast_speech_result (df_value r) (df_score r) (df_slot r)])
          (if named (df_slot r) "fulfillment_text"
           then Some r else fulfillment_text acc)
          (output_audio acc)
  | None => acc
  end.

(** The name that [mkstemps] makes of the template, and the one that
    [sprintf] writes when it fails. *)
Definition temporary_name (chars : string) : string :=
  "/tmp/res_speech_gdfe_fulfillment_" ++ chars ++ ".wav".

Definition last_resort_name (last_resort : Z) : string :=
  "/tmp/res_speech_gdfe_fulfillment_" ++ fmt_d last_resort ++ ".wav".

Definition fulfillment_audio (tmpFilename : string) : ast_speech_result :=
  Build_ast_speech_result tmpFilename 100 "fulfillment_audio".

(** [gdf_get_results]: the list returned, the calls made, the static
    counter [last_resort] and the private data afterwards; [None] for a
    fault (no configuration where the service key is read).  Allocations
    are taken to succeed.  [audioFile] points into a block that has ended
    where it is read; it is taken to hold the name still. *)
Definition gdf_get_results (env : platform) (lib : results_answers)
    (last_resort : Z) (pvt : gdf_pvt)
    : option (list ast_speech_result * list results_call * Z * gdf_pvt) :=
  let results := df_get_result_count_ret lib in
  let acc :=
    fold_left results_round
      (map (df_get_result_ret lib) (seq 0 (Z.to_nat results)))
      (Build_results_loop [] None None) in
  let finish (found : list ast_speech_result) (calls : list results_call)
      (last_resort' : Z) (audioFile : option string) :=
    match audioFile with
    | Some file =>
        if negb (ast_strlen_zero file) then
          Some (found,
                calls
                ++ (if negb (ast_strlen_zero (lastAudioResponse pvt))
                    then [rc_unlink (lastAudioResponse pvt)] else []),
                last_resort', set_lastAudioResponse file pvt)
        else Some (found, calls, last_resort', pvt)
    | None => Some (found, calls, last_resort', pvt)
    end in
  match output_audio acc with
  | Some audio =>
      let '(fd, tmpFilename, opening, last_resort') :=
        match mkstemps_ret lib with
        | Some (fd, chars) =>
            (fd, temporary_name chars,
             [rc_mkstemps (Some (temporary_name chars))], last_resort)
        | None =>
            (open_ret lib, last_resort_name last_resort,
             [rc_mkstemps None;
              rc_open (last_resort_name last_resort) (open_ret lib)],
             int_add last_resort 1)
        end in
      finish (start acc ++ [fulfillment_audio tmpFilename])
        (opening
         ++ [rc_write fd (df_value audio) (df_valueLen audio); rc_close fd])
        last_resort' (Some tmpFilename)
  | None =>
      match fulfillment_text acc with
      | Some fulfillment =>
          if negb (ast_strlen_zero (df_value fulfillment)) then
            match config env with
            | Some cfg =>
                let key := cfg_service_key cfg in
                let language := language pvt in
                let '(tmpFilename, opening, last_resort') :=
                  match mkstemps_ret lib with
                  | Some (fd, chars) =>
                      (temporary_name chars,
                       [rc_mkstemps (Some (temporary_name chars));
                        rc_close fd], last_resort)
                  | None =>
                      (last_resort_name last_resort, [rc_mkstemps None],
                       int_add last_resort 1)
                  end in
                let synthesis :=
                  rc_google_synth_speech key (df_value fulfillment) language
                    tmpFilename in
                finish
                  (if truthy (google_synth_speech_ret lib) then start acc
                   else start acc ++ [fulfillment_audio tmpFilename])
                  (opening ++ [synthesis]) last_resort' (Some tmpFilename)
            | None => None
            end
          else finish (start acc) [] last_resort None
      | None => finish (start acc) [] last_resort None
      end
  end.



(** The files that calls remove. *)

Fixpoint unlinked_files (calls : list results_call) : list string :=
  match calls with
  | rc_unlink path :: rest => path :: unlinked_files rest
  | _ :: rest => unlinked_files rest
  | [] => []
  end.

Fixpoint synthesized (calls : list results_call) : list string :=
  match calls with
  | rc_google_synth_speech _ synth_text _ _ :: rest =>
      synth_text :: synthesized rest
  | _ :: rest => synthesized rest
  | [] => []
  end.


(** The streams that [gdf_destroy] closes. *)
Fixpoint closed_at_teardown (calls : list teardown_call) : list FILE :=
  match calls with
  | td_fclose f :: rest => f :: closed_at_teardown rest
  | _ :: rest => closed_at_teardown rest
  | [] => []
  end.

(** The results that the library answered, in order. *)
Definition answered (lib : results_answers) : list dialogflow_result :=
  flat_map (fun r => match r with Some r => [r] | None => [] end)
    (map (df_get_result_ret lib)
       (seq 0 (Z.to_nat (df_get_result_count_ret lib)))).

Definition is_output_audio (r : dialogflow_result) : bool :=
  named (df_slot r) "output_audio".

Definition is_fulfillment_text (r : dialogflow_result) : bool :=
  named (df_slot r) "fulfillment_text".

(** A result of the library as a result of the engine. *)
Definition listed (r : dialogflow_result) : ast_speech_result :=
  Build_ast_speech_result (df_value r) (df_score r) (df_slot r).

(** The last result that [p] holds of. *)
Definition last_such (p : dialogflow_result -> bool)
    (l : list dialogflow_result) : option dialogflow_result :=
  fold_left (fun found r => if p r then Some r else found) l None.



(** The file that a name points to, none for the empty name. *)
Definition file_named (name : string) : list string :=
  if ast_strlen_zero name then [] else [name].

(** How the name of the audio file is found: by [mkstemps], or from the
    counter when that fails. *)
Definition named_by (lib : results_answers) (last_resort : Z)
    (file : string) (last_resort' : Z) : Prop :=
  match mkstemps_ret lib with
  | Some (_, chars) => file = temporary_name chars /\ last_resort' = last_resort
  | None =>
      file = last_resort_name last_resort
      /\ last_resort' = int_add last_resort 1
  end.

(** Two answers of the library: an intent with a text to synthesize, and
    an intent with audio while no temporary file can be made. *)
Module ResultsExample.

Definition intent : dialogflow_result :=
  Build_dialogflow_result "intent_name" "order.pizza" 11 87.

Definition reply : dialogflow_result :=
  Build_dialogflow_result "Fulfillment_Text" "Which size?" 11 100.

Definition audio : dialogflow_result :=
  Build_dialogflow_result "OUTPUT_AUDIO" "RIFF" 4 0.

Definition lib_text : results_answers :=
  Build_results_answers 3 (fun i => nth i [Some intent; None; Some reply] None)
    (Some (5, "a1B2c3")) (-1) 0.



Definition w : world := new_world ControlExample.cfg "0x7f01".

(** What one call leaves, and what two calls in a row do. *)
Definition outcome (lib : results_answers)
    : list ast_speech_result * list results_call * Z * gdf_pvt :=
  match gdf_get_results ControlExample.env lib 0 (data w) with
  | Some o => o
  | None => ([], [], 0, data w)
  end.


End ResultsExample.

(** ** Loading the configuration *)

(** A [struct ast_config] (asterisk/config.h), as what the engine can ask
    of it: the value of a variable of a category, [None] for [NULL], and
    the categories in the order in which [ast_category_browse] walks
    them. *)
Record ast_config : Type := Build_ast_config {
  ast_variable_retrieve : string -> string -> option string;
  ast_category_browse : list string
}.

(** [ast_config_new()]: no category, no variable. *)
Definition ast_config_new : ast_config :=
  Build_ast_config (fun _ _ => None) [].

(** What [ast_config_load] answers. *)
Inductive config_status : Type :=
| CONFIG_STATUS_FILEUNCHANGED
| CONFIG_STATUS_FILEINVALID
| CONFIG_STATUS_FILEMISSING
| config_loaded (cfg : ast_config).

(** What [load_config] finds around it. *)
Record config_source : Type := Build_config_source {
  (** [ast_config_load], by whether [CONFIG_FLAG_FILEUNCHANGED] is set *)
  ast_config_load : bool -> config_status;
  (** [ast_true] of asterisk/utils.h *)
  ast_true : string -> Z;
  (** what [fread] delivers of a file until its end, [None] when [fopen]
      fails *)
  file_contents : string -> option string
}.

(** [ast_strlen_zero] on a pointer that may be [NULL]. *)
Definition strlen_zero (val : option string) : bool :=
  match val with
  | Some s => ast_strlen_zero s
  | None => true
  end.

Definition AST_MODULE_LOAD_SUCCESS : Z := 0.

Section LoadConfig.

Variable source : config_source.

(** [load_service_key]: a value with a brace is the key, any other names
    the file that holds it.  The allocation is taken to succeed.  The code
    stores a key that is given in place with [ast_str_set], as the format
    itself: the key is what is stored when it holds no conversion
    specification (no percent sign). *)
Definition load_service_key (val : string) : string :=
  match strchr val "{" with
  | Some _ => val
  | None =>
      match file_contents source val with
      | Some contents => contents
      | None => ""
      end
  end.

(** The three integers of the general section: the default stays when the
    variable is absent, empty or no number. *)
Definition general_int (cfg : ast_config) (variable : string) (default : Z)
    : Z :=
  match ast_variable_retrieve cfg "general" variable with
  | Some val =>
      if ast_strlen_zero val then default
      else match sscanf_d val with
           | Some i => i
           | None => default
           end
  | None => default
  end.

(** The three switches of the general section. *)
Definition general_switch (cfg : ast_config) (variable : string)
    (default : Z) : Z :=
  match ast_variable_retrieve cfg "general" variable with
  | Some val => if ast_strlen_zero val then default else ast_true source val
  | None => default
  end.

(** The strings of the general section. *)
Definition general_string (cfg : ast_config) (variable : string)
    (default : string) : string :=
  match ast_variable_retrieve cfg "general" variable with
  | Some val => if ast_strlen_zero val then default else val
  | None => default
  end.

(** One round of the walk over the categories: the agent that is linked,
    if one is. *)
Definition load_logical_agent (cfg : ast_config) (category : string)
    : list gdf_logical_agent :=
  if negb (strcasecmp "general" category =? 0) then
    let name := category in
    let project_id := ast_variable_retrieve cfg category "project_id" in
    let endpoint := ast_variable_retrieve cfg category "endpoint" in
    let service_key := ast_variable_retrieve cfg category "service_key" in
    let service_key :=
      match service_key with
      | Some val =>
          if negb (ast_strlen_zero val) then Some (load_service_key val)
          else service_key
      | None => service_key
      end in
    match project_id with
    | Some project =>
        if negb (ast_strlen_zero project) then
          [Build_gdf_logical_agent name project (S_OR service_key "")
             (S_OR endpoint "")]
        else []
    | None => []
    end
  else [].

(** [load_config]: the answer, and the configuration that replaces the one
    in the container, with its logical agents in the order in which they
    were linked.  Allocations are taken to succeed.  For an unchanged file
    nothing is replaced, and the [ast_config_destroy(cfg)] at the end is
    reached with [CONFIG_STATUS_FILEUNCHANGED], which asterisk/config.h
    defines as the pointer of value -1: no [NULL], and no configuration to
    destroy, a fault. *)
Definition load_config (reload : Z)
    : option (Z * gdf_config * list gdf_logical_agent) :=
  match ast_config_load source (truthy reload) with
  | CONFIG_STATUS_FILEUNCHANGED => None
  | status =>
      let cfg :=
        match status with
        | config_loaded cfg => cfg
        | _ => ast_config_new
        end in
      let conf :=
        Build_gdf_config
          (general_int cfg "vad_voice_threshold" 512)
          (general_int cfg "vad_voice_minimum_duration" 40)
          (general_int cfg "vad_silence_minimum_duration" 500)
          (general_switch cfg "enable_call_logs" 1)
          (general_switch cfg "enable_preendpointer_recordings" 0)
          (general_switch cfg "enable_postendpointer_recordings" 0)
          (match ast_variable_retrieve cfg "general" "service_key" with
           | Some val =>
               if ast_strlen_zero val then "" else load_service_key val
           | None => ""
           end)
          (general_string cfg "endpoint" "")
          (general_string cfg "call_log_location"
             "/var/log/dialogflow/${APPLICATION}/${STRFTIME(,,%Y/%m/%d/%H)}/") in
      Some (AST_MODULE_LOAD_SUCCESS, conf,
            flat_map (load_logical_agent cfg) (ast_category_browse cfg))
  end.

End LoadConfig.

(** The engine's surroundings once [load_config] has put a configuration
    into the container: [gdf_get_config] finds it. *)
Definition with_config (env : platform) (conf : gdf_config) : platform :=
  Build_platform (Some conf) (fopen_succeeds env) (AST_LIN2MU env)
    (substitute_variables env) (tm_min env) (tm_sec env).

(** A configuration file with a general section and three more, the last
    without a project. *)
Module ConfigExample.

Definition variables : list (string * string * string) :=
  [("general", "vad_voice_threshold", "300");
   ("general", "vad_silence_minimum_duration", "soon");
   ("general", "enable_preendpointer_recordings", "yes");
   ("Sales", "project_id", "sales-project-1");
   ("Sales", "endpoint", "eu-dialogflow.googleapis.com");
   ("Support", "project_id", "support-7");
   ("Support", "service_key", "/etc/asterisk/support.json");
   ("Billing", "endpoint", "dialogflow.googleapis.com")].

Definition file : ast_config :=
  Build_ast_config
    (fun category variable =>
       option_map snd
         (find (fun entry =>
                  String.eqb (fst (fst entry)) category
                  && String.eqb (snd (fst entry)) variable)
            variables))
    ["general"; "Sales"; "Support"; "Billing"].

Definition source : config_source :=
  Build_config_source (fun _ => config_loaded file)
    (fun s => if strcasecmp s "yes" =? 0 then -1 else 0)
    (fun path =>
       if String.eqb path "/etc/asterisk/support.json"
       then Some "{support key}" else None).

(** No file to load. *)
Definition no_file : config_source :=
  Build_config_source (fun _ => CONFIG_STATUS_FILEMISSING) (fun _ => 0)
    (fun _ => None).

(** What [load_config] installs from [source]. *)
Definition conf : gdf_config :=
  match load_config source 0 with
  | Some (_, conf, _) => conf
  | None => Example.cfg
  end.

Definition agents : list gdf_logical_agent :=
  match load_config source 0 with
  | Some (_, _, agents) => agents
  | None => []
  end.

End ConfigExample.

(** * Properties *)

(** ** Machine integers *)

Lemma to_int_small z : INT_MIN <= z <= INT_MAX -> to_int z = z.
Proof.
  unfold to_int, INT_MIN, INT_MAX. intros H.
  rewrite Z.mod_small; lia.
Qed.

Lemma to_int_range z : INT_MIN <= to_int z <= INT_MAX.
Proof.
  unfold to_int, INT_MIN, INT_MAX.
  pose proof (Z.mod_pos_bound (z + 2 ^ 31) (2 ^ 32) ltac:(lia)). lia.
Qed.

(** ** The audio level estimator *)

Lemma sum_abs_from_acc slin n : forall i sum,
  sum_abs_from slin i n sum = sum + sum_abs_from slin i n 0.
Proof.
  induction n as [|n IH]; intros i sum; simpl.
  - lia.
  - rewrite (IH (S i) (sum + Z.abs (slin i))), (IH (S i) (Z.abs (slin i))). lia.
Qed.

Lemma sum_abs_from_shift slin n : forall i acc,
  sum_abs_from slin (S i) n acc = sum_abs_from (fun j => slin (S j)) i n acc.
Proof.
  induction n as [|n IH]; intros i acc; simpl; [reflexivity | apply IH].
Qed.

(** The loop over the memory of a list adds up the list. *)
Lemma sum_abs_from_frame_of l :
  sum_abs_from (frame_of l) 0 (List.length l) 0 = sum_abs l.
Proof.
  induction l as [|x l IH]; simpl; [reflexivity|].
  rewrite sum_abs_from_acc, sum_abs_from_shift.
  change (fun j => frame_of (x :: l) (S j)) with (frame_of l).
  rewrite IH. reflexivity.
Qed.

Lemma sum_abs_bounds l :
  Forall is_short l -> 0 <= sum_abs l <= 32768 * Z.of_nat (List.length l).
Proof.
  induction 1 as [|x l Hx _ IH]; simpl List.length; simpl sum_abs.
  - lia.
  - unfold is_short, SHRT_MIN, SHRT_MAX in Hx. lia.
Qed.

Lemma mean_abs_bounds l :
  l <> [] -> Forall is_short l -> 0 <= mean_abs l <= 32768.
Proof.
  intros Hne Hs. pose proof (sum_abs_bounds l Hs) as Hb.
  assert (Hlen : 0 < Z.of_nat (List.length l)).
  { destruct l; [congruence | simpl List.length; lia]. }
  unfold mean_abs. split.
  - apply Z.div_pos; lia.
  - apply Z.div_le_upper_bound; lia.
Qed.

(** On a frame that is passed with its own number of samples the estimator
    is the mean absolute magnitude. *)
Lemma calculate_audio_level_frame_of l :
  l <> [] -> Forall is_short l ->
  calculate_audio_level (frame_of l) (Z.of_nat (List.length l))
  = Some (mean_abs l).
Proof.
  intros Hne Hs.
  pose proof (mean_abs_bounds l Hne Hs) as Hm.
  pose proof (sum_abs_bounds l Hs) as Hb.
  assert (Hlen : 0 < Z.of_nat (List.length l)).
  { destruct l; [congruence | simpl List.length; lia]. }
  unfold calculate_audio_level.
  rewrite Nat2Z.id, sum_abs_from_frame_of.
  destruct (Z.eqb_spec (Z.of_nat (List.length l)) 0) as [E|_]; [lia|].
  rewrite Z.quot_div_nonneg by lia.
  fold (mean_abs l).
  rewrite to_int_small; [reflexivity|].
  unfold INT_MIN, INT_MAX. lia.
Qed.

(** C5, as amended.  For every non-empty sequence of signed 16-bit samples
    [calculate_audio_level], called with the number of samples, returns
    the mean of the absolute sample values rounded down, and that value
    lies in the interval from 0 to 32768: [abs] works on [int], so the
    sample -32768 counts as 32768. *)
Theorem calculate_audio_level_mean_abs (l : list Z) :
  l <> [] -> Forall is_short l ->
  calculate_audio_level (frame_of l) (Z.of_nat (List.length l))
    = Some (sum_abs l / Z.of_nat (List.length l))
  /\ 0 <= sum_abs l / Z.of_nat (List.length l) <= 32768.
Proof.
  intros Hne Hs. split.
  - exact (calculate_audio_level_frame_of l Hne Hs).
  - exact (mean_abs_bounds l Hne Hs).
Qed.

Lemma calculate_audio_level_mean_abs_witness :
  calculate_audio_level (frame_of [100; -300; 7]) 3 = Some 135
  /\ 0 <= 135 <= 32768.
Proof.
  apply (calculate_audio_level_mean_abs [100; -300; 7]).
  - discriminate.
  - repeat constructor; unfold is_short, SHRT_MIN, SHRT_MAX; lia.
Defined.

(** C5, as stated, fails: a frame of the single sample -32768, a signed
    16-bit value, has level 32768, which is above 32767. *)
Lemma calculate_audio_level_above_32767 :
  is_short (-32768)
  /\ calculate_audio_level (frame_of [-32768]) 1 = Some 32768
  /\ ~ (0 <= 32768 <= 32767).
Proof.
  split; [|split].
  - unfold is_short, SHRT_MIN, SHRT_MAX. lia.
  - reflexivity.
  - lia.
Qed.

(** ** Running engine code *)

Lemma bind_run {A B} (m : M A) (k : A -> M B) w a w1 :
  m w = Some (a, w1) -> bind m k w = k a w1.
Proof. intros H. unfold bind. rewrite H. reflexivity. Qed.

Lemma bind_assoc {A B C} (m : M A) (f : A -> M B) (g : B -> M C) w :
  bind (bind m f) g w = bind m (fun a => bind (f a) g) w.
Proof. unfold bind. destruct (m w) as [[a w1]|]; reflexivity. Qed.

Lemma world_eta w :
  Build_world (state w) (AST_SPEECH_QUIET w) (AST_SPEECH_SPOKE w) (data w)
    (next_FILE w) (trace w) = w.
Proof. destruct w; reflexivity. Qed.

Lemma add_trace_nil w : add_trace [] w = w.
Proof. unfold add_trace. rewrite app_nil_r. apply world_eta. Qed.

Lemma gdf_log_call_event_run env type log_event log_data w :
  gdf_log_call_event env type log_event log_data w
  = Some (tt, add_trace (log_line env (data w) type log_event log_data) w).
Proof.
  unfold gdf_log_call_event, call_log_enabled_for_pvt, log_line,
    call_log_stream, bind, get_pvt, ret.
  destruct (config env) as [cfg|]; cbn; [|now rewrite add_trace_nil].
  destruct (truthy (enable_call_logs cfg)) eqn:E; cbn.
  - destruct (call_log_file_handle (data w)) eqn:H; cbn; rewrite ?H; cbn;
      [reflexivity | now rewrite add_trace_nil].
  - rewrite E. cbn. now rewrite add_trace_nil.
Qed.

(** One step of a run: the first action of a [bind] is a primitive, or an
    action whose run is known. *)
Ltac prim :=
  cbv [get_pvt modify_pvt emit fclose ast_speech_change_state test_spoke
       set_quiet_and_spoke fresh_FILE ret lift];
  reflexivity.

Ltac step :=
  rewrite ?bind_assoc;
  first
    [ erewrite bind_run by apply gdf_log_call_event_run
    | erewrite bind_run by prim ];
  cbv beta.

(** Two descriptions of one world. *)
Ltac same_world :=
  unfold add_trace, set_data, set_state, set_flags, set_next_FILE, log_line,
    call_log_stream, ret;
  cbn; rewrite <- ?app_assoc; cbn; reflexivity.

Lemma close_preendpointed_audio_recording_run env w :
  close_preendpointed_audio_recording env w
  = Some (tt,
      add_trace
        (map io_fclose (held (utterance_preendpointer_recording_file_handle (data w)))
         ++ log_line env (data w) CALL_LOG_TYPE_ENDPOINTER "pre_recording_stop" [])
        (set_data
           (set_utterance_preendpointer_recording_file_handle None (data w)) w)).
Proof.
  unfold close_preendpointed_audio_recording, gdf_log_call_event_only.
  step.
  destruct (utterance_preendpointer_recording_file_handle (data w)) eqn:H.
  - do 2 step. rewrite gdf_log_call_event_run. same_world.
  - step. rewrite gdf_log_call_event_run.
    destruct w as [st q sp p nf t]; destruct p; cbn in *. subst. same_world.
Qed.

Lemma close_postendpointed_audio_recording_run env w :
  close_postendpointed_audio_recording env w
  = Some (tt,
      add_trace
        (map io_fclose (held (utterance_postendpointer_recording_file_handle (data w)))
         ++ log_line env (data w) CALL_LOG_TYPE_ENDPOINTER "post_recording_stop" [])
        (set_data
           (set_utterance_postendpointer_recording_file_handle None (data w)) w)).
Proof.
  unfold close_postendpointed_audio_recording, gdf_log_call_event_only.
  step.
  destruct (utterance_postendpointer_recording_file_handle (data w)) eqn:H.
  - do 2 step. rewrite gdf_log_call_event_run. same_world.
  - step. rewrite gdf_log_call_event_run.
    destruct w as [st q sp p nf t]; destruct p; cbn in *. subst. same_world.
Qed.

Lemma gdf_stop_recognition_run env w :
  gdf_stop_recognition env w = Some (0, finalized env w).
Proof.
  unfold gdf_stop_recognition, write_end_of_recognition_call_event,
    gdf_log_call_event_only.
  erewrite bind_run by apply close_preendpointed_audio_recording_run.
  erewrite bind_run by apply close_postendpointed_audio_recording_run.
  do 2 step.
  unfold finalized, finalize_events. same_world.
Qed.


(** ** The recording side channel *)

Lemma recording_only_refl w : recording_only w w.
Proof.
  unfold recording_only. repeat split. exists []. now rewrite app_nil_r.
Qed.

Lemma recording_only_trans w1 w2 w3 :
  recording_only w1 w2 -> recording_only w2 w3 -> recording_only w1 w3.
Proof.
  unfold recording_only.
  intros (S1 & F1 & V1 & T1 & L1 & P1 & G1 & d1 & D1)
         (S2 & F2 & V2 & T2 & L2 & P2 & G2 & d2 & D2).
  repeat split; try congruence.
  exists (d1 ++ d2). rewrite D2, D1, app_assoc. reflexivity.
Qed.

(** Discharges [recording_only w w'] when [w'] is [w] under assignments to
    recording fields and additions to the trace. *)
Ltac recording_only_tac :=
  unfold recording_only, add_trace, set_data, set_next_FILE;
  cbn; repeat split;
  eexists; rewrite <- ?app_assoc; reflexivity.

Lemma fopen_run_opened env path w :
  fopen_succeeds env path = true ->
  fopen env path w
  = Some (Some (next_FILE w),
          add_trace [io_fopen path (Some (next_FILE w))]
            (set_next_FILE (S (next_FILE w)) w)).
Proof.
  intros H. unfold fopen. rewrite H. do 2 step. reflexivity.
Qed.

Lemma fopen_run_failed env path w :
  fopen_succeeds env path = false ->
  fopen env path w = Some (None, add_trace [io_fopen path None] w).
Proof.
  intros H. unfold fopen. rewrite H. step. reflexivity.
Qed.

Lemma build_log_related_filename_to_thread_local_str_run c type ext w :
  exists path,
    build_log_related_filename_to_thread_local_str c type ext w
    = Some (path, w).
Proof.
  unfold build_log_related_filename_to_thread_local_str. step.
  eexists. reflexivity.
Qed.

Lemma open_preendpointed_recording_file_run env w :
  exists r w',
    open_preendpointed_recording_file env w = Some (r, w')
    /\ recording_only w w'
    /\ utterance_postendpointer_recording_file_handle (data w')
       = utterance_postendpointer_recording_file_handle (data w)
    /\ (r = 0 /\
          utterance_preendpointer_recording_file_handle (data w') <> None
        \/ r = -1).
Proof.
  unfold open_preendpointed_recording_file.
  destruct (build_log_related_filename_to_thread_local_str_run 1 "pre" "ul" w)
    as [path Hp].
  erewrite bind_run by exact Hp. step.
  destruct (fopen_succeeds env path) eqn:Ho.
  - erewrite bind_run by (apply fopen_run_opened; exact Ho).
    cbv beta iota.
    erewrite bind_run by apply gdf_log_call_event_run. step.
    do 2 eexists. split; [reflexivity|].
    split; [recording_only_tac|]. split; [reflexivity|].
    left. split; [reflexivity | discriminate].
  - erewrite bind_run by (apply fopen_run_failed; exact Ho).
    cbv beta iota.
    do 2 eexists. split; [reflexivity|].
    split; [recording_only_tac|]. split; [reflexivity|]. now right.
Qed.

Lemma open_postendpointed_recording_file_run env w :
  exists r w',
    open_postendpointed_recording_file env w = Some (r, w')
    /\ recording_only w w'
    /\ (r = 0 /\
          utterance_postendpointer_recording_file_handle (data w') <> None
        \/ r = -1).
Proof.
  unfold open_postendpointed_recording_file.
  destruct (build_log_related_filename_to_thread_local_str_run 1 "post" "ul" w)
    as [path Hp].
  erewrite bind_run by exact Hp. step.
  destruct (fopen_succeeds env path) eqn:Ho.
  - erewrite bind_run by (apply fopen_run_opened; exact Ho).
    cbv beta iota.
    erewrite bind_run by apply gdf_log_call_event_run. step.
    do 2 eexists. split; [reflexivity|].
    split; [recording_only_tac|].
    left. split; [reflexivity | discriminate].
  - erewrite bind_run by (apply fopen_run_failed; exact Ho).
    cbv beta iota.
    do 2 eexists. split; [reflexivity|].
    split; [recording_only_tac|]. now right.
Qed.

Lemma fwrite_run bytes stream w :
  stream <> None ->
  exists w', fwrite bytes stream w = Some (tt, w') /\ recording_only w w'
    /\ data w' = data w.
Proof.
  destruct stream as [f|]; [intros _ | congruence].
  eexists. split; [reflexivity|]. split; [recording_only_tac | reflexivity].
Qed.

(** The locals read at the head of [maybe_record_audio] say "recording"
    only for a stream that is held. *)
Lemma read_recording_flags_pre e1 e2 pvt :
  truthy (currently_recording_preendpointed_audio
            (read_recording_flags e1 e2 pvt)) = true ->
  utterance_preendpointer_recording_file_handle pvt <> None.
Proof.
  unfold read_recording_flags.
  destruct ((truthy e2 || truthy e1) && negb (ast_strlen_zero (call_log_path pvt)));
    cbn; [|discriminate].
  destruct (utterance_preendpointer_recording_file_handle pvt);
    cbn; [discriminate | discriminate].
Qed.

Lemma read_recording_flags_post e1 e2 pvt :
  truthy (currently_recording_postendpointed_audio
            (read_recording_flags e1 e2 pvt)) = true ->
  utterance_postendpointer_recording_file_handle pvt <> None.
Proof.
  unfold read_recording_flags.
  destruct ((truthy e2 || truthy e1) && negb (ast_strlen_zero (call_log_path pvt)));
    cbn; [|discriminate].
  destruct (utterance_postendpointer_recording_file_handle pvt);
    cbn; [discriminate | discriminate].
Qed.

Section RecordingBlock.

(** The two blocks of [maybe_record_audio] have one shape: open the file
    unless that was done or tried, then write if a stream is there. *)
Variable open_file : M Z.
Variable handle other : gdf_pvt -> option FILE.

Hypothesis open_file_run : forall w,
  exists r w',
    open_file w = Some (r, w')
    /\ recording_only w w'
    /\ other (data w') = other (data w)
    /\ (r = 0 /\ handle (data w') <> None \/ r = -1).

Lemma recording_block_run mulaw cur att w :
  (truthy cur = true -> handle (data w) <> None) ->
  exists w',
    (currently_recording <-
       (if negb (truthy cur) && negb (truthy att)
        then r <- open_file ;; ret (if negb (truthy r) then 1 else cur)
        else ret cur) ;;
     if truthy currently_recording
     then pvt <- get_pvt ;; fwrite mulaw (handle pvt)
     else ret tt) w = Some (tt, w')
    /\ recording_only w w'
    /\ other (data w') = other (data w).
Proof.
  intros Hcur.
  destruct (negb (truthy cur) && negb (truthy att)) eqn:Hopen.
  - destruct (open_file_run w) as (r & w1 & Hrun & Hrec & Hother & Hr).
    rewrite bind_assoc. erewrite bind_run by exact Hrun. step.
    destruct Hr as [[-> Hh] | ->]; cbn [truthy negb Z.eqb].
    + step.
      destruct (fwrite_run mulaw (handle (data w1)) w1 Hh) as (w2 & Hw & Hrec2 & Hd).
      rewrite Hw. exists w2. split; [reflexivity|].
      split; [eapply recording_only_trans; eassumption | congruence].
    + apply andb_prop in Hopen. destruct Hopen as [Hc _].
      apply negb_true_iff in Hc. rewrite Hc.
      exists w1. split; [reflexivity|]. split; assumption.
  - step. destruct (truthy cur) eqn:Hc.
    + step.
      destruct (fwrite_run mulaw (handle (data w)) w (Hcur eq_refl))
        as (w2 & Hw & Hrec2 & Hd).
      rewrite Hw. exists w2. split; [reflexivity|].
      split; [assumption | congruence].
    + exists w. split; [reflexivity|].
      split; [apply recording_only_refl | reflexivity].
Qed.

End RecordingBlock.

(** [maybe_record_audio] always returns, and touches the recording fields
    and the trace only. *)
Lemma maybe_record_audio_run env mulaw current_vad_state w :
  exists w',
    maybe_record_audio env mulaw current_vad_state w = Some (tt, w')
    /\ recording_only w w'.
Proof.
  unfold maybe_record_audio. step.
  set (e1 := match config env with
             | Some cfg => enable_preendpointer_recordings cfg
             | None => 0
             end).
  set (e2 := match config env with
             | Some cfg => enable_postendpointer_recordings cfg
             | None => 0
             end).
  assert (Hpre : exists w1,
    (if truthy e1 then
       currently_recording <-
         (if negb (truthy (currently_recording_preendpointed_audio
                             (read_recording_flags e1 e2 (data w))))
             && negb (truthy (already_attempted_open_for_preendpointed_audio
                                (read_recording_flags e1 e2 (data w))))
          then
            r <- open_preendpointed_recording_file env ;;
            ret (if negb (truthy r) then 1
                 else currently_recording_preendpointed_audio
                        (read_recording_flags e1 e2 (data w)))
          else ret (currently_recording_preendpointed_audio
                      (read_recording_flags e1 e2 (data w)))) ;;
       if truthy currently_recording then
         pvt <- get_pvt ;;
         fwrite mulaw (utterance_preendpointer_recording_file_handle pvt)
       else ret tt
     else ret tt) w = Some (tt, w1)
    /\ recording_only w w1
    /\ utterance_postendpointer_recording_file_handle (data w1)
       = utterance_postendpointer_recording_file_handle (data w)).
  { destruct (truthy e1).
    - apply (recording_block_run (open_preendpointed_recording_file env)
               utterance_preendpointer_recording_file_handle
               utterance_postendpointer_recording_file_handle
               (open_preendpointed_recording_file_run env)).
      apply read_recording_flags_pre.
    - exists w. split; [reflexivity|].
      split; [apply recording_only_refl | reflexivity]. }
  destruct Hpre as (w1 & Hrun1 & Hrec1 & Hpost).
  erewrite bind_run by exact Hrun1.
  destruct (truthy e2 && VAD_STATE_eqb current_vad_state VAD_STATE_SPEAK).
  - destruct (recording_block_run (open_postendpointed_recording_file env)
               utterance_postendpointer_recording_file_handle
               (fun _ => None)
               (fun w0 =>
                  match open_postendpointed_recording_file_run env w0 with
                  | ex_intro _ r (ex_intro _ w' (conj H1 (conj H2 H3))) =>
                      ex_intro _ r (ex_intro _ w'
                        (conj H1 (conj H2 (conj eq_refl H3))))
                  end)
               mulaw
               (currently_recording_postendpointed_audio
                  (read_recording_flags e1 e2 (data w)))
               (already_attempted_open_for_postendpointed_audio
                  (read_recording_flags e1 e2 (data w)))
               w1) as (w2 & Hrun2 & Hrec2 & _).
    + intros H. rewrite Hpost. revert H. apply read_recording_flags_post.
    + exists w2. split; [exact Hrun2|].
      eapply recording_only_trans; eassumption.
  - exists w1. split; [reflexivity | assumption].
Qed.

(** ** One frame through [gdf_write] *)

Lemma forwarding_only_refl w : forwarding_only w w.
Proof.
  unfold forwarding_only. repeat split. exists []. now rewrite app_nil_r.
Qed.

Lemma forwarding_only_trans w1 w2 w3 :
  forwarding_only w1 w2 -> forwarding_only w2 w3 -> forwarding_only w1 w3.
Proof.
  unfold forwarding_only.
  intros (V1 & T1 & L1 & G1 & d1 & D1) (V2 & T2 & L2 & G2 & d2 & D2).
  repeat split; try congruence.
  exists (d1 ++ d2). rewrite D2, D1, app_assoc. reflexivity.
Qed.

Lemma recording_only_forwarding w w' :
  recording_only w w' -> forwarding_only w w'.
Proof.
  unfold recording_only, forwarding_only. intuition.
Qed.

Ltac forwarding_only_tac :=
  unfold forwarding_only, finalized, add_trace, set_data, set_next_FILE,
    set_flags, set_state;
  cbn; repeat split;
  eexists; rewrite <- ?app_assoc; reflexivity.

Lemma finalized_forwarding env w : forwarding_only w (finalized env w).
Proof. forwarding_only_tac. Qed.

Lemma vad_of_commit l pvt : vad_of (commit l pvt) = l.
Proof. destruct l; reflexivity. Qed.

Lemma gdf_write_endpointer_run env buf len w lvl :
  calculate_audio_level buf len = Some lvl ->
  gdf_write_endpointer env buf len w
  = Some ((vad_state (data w), l_vad_state (vad_step (data w) lvl len)),
          set_data (commit (vad_step (data w) lvl len) (data w))
            (add_trace
               (transition_line env (data w) (vad_step (data w) lvl len)) w)).
Proof.
  intros Hlvl. unfold gdf_write_endpointer, gdf_log_call_event_only. step.
  rewrite Hlvl. cbn [lift]. step.
  unfold transition_line.
  destruct (vad_state (data w)), (l_vad_state (vad_step (data w) lvl len));
    try (step; step; rewrite add_trace_nil; reflexivity);
    (erewrite bind_run by apply gdf_log_call_event_run; step; reflexivity).
Qed.

Lemma gdf_write_endpointer_fault env buf len w :
  calculate_audio_level buf len = None ->
  gdf_write_endpointer env buf len w = None.
Proof.
  intros Hlvl. unfold gdf_write_endpointer. step.
  rewrite Hlvl. reflexivity.
Qed.

Lemma gdf_write_start_run env df orig_vad_state vad_state w :
  gdf_write_start env df orig_vad_state vad_state w
  = Some (tt,
      if VAD_STATE_eqb vad_state VAD_STATE_SPEAK
         && VAD_STATE_eqb orig_vad_state VAD_STATE_START
      then
        if truthy (df_start_recognition_ret df)
        then finalized env
               (add_trace [io_df_start_recognition (language (data w))] w)
        else add_trace [io_df_start_recognition (language (data w))] w
      else w).
Proof.
  unfold gdf_write_start.
  destruct (VAD_STATE_eqb vad_state VAD_STATE_SPEAK
            && VAD_STATE_eqb orig_vad_state VAD_STATE_START);
    [|reflexivity].
  do 2 step. destruct (truthy (df_start_recognition_ret df)); [|reflexivity].
  erewrite bind_run by apply gdf_stop_recognition_run. reflexivity.
Qed.

Lemma response_count_run df w :
  (if negb (AST_SPEECH_SPOKE w) then
     emit io_df_get_response_count ;;
     if df_get_response_count_ret df >? 0 then set_quiet_and_spoke
     else ret tt
   else ret tt) w = Some (tt, responded df w).
Proof.
  unfold responded. destruct (AST_SPEECH_SPOKE w); cbn [negb]; [reflexivity|].
  step. destruct (df_get_response_count_ret df >? 0); reflexivity.
Qed.

Lemma state_responded df w : state (responded df w) = state w.
Proof.
  unfold responded. destruct (AST_SPEECH_SPOKE w); [reflexivity|].
  destruct (df_get_response_count_ret df >? 0); reflexivity.
Qed.

Lemma gdf_write_forward_run env df buf datasamples vad_state w :
  exists w',
    gdf_write_forward env df buf datasamples vad_state w = Some (tt, w')
    /\ if negb (VAD_STATE_eqb vad_state VAD_STATE_START) then
         if terminal (df_write_audio_ret df)
         then exists w1, forwarding_only w w1 /\ w' = finalized env w1
         else forwarding_only w w' /\ state w' = state w
       else recording_only w w'.
Proof.
  unfold gdf_write_forward.
  destruct (negb (VAD_STATE_eqb vad_state VAD_STATE_START)).
  - destruct (maybe_record_audio_run env (lin2mu_frame env buf datasamples)
                vad_state w) as (w1 & Hrun & Hrec).
    erewrite bind_run by exact Hrun. do 2 step.
    pose proof (recording_only_forwarding _ _ Hrec) as Hfw.
    destruct Hrec as (Hst & _).
    set (w2 := add_trace [io_df_write_audio (lin2mu_frame env buf datasamples)] w1).
    assert (H2 : forwarding_only w w2 /\ state w2 = state w).
    { split; [|exact Hst].
      eapply forwarding_only_trans; [exact Hfw|]. subst w2. forwarding_only_tac. }
    destruct H2 as [H2 H2s].
    assert (H3 : exists w3,
      (if negb (AST_SPEECH_SPOKE w2) then
         emit io_df_get_response_count ;;
         if df_get_response_count_ret df >? 0 then set_quiet_and_spoke
         else ret tt
       else ret tt) w2 = Some (tt, w3)
      /\ forwarding_only w w3 /\ state w3 = state w).
    { rewrite response_count_run. eexists. split; [reflexivity|].
      split; [|rewrite state_responded; exact H2s].
      eapply forwarding_only_trans; [exact H2|].
      unfold responded. destruct (AST_SPEECH_SPOKE w2);
        [apply forwarding_only_refl|].
      destruct (df_get_response_count_ret df >? 0); forwarding_only_tac. }
    destruct H3 as (w3 & Hrun3 & H3 & H3s).
    erewrite bind_run by exact Hrun3.
    destruct (df_write_audio_ret df); cbn [terminal].
    + exists w3. split; [reflexivity|]. split; assumption.
    + step. erewrite bind_run by apply gdf_stop_recognition_run.
      eexists. split; [reflexivity|]. eexists. split; [|reflexivity].
      eapply forwarding_only_trans; [exact H3|]. forwarding_only_tac.
    + step. erewrite bind_run by apply gdf_stop_recognition_run.
      eexists. split; [reflexivity|]. eexists. split; [|reflexivity].
      eapply forwarding_only_trans; [exact H3|]. forwarding_only_tac.
  - unfold are_currently_recording_pre_endpointed_audio. do 2 step.
    destruct (truthy _).
    + apply maybe_record_audio_run.
    + exists w. split; [reflexivity | apply recording_only_refl].
Qed.

(** Every frame that has a level is accepted, and the endpointer's fields
    after it are those of [vad_step]. *)
Lemma gdf_write_run env df buf len w lvl :
  calculate_audio_level buf len = Some lvl ->
  exists w',
    gdf_write env df buf len w = Some (0, w')
    /\ vad_of (data w') = vad_step (data w) lvl len
    /\ tunables_of (data w') = tunables_of (data w)
    /\ call_log_file_handle (data w') = call_log_file_handle (data w)
    /\ exists d, trace w' = trace w ++ d.
Proof.
  intros Hlvl. unfold gdf_write.
  erewrite bind_run by (apply gdf_write_endpointer_run; exact Hlvl).
  erewrite bind_run by apply gdf_write_start_run.
  cbn [fst snd].
  set (l := vad_step (data w) lvl len).
  set (w1 := set_data (commit l (data w))
               (add_trace (transition_line env (data w) l) w)).
  assert (H1 : vad_of (data w1) = l
               /\ tunables_of (data w1) = tunables_of (data w)
               /\ call_log_file_handle (data w1) = call_log_file_handle (data w)
               /\ exists d, trace w1 = trace w ++ d).
  { subst w1. cbn. rewrite vad_of_commit. repeat split. eexists. reflexivity. }
  destruct H1 as (V1 & T1 & L1 & d1 & D1).
  set (w2 := if VAD_STATE_eqb (l_vad_state l) VAD_STATE_SPEAK
                && VAD_STATE_eqb (vad_state (data w)) VAD_STATE_START
             then if truthy (df_start_recognition_ret df)
                  then finalized env
                         (add_trace [io_df_start_recognition (language (data w1))] w1)
                  else add_trace [io_df_start_recognition (language (data w1))] w1
             else w1).
  assert (H2 : forwarding_only w1 w2).
  { subst w2.
    destruct (VAD_STATE_eqb (l_vad_state l) VAD_STATE_SPEAK
              && VAD_STATE_eqb (vad_state (data w)) VAD_STATE_START);
      [|apply forwarding_only_refl].
    destruct (truthy (df_start_recognition_ret df)); forwarding_only_tac. }
  destruct (gdf_write_forward_run env df buf (datasamples_of len)
              (l_vad_state l) w2) as (w3 & Hrun & H3).
  erewrite bind_run by exact Hrun.
  assert (H3' : forwarding_only w2 w3).
  { destruct (negb (VAD_STATE_eqb (l_vad_state l) VAD_STATE_START)).
    - destruct (terminal (df_write_audio_ret df)).
      + destruct H3 as (w' & Hfw & ->).
        eapply forwarding_only_trans; [exact Hfw | apply finalized_forwarding].
      + apply H3.
    - apply recording_only_forwarding, H3. }
  pose proof (forwarding_only_trans _ _ _ H2 H3') as (V & T & L & _ & d & D).
  exists w3. split; [reflexivity|].
  repeat split; try congruence.
  exists (d1 ++ d). rewrite D, D1, app_assoc. reflexivity.
Qed.

Lemma gdf_write_returned env df buf len w r w' :
  gdf_write env df buf len w = Some (r, w') ->
  exists lvl,
    calculate_audio_level buf len = Some lvl
    /\ vad_of (data w') = vad_step (data w) lvl len
    /\ tunables_of (data w') = tunables_of (data w).
Proof.
  intros Hrun.
  destruct (calculate_audio_level buf len) as [lvl|] eqn:Hlvl.
  - destruct (gdf_write_run env df buf len w lvl Hlvl)
      as (w2 & Hrun2 & V & T & _).
    rewrite Hrun2 in Hrun. injection Hrun as _ <-.
    exists lvl. repeat split; assumption.
  - unfold gdf_write, bind in Hrun.
    rewrite (gdf_write_endpointer_fault env buf len w Hlvl) in Hrun.
    discriminate.
Qed.

(** ** The endpointer *)

(** The pairs of states that one frame can join. *)
Lemma vad_step_states pvt lvl len :
  match vad_state pvt, l_vad_state (vad_step pvt lvl len) with
  | VAD_STATE_START, VAD_STATE_START
  | VAD_STATE_START, VAD_STATE_SPEAK
  | VAD_STATE_SPEAK, VAD_STATE_SPEAK
  | VAD_STATE_SPEAK, VAD_STATE_SILENT
  | VAD_STATE_SILENT, VAD_STATE_SILENT => True
  | _, _ => False
  end.
Proof.
  unfold vad_step, transition. cbn [l_vad_state l_change_duration].
  destruct (vad_state pvt); cbn [l_vad_state];
    repeat match goal with
           | |- context [if ?b then _ else _] => destruct b
           end; exact I.
Qed.

Lemma gdf_write_states env df buf len w r w' :
  gdf_write env df buf len w = Some (r, w') ->
  match vad_state (data w), vad_state (data w') with
  | VAD_STATE_START, VAD_STATE_START
  | VAD_STATE_START, VAD_STATE_SPEAK
  | VAD_STATE_SPEAK, VAD_STATE_SPEAK
  | VAD_STATE_SPEAK, VAD_STATE_SILENT
  | VAD_STATE_SILENT, VAD_STATE_SILENT => True
  | _, _ => False
  end.
Proof.
  intros Hrun.
  destruct (gdf_write_returned env df buf len w r w' Hrun) as (lvl & _ & V & _).
  apply (f_equal l_vad_state) in V. cbn [vad_of l_vad_state] in V.
  rewrite V. apply vad_step_states.
Qed.

Lemma write_frames_skips env frames : forall w ws,
  write_frames env frames w = Some ws ->
  skips (states (w :: ws)) = false.
Proof.
  induction frames as [|[[df buf] len] frames IH]; intros w ws Hrun.
  - injection Hrun as <-. cbn. destruct (vad_state (data w)); reflexivity.
  - cbn [write_frames] in Hrun.
    destruct (gdf_write env df buf len w) as [[r w1]|] eqn:H1; [|discriminate].
    destruct (write_frames env frames w1) as [ws1|] eqn:H2; [|discriminate].
    injection Hrun as <-.
    pose proof (gdf_write_states env df buf len w r w1 H1) as Hs.
    pose proof (IH w1 ws1 H2) as Hrest.
    unfold states in *. cbn [map] in *.
    destruct (vad_state (data w)), (vad_state (data w1));
      try contradiction; cbn [skips]; exact Hrest.
Qed.

Lemma write_frames_speaking_first env frames : forall w ws,
  write_frames env frames w = Some ws ->
  vad_state (data w) = VAD_STATE_START ->
  speaking_first (states ws) = true.
Proof.
  induction frames as [|[[df buf] len] frames IH]; intros w ws Hrun Hstart.
  - injection Hrun as <-. reflexivity.
  - cbn [write_frames] in Hrun.
    destruct (gdf_write env df buf len w) as [[r w1]|] eqn:H1; [|discriminate].
    destruct (write_frames env frames w1) as [ws1|] eqn:H2; [|discriminate].
    injection Hrun as <-.
    pose proof (gdf_write_states env df buf len w r w1 H1) as Hs.
    rewrite Hstart in Hs.
    unfold states in *. cbn [map speaking_first].
    destruct (vad_state (data w1)) eqn:E1; try contradiction.
    + apply (IH w1 ws1 H2 E1).
    + reflexivity.
Qed.

(** C2.  Whatever the thresholds and minimum durations (non-negative or
    not) and whatever the frames, the states that [gdf_write] leaves never
    go from [VAD_STATE_START] straight to [VAD_STATE_SILENT]: no two
    consecutive worlds of a run show that pair, and a run that begins in
    [VAD_STATE_START] shows [VAD_STATE_SPEAK] before any
    [VAD_STATE_SILENT]. *)
Theorem vad_passes_through_speak env frames w ws :
  write_frames env frames w = Some ws ->
  skips (states (w :: ws)) = false
  /\ (vad_state (data w) = VAD_STATE_START ->
      speaking_first (states ws) = true).
Proof.
  intros Hrun. split.
  - exact (write_frames_skips env frames w ws Hrun).
  - exact (write_frames_speaking_first env frames w ws Hrun).
Qed.

Lemma vad_passes_through_speak_witness :
  let frames := repeat (Example.loud_20ms Example.df_ok) 2
                ++ repeat (Example.df_ok, fun _ => 0, 320) 26 in
  exists ws,
    write_frames Example.env frames Example.started = Some ws
    /\ last (states ws) VAD_STATE_START = VAD_STATE_SILENT
    /\ skips (states (Example.started :: ws)) = false
    /\ speaking_first (states ws) = true.
Proof.
  intros frames.
  destruct (write_frames Example.env frames Example.started) as [ws|] eqn:Hrun;
    [|vm_compute in Hrun; discriminate].
  exists ws.
  destruct (vad_passes_through_speak Example.env frames Example.started ws Hrun)
    as [Hskip Hfirst].
  split; [reflexivity|]. split.
  - vm_compute in Hrun. injection Hrun as <-. vm_compute. reflexivity.
  - split; [exact Hskip | apply Hfirst; reflexivity].
Defined.

(** C1, at the failing input: eight consecutive frames of 5 ms, each of 40
    samples that are all 150 and followed in memory by zeros, written with
    [len] 80 to a session that waits for speech with the threshold 100 and
    40 ms of voice.  The loudness of every frame is 150, yet the level
    that [gdf_write] compares with the threshold is 75, the sum over 80
    samples divided by 80: no frame counts as voice, the disagreement stays
    0 and the state [VAD_STATE_START] through all eight frames, where the
    eighth was to commit to speech.  The same frames in memory that holds
    150 behind them as well are taken at 150, and do commit on the
    eighth. *)
Theorem speech_does_not_start_on_frames_of_5ms :
  Forall is_short Example.samples_5ms
  /\ datasamples_of 80 = Z.of_nat (List.length Example.samples_5ms)
  /\ datams_of 80 = 5
  /\ mean_abs Example.samples_5ms = 150
  /\ calculate_audio_level (frame_of Example.samples_5ms) 80 = Some 75
  /\ tunables_of (data Example.started) = (100, 40, 500)
  /\ vad_of (data Example.started) = Build_vad_locals VAD_STATE_START 0 0
  /\ (forall env df w r w',
        gdf_write env df (frame_of Example.samples_5ms) 80 w = Some (r, w') ->
        vad_of (data w') = vad_step (data w) 75 80)
  /\ (exists ws,
        write_frames Example.env (repeat Example.frame_5ms_alone 8)
          Example.started = Some ws
        /\ map (fun w' => (vad_state (data w'), vad_change_duration (data w')))
             ws
           = repeat (VAD_STATE_START, 0) 8)
  /\ (exists ws,
        write_frames Example.env (repeat Example.frame_5ms 8) Example.started
        = Some ws
        /\ map (fun w' => (vad_state (data w'), vad_change_duration (data w')))
             ws
           = [(VAD_STATE_START, 5); (VAD_STATE_START, 10);
              (VAD_STATE_START, 15); (VAD_STATE_START, 20);
              (VAD_STATE_START, 25); (VAD_STATE_START, 30);
              (VAD_STATE_START, 35); (VAD_STATE_SPEAK, 0)]).
Proof.
  assert (Hlvl : calculate_audio_level (frame_of Example.samples_5ms) 80
                 = Some 75) by (vm_compute; reflexivity).
  split; [|split; [|split; [|split; [|split; [|split; [|split; [|split;
    [|split]]]]]]]].
  - apply Forall_forall. intros x Hx.
    apply repeat_spec in Hx. subst. unfold is_short, SHRT_MIN, SHRT_MAX. lia.
  - vm_compute. reflexivity.
  - vm_compute. reflexivity.
  - vm_compute. reflexivity.
  - exact Hlvl.
  - vm_compute. reflexivity.
  - vm_compute. reflexivity.
  - intros env df w r w' Hrun.
    destruct (gdf_write_returned env df _ 80 w r w' Hrun)
      as (lvl & Hl & V & _).
    rewrite Hlvl in Hl. injection Hl as <-. exact V.
  - eexists. split; vm_compute; reflexivity.
  - eexists. split; vm_compute; reflexivity.
Qed.

(** C3, at the failing input: a frame of 160 samples, all 150, followed in
    memory by zeros, is written with [len] 320.  Its mean absolute magnitude
    is 150, yet the level [gdf_write] compares with the threshold is 75, the
    sum over 320 samples divided by 320: against the threshold 100 the
    frame counts as silence, where its own level would count as 20 ms of
    voice. *)
Theorem level_is_taken_over_len_samples :
  Forall is_short Example.samples_20ms
  /\ datasamples_of 320 = Z.of_nat (List.length Example.samples_20ms)
  /\ mean_abs Example.samples_20ms = 150
  /\ calculate_audio_level (frame_of Example.samples_20ms) 320 = Some 75
  /\ (forall env df w,
        exists w',
          gdf_write env df (frame_of Example.samples_20ms) 320 w = Some (0, w')
          /\ vad_of (data w') = vad_step (data w) 75 320)
  /\ l_change_duration (vad_step (data Example.started) 75 320) = 0
  /\ l_change_duration (vad_step (data Example.started) 150 320) = 20.
Proof.
  assert (Hlvl : calculate_audio_level (frame_of Example.samples_20ms) 320
                 = Some 75) by (vm_compute; reflexivity).
  split; [|split; [|split; [|split; [|split; [|split]]]]].
  - apply Forall_forall. intros x Hx.
    apply repeat_spec in Hx. subst. unfold is_short, SHRT_MIN, SHRT_MAX. lia.
  - vm_compute. reflexivity.
  - vm_compute. reflexivity.
  - exact Hlvl.
  - intros env df w.
    destruct (gdf_write_run env df _ 320 w 75 Hlvl) as (w' & Hrun & V & _).
    exists w'. split; assumption.
  - vm_compute. reflexivity.
  - vm_compute. reflexivity.
Qed.

(** C4, at the failing input: a frame of length zero.  Nothing between the
    entry of [gdf_write] and the call at line 549 looks at [len], so
    [calculate_audio_level] divides by zero and the write faults. *)
Theorem gdf_write_of_an_empty_frame_divides_by_zero env df buf w :
  calculate_audio_level buf 0 = None
  /\ gdf_write env df buf 0 w = None.
Proof.
  split; [reflexivity|].
  unfold gdf_write, bind.
  rewrite (gdf_write_endpointer_fault env buf 0 w eq_refl). reflexivity.
Qed.

(** ** Finalizing an utterance *)

Lemma fcloses_app t1 t2 : fcloses (t1 ++ t2) = fcloses t1 ++ fcloses t2.
Proof.
  induction t1 as [|e t1 IH]; [reflexivity|].
  destruct e; cbn; rewrite ?IH; reflexivity.
Qed.

Lemma log_lines_app t1 t2 : log_lines (t1 ++ t2) = log_lines t1 ++ log_lines t2.
Proof.
  induction t1 as [|e t1 IH]; [reflexivity|].
  destruct e; cbn; rewrite ?IH; reflexivity.
Qed.

Lemma df_calls_app t1 t2 : df_calls (t1 ++ t2) = df_calls t1 ++ df_calls t2.
Proof.
  induction t1 as [|e t1 IH]; [reflexivity|].
  destruct e; cbn; rewrite ?IH; reflexivity.
Qed.

Lemma fcloses_log_line env pvt type ev d : fcloses (log_line env pvt type ev d) = [].
Proof. unfold log_line. destruct (call_log_stream env pvt); reflexivity. Qed.

Lemma df_calls_log_line env pvt type ev d : df_calls (log_line env pvt type ev d) = [].
Proof. unfold log_line. destruct (call_log_stream env pvt); reflexivity. Qed.

Lemma log_lines_log_line env pvt type ev d :
  log_lines (log_line env pvt type ev d)
  = match call_log_stream env pvt with Some _ => [(type, ev)] | None => [] end.
Proof. unfold log_line. destruct (call_log_stream env pvt); reflexivity. Qed.

Lemma fcloses_held s : fcloses (map io_fclose (held s)) = held s.
Proof. destruct s; reflexivity. Qed.

Lemma log_lines_held s : log_lines (map io_fclose (held s)) = [].
Proof. destruct s; reflexivity. Qed.

Lemma df_calls_held s : df_calls (map io_fclose (held s)) = [].
Proof. destruct s; reflexivity. Qed.

Lemma fcloses_finalize_events env pvt :
  fcloses (finalize_events env pvt) = recordings pvt.
Proof.
  unfold finalize_events, recordings.
  rewrite !fcloses_app, !fcloses_log_line, !fcloses_held, !app_nil_r.
  reflexivity.
Qed.

Lemma log_lines_finalize_events env pvt :
  log_lines (finalize_events env pvt)
  = match call_log_stream env pvt with Some _ => stop_lines | None => [] end.
Proof.
  unfold finalize_events.
  rewrite !log_lines_app, !log_lines_log_line, !log_lines_held.
  destruct (call_log_stream env pvt); reflexivity.
Qed.

Lemma df_calls_finalize_events env pvt : df_calls (finalize_events env pvt) = [].
Proof.
  unfold finalize_events.
  rewrite !df_calls_app, !df_calls_log_line, !df_calls_held. reflexivity.
Qed.

(** While the call log is written the end line is the last event of a
    finalize. *)
Lemma finalize_events_end env pvt f :
  call_log_stream env pvt = Some f ->
  exists d,
    finalize_events env pvt = d ++ [io_fprintf f CALL_LOG_TYPE_SESSION "end" []].
Proof.
  intros H. unfold finalize_events, log_line. rewrite H.
  eexists. rewrite !app_assoc. reflexivity.
Qed.

Lemma finalize_events_closes env pvt h :
  In h (recordings pvt) -> In (io_fclose h) (finalize_events env pvt).
Proof.
  unfold recordings, finalize_events. intros H.
  apply in_app_or in H. destruct H as [H|H].
  - apply in_or_app. left. apply in_map. exact H.
  - apply in_or_app. right. apply in_or_app. right.
    apply in_or_app. left. apply in_map. exact H.
Qed.

Lemma call_log_stream_finalized env w :
  call_log_stream env (data (finalized env w)) = call_log_stream env (data w).
Proof. reflexivity. Qed.

Lemma recordings_finalized env w : recordings (data (finalized env w)) = [].
Proof. reflexivity. Qed.

(** C9, as amended.  Two calls of [gdf_stop_recognition] in a row both
    return; the first closes exactly the recording streams that are held,
    each once, and the second closes nothing.  The stop lines do not follow
    the files: each of the two calls logs one [pre_recording_stop], one
    [post_recording_stop] and one [end] whenever the call log is written,
    whether or not a recording was open. *)
Theorem gdf_stop_recognition_twice env w :
  exists w1 w2 d1 d2,
    gdf_stop_recognition env w = Some (0, w1)
    /\ gdf_stop_recognition env w1 = Some (0, w2)
    /\ trace w1 = trace w ++ d1
    /\ trace w2 = trace w1 ++ d2
    /\ fcloses d1 = recordings (data w)
    /\ fcloses d2 = []
    /\ log_lines d1
       = match call_log_stream env (data w) with
         | Some _ => stop_lines
         | None => []
         end
    /\ log_lines d2 = log_lines d1.
Proof.
  exists (finalized env w), (finalized env (finalized env w)),
    (finalize_events env (data w)),
    (finalize_events env (data (finalized env w))).
  split; [apply gdf_stop_recognition_run|].
  split; [apply gdf_stop_recognition_run|].
  split; [reflexivity|]. split; [reflexivity|].
  split; [apply fcloses_finalize_events|].
  split; [rewrite fcloses_finalize_events; apply recordings_finalized|].
  split; [apply log_lines_finalize_events|].
  rewrite !log_lines_finalize_events, call_log_stream_finalized. reflexivity.
Qed.

(** C9, as stated, fails on its second half.  The session of the example
    is speaking with its two recordings open, each opened once; finalized
    twice, it has closed each stream once, and yet its call log holds two
    [pre_recording_stop] lines and two [post_recording_stop] lines. *)
Lemma recording_stop_is_logged_by_every_finalize :
  let w := Example.speaking in
  let w2 := Example.after (gdf_stop_recognition Example.env)
              (Example.after (gdf_stop_recognition Example.env) w) in
  recordings (data w) = [1%nat; 2%nat]
  /\ List.length (fopens (trace w2)) = 3%nat
  /\ fcloses (trace w2) = [1%nat; 2%nat]
  /\ times_logged "pre_recording_stop" (trace w2) = 2%nat
  /\ times_logged "post_recording_stop" (trace w2) = 2%nat.
Proof. vm_compute. repeat split. Qed.
(** ** A failing exchange *)

(** C6, at the failing input: a session with the call log open and both
    recordings on has taken 20 ms of voice, and the frame that commits to
    speech finds [df_start_recognition] failing.  [gdf_write] runs
    [gdf_stop_recognition], which closes nothing, as no recording is open
    yet, logs the end line and sets [AST_SPEECH_STATE_DONE]; but it does
    not return there.  The block that forwards the frame follows in the
    same call: both recording files are opened, the frame is written to
    them and handed to [df_write_audio], and the call returns with the
    speech state [AST_SPEECH_STATE_DONE] and both recordings open, after
    the finalize of the utterance. *)
Theorem a_failed_start_is_followed_by_recording :
  vad_state (data Example.about_to_speak) = VAD_STATE_START
  /\ call_log_stream Example.env (data Example.about_to_speak) = Some 0%nat
  /\ open_streams (trace Example.about_to_speak) = [0%nat]
  /\ df_start_recognition_ret Example.df_start_fails <> 0
  /\ terminal (df_write_audio_ret Example.df_start_fails) = false
  /\ exists w' before after,
       gdf_write Example.env Example.df_start_fails (fun _ => 600) 320
         Example.about_to_speak = Some (0, w')
       /\ trace w'
          = trace Example.about_to_speak
            ++ before
            ++ finalize_events Example.env (data Example.about_to_speak)
            ++ after
       /\ df_calls before = [io_df_start_recognition ""]
       /\ log_lines
            (finalize_events Example.env (data Example.about_to_speak))
          = stop_lines
       /\ vad_state (data w') = VAD_STATE_SPEAK
       /\ state w' = AST_SPEECH_STATE_DONE
       /\ fopens after
          = ["/var/log/dialogflow/unknown/0709_0x7f01_pre_1.ul";
             "/var/log/dialogflow/unknown/0709_0x7f01_post_1.ul"]
       /\ df_calls after
          = [io_df_write_audio (repeat 2 160); io_df_get_response_count]
       /\ fcloses after = []
       /\ recordings (data w') = [1%nat; 2%nat]
       /\ open_streams (trace w') = [0%nat; 1%nat; 2%nat].
Proof.
  split; [reflexivity|]. split; [reflexivity|]. split; [reflexivity|].
  split; [discriminate|]. split; [reflexivity|].
  eexists.
  exists [io_fprintf 0%nat CALL_LOG_TYPE_ENDPOINTER "start_of_speech" [];
          io_df_start_recognition ""].
  eexists.
  split; [vm_compute; reflexivity|].
  split; [vm_compute; reflexivity|].
  vm_compute. repeat split.
Qed.

(** ** Starting an utterance *)

Lemma should_start_call_log_run env w :
  exists v, should_start_call_log env w = Some (v, w).
Proof.
  unfold should_start_call_log. step.
  destruct (truthy _); [destruct (config env)|]; eexists; reflexivity.
Qed.

Ltac call_log_only_tac :=
  unfold call_log_only, add_trace, set_data, set_next_FILE;
  cbn; split; [reflexivity|]; split; [reflexivity|];
  first
    [ eexists; split; [rewrite <- ?app_assoc; reflexivity|];
      repeat split; reflexivity
    | exists []; split; [symmetry; apply app_nil_r|];
      repeat split; reflexivity ].

Lemma call_log_only_refl w : call_log_only w w.
Proof.
  unfold call_log_only. split; [reflexivity|]. split; [reflexivity|].
  exists []. rewrite app_nil_r. repeat split; reflexivity.
Qed.

(** [start_call_log] always returns, and touches the call-log fields only. *)
Lemma start_call_log_run env w :
  exists w', start_call_log env w = Some (tt, w') /\ call_log_only w w'.
Proof.
  unfold start_call_log, calculate_log_path, calculate_log_file_basename,
    mkdir_log_path.
  do 2 step.
  destruct (config env) as [cfg|].
  - do 4 step.
    match goal with
    | |- context [if negb (ast_strlen_zero ?p) then _ else _] =>
        destruct (ast_strlen_zero p)
    end; cbn [negb].
    + eexists. split; [reflexivity | call_log_only_tac].
    + do 2 step.
      match goal with
      | |- context [bind (build_log_related_filename_to_thread_local_str ?c ?t ?e) _ ?w0] =>
          destruct (build_log_related_filename_to_thread_local_str_run c t e w0)
            as [path Hp]
      end.
      erewrite bind_run by exact Hp.
      destruct (fopen_succeeds env path) eqn:Ho.
      * erewrite bind_run by (apply fopen_run_opened; exact Ho).
        cbv beta iota.
        eexists. split; [reflexivity | call_log_only_tac].
      * erewrite bind_run by (apply fopen_run_failed; exact Ho).
        cbv beta iota.
        eexists. split; [reflexivity | call_log_only_tac].
  - do 4 step.
    match goal with
    | |- context [if negb (ast_strlen_zero ?p) then _ else _] =>
        destruct (ast_strlen_zero p)
    end; cbn [negb].
    + eexists. split; [reflexivity | call_log_only_tac].
    + do 2 step.
      match goal with
      | |- context [bind (build_log_related_filename_to_thread_local_str ?c ?t ?e) _ ?w0] =>
          destruct (build_log_related_filename_to_thread_local_str_run c t e w0)
            as [path Hp]
      end.
      erewrite bind_run by exact Hp.
      destruct (fopen_succeeds env path) eqn:Ho.
      * erewrite bind_run by (apply fopen_run_opened; exact Ho).
        cbv beta iota.
        eexists. split; [reflexivity | call_log_only_tac].
      * erewrite bind_run by (apply fopen_run_failed; exact Ho).
        cbv beta iota.
        eexists. split; [reflexivity | call_log_only_tac].
Qed.

Lemma ast_strlen_zero_false s : s <> "" -> ast_strlen_zero s = false.
Proof. destruct s; [congruence | reflexivity]. Qed.

(** C7, as amended.  With a priming event set, [gdf_start] returns, and its
    only call to the DialogFlow library is one [df_recognize_event] on that
    event: no streaming is started.  When the library accepts the event the
    utterance is finalized at once: the speech state is
    [AST_SPEECH_STATE_DONE], the recording streams that were held are
    closed and none is held, and the last event is the session's end line
    provided the call log is written.  When the library refuses the event
    there is no finalize: the speech state is [AST_SPEECH_STATE_NOT_READY],
    the recordings are left as they were, nothing is closed and no end line
    is logged. *)
Theorem gdf_start_with_a_priming_event env df w :
  event (data w) <> "" ->
  exists w' d,
    gdf_start env df w = Some (0, w')
    /\ trace w' = trace w ++ d
    /\ df_calls d
       = [io_df_recognize_event (event (data w)) (language (data w))]
    /\ if truthy (df_recognize_event_ret df) then
         state w' = AST_SPEECH_STATE_NOT_READY
         /\ recordings (data w') = recordings (data w)
         /\ fcloses d = []
         /\ ~ In (CALL_LOG_TYPE_SESSION, "end") (log_lines d)
       else
         state w' = AST_SPEECH_STATE_DONE
         /\ recordings (data w') = []
         /\ fcloses d = recordings (data w)
         /\ forall f,
              call_log_stream env (data w') = Some f ->
              exists d0,
                d = d0 ++ [io_fprintf f CALL_LOG_TYPE_SESSION "end" []].
Proof.
  intros Hev. unfold gdf_start, log_endpointer_start_event.
  do 2 step.
  set (w1 := set_data _ w).
  assert (Hrec1 : recordings (data w1) = recordings (data w)) by reflexivity.
  assert (Htr1 : trace w1 = trace w) by reflexivity.
  destruct (should_start_call_log_run env w1) as (v & Hv).
  erewrite bind_run by exact Hv.
  assert (Hlog : exists w2,
            (if truthy v then start_call_log env else ret tt) w1 = Some (tt, w2)
            /\ call_log_only w1 w2).
  { destruct (truthy v).
    - apply start_call_log_run.
    - exists w1. split; [reflexivity | apply call_log_only_refl]. }
  destruct Hlog as (w2 & Hrun2 & Hst2 & Hrec2 & d2 & Htr2 & Hc2 & Hl2 & Hdf2).
  erewrite bind_run by exact Hrun2.
  do 4 step.
  rewrite (ast_strlen_zero_false _ Hev). cbn [negb].
  step.
  set (line1 := log_line env (data w2) CALL_LOG_TYPE_SESSION "start" _).
  set (line2 := log_line env _ CALL_LOG_TYPE_ENDPOINTER "start" _).
  set (call := io_df_recognize_event (event (data w)) (language (data w))).
  assert (Hc1 : fcloses line1 = []) by apply fcloses_log_line.
  assert (Hc3 : fcloses line2 = []) by apply fcloses_log_line.
  assert (Hd1 : df_calls line1 = []) by apply df_calls_log_line.
  assert (Hd3 : df_calls line2 = []) by apply df_calls_log_line.
  destruct (truthy (df_recognize_event_ret df)).
  - step.
    eexists. exists (d2 ++ line1 ++ line2 ++ [call]).
    split; [reflexivity|].
    split; [cbn; rewrite Htr2, Htr1, <- !app_assoc; reflexivity|].
    split; [rewrite !df_calls_app, Hdf2, Hd1, Hd3; reflexivity|].
    split; [reflexivity|].
    split; [cbn; rewrite Hrec2; exact Hrec1|].
    split; [rewrite !fcloses_app, Hc2, Hc1, Hc3; reflexivity|].
    rewrite !log_lines_app, Hl2. subst line1 line2.
    rewrite !log_lines_log_line. cbn.
    repeat match goal with
           | |- context [match ?s with Some _ => _ | None => _ end] =>
               destruct s
           end; cbn; intuition congruence.
  - rewrite bind_assoc.
    erewrite bind_run by apply gdf_stop_recognition_run.
    set (w3 := add_trace [call] _).
    assert (Hrec3 : recordings (data w3) = recordings (data w)).
    { cbn. rewrite Hrec2. exact Hrec1. }
    exists (finalized env w3),
      (d2 ++ line1 ++ line2 ++ [call] ++ finalize_events env (data w3)).
    split; [reflexivity|].
    split; [cbn; rewrite Htr2, Htr1, <- !app_assoc; reflexivity|].
    split; [rewrite !df_calls_app, Hdf2, Hd1, Hd3, df_calls_finalize_events;
            reflexivity|].
    split; [reflexivity|].
    split; [reflexivity|].
    split; [rewrite !fcloses_app, Hc2, Hc1, Hc3, fcloses_finalize_events;
            exact Hrec3|].
    intros f Hf. rewrite call_log_stream_finalized in Hf.
    destruct (finalize_events_end env (data w3) f Hf) as (d0 & ->).
    eexists. rewrite !app_assoc. reflexivity.
Qed.

Lemma gdf_start_with_a_priming_event_witness :
  event (data Example.primed) = "welcome"
  /\ exists w' d,
       gdf_start Example.env Example.df_ok Example.primed = Some (0, w')
       /\ trace w' = trace Example.primed ++ d
       /\ df_calls d = [io_df_recognize_event "welcome" ""]
       /\ state w' = AST_SPEECH_STATE_DONE
       /\ recordings (data w') = []
       /\ fcloses d = [].
Proof.
  split; [reflexivity|].
  destruct (gdf_start_with_a_priming_event Example.env Example.df_ok
              Example.primed ltac:(discriminate))
    as (w' & d & Hrun & Ht & Hdf & Hs & Hr & Hc & _).
  exists w', d. repeat split; assumption.
Defined.

(** C7, as stated, fails on the failure half.  The session of the example
    is primed with the event [welcome] and the library refuses it: the
    call log is open and holds the two start lines of the utterance, but no
    end line, and the speech state is [AST_SPEECH_STATE_NOT_READY], not the
    terminal [AST_SPEECH_STATE_DONE]. *)
Lemma refused_priming_event_is_not_finalized :
  event (data Example.primed) = "welcome"
  /\ truthy (df_recognize_event_ret Example.df_event_fails) = true
  /\ exists w',
       gdf_start Example.env Example.df_event_fails Example.primed
       = Some (0, w')
       /\ state w' = AST_SPEECH_STATE_NOT_READY
       /\ state w' <> AST_SPEECH_STATE_DONE
       /\ call_log_stream Example.env (data w') = Some 0%nat
       /\ log_lines (trace w')
          = [(CALL_LOG_TYPE_SESSION, "start");
             (CALL_LOG_TYPE_ENDPOINTER, "start")].
Proof.
  split; [reflexivity|]. split; [reflexivity|].
  eexists. split; [vm_compute; reflexivity|].
  vm_compute. repeat split. discriminate.
Qed.

(** ** Changing a property *)

Lemma tolower_zero c : tolower c = zero -> c = zero.
Proof.
  destruct c as [[|] [|] [|] [|] [|] [|] [|] [|]];
    vm_compute; intros H; first [reflexivity | discriminate H].
Qed.

Lemma code_inj c d : code c = code d -> c = d.
Proof.
  unfold code. intros H. apply Nat2Z.inj in H.
  rewrite <- (ascii_nat_embedding c), <- (ascii_nat_embedding d), H.
  reflexivity.
Qed.

Lemma code_zero c : code c = 0 -> c = zero.
Proof. intros H. apply code_inj. exact H. Qed.

Lemma c_lower_head c d a b :
  tolower c = tolower d -> c_lower a = c_lower b ->
  c_lower (String c a) = c_lower (String d b).
Proof.
  intros Hcd Hab. cbn [c_lower].
  destruct (Ascii.eqb_spec c zero) as [Hc|Hc];
    destruct (Ascii.eqb_spec d zero) as [Hd|Hd].
  - reflexivity.
  - subst c. exfalso. apply Hd, tolower_zero. rewrite <- Hcd. reflexivity.
  - subst d. exfalso. apply Hc, tolower_zero. rewrite Hcd. reflexivity.
  - rewrite Hcd, Hab. reflexivity.
Qed.

(** Strings that [strcasecmp] finds equal hold the same C string up to
    case. *)
Lemma strcasecmp_zero a : forall b,
  strcasecmp a b = 0 -> c_lower a = c_lower b.
Proof.
  induction a as [|c a IH]; intros [|d b] H; cbn [strcasecmp] in H.
  - reflexivity.
  - assert (Hd : d = zero) by (apply tolower_zero, code_zero; lia).
    subst d. reflexivity.
  - assert (Hc : c = zero) by (apply tolower_zero, code_zero; lia).
    subst c. reflexivity.
  - destruct (Ascii.eqb_spec (tolower c) (tolower d)) as [E|E].
    + apply c_lower_head; [exact E | apply IH; exact H].
    + exfalso. apply E, code_inj. lia.
Qed.

Lemma named_exclusive name p q :
  named name p = true -> c_lower p <> c_lower q -> named name q = false.
Proof.
  unfold named. intros Hp Hpq.
  apply Z.eqb_eq, strcasecmp_zero in Hp.
  destruct (Z.eqb_spec (strcasecmp name q) 0) as [Hq|]; [|reflexivity].
  apply strcasecmp_zero in Hq. congruence.
Qed.

(** Resolves the chain of name tests of [gdf_change] for a name known to
    be that of [p]. *)
Ltac resolve_names H :=
  repeat match goal with
         | |- context [named ?n ?q] =>
             first
               [ rewrite H
               | rewrite (named_exclusive n _ q H) by (vm_compute; discriminate) ]
         end;
  cbn [orb].

Lemma change_tunable_run set value w :
  match (if ast_strlen_zero value then None else sscanf_d value) with
  | None => change_tunable set value w = Some (-1, w)
  | Some i => change_tunable set value w = Some (0, set_data (set i (data w)) w)
  end.
Proof.
  unfold change_tunable.
  destruct (ast_strlen_zero value); [reflexivity|].
  destruct (sscanf_d value); [|reflexivity].
  step. reflexivity.
Qed.

Lemma scan_digits_some s : forall a, exists n, scan_digits s (Some a) = Some n.
Proof.
  induction s as [|c s IH]; intros a; cbn [scan_digits].
  - eexists. reflexivity.
  - destruct (digit_of c); [apply IH | eexists; reflexivity].
Qed.

Lemma scan_digits_first s :
  match s with
  | String c _ =>
      match digit_of c with
      | Some _ => exists n, scan_digits s None = Some n
      | None => scan_digits s None = None
      end
  | EmptyString => scan_digits s None = None
  end.
Proof.
  destruct s as [|c s]; [reflexivity|]. cbn [scan_digits].
  destruct (digit_of c); [apply scan_digits_some | reflexivity].
Qed.

Lemma sscanf_d_starts_with_integer value :
  if starts_with_integer value
  then exists i, sscanf_d value = Some i /\ INT_MIN <= i <= INT_MAX
  else sscanf_d value = None.
Proof.
  unfold starts_with_integer, sscanf_d.
  assert (Hstore : forall sign s,
            if match s with
               | String c _ =>
                   match digit_of c with Some _ => true | None => false end
               | EmptyString => false
               end
            then exists i,
                   match scan_digits s None with
                   | Some n =>
                       Some (to_int (Z.max LONG_MIN (Z.min LONG_MAX (sign * n))))
                   | None => None
                   end = Some i
                   /\ INT_MIN <= i <= INT_MAX
            else match scan_digits s None with
                 | Some n =>
                     Some (to_int (Z.max LONG_MIN (Z.min LONG_MAX (sign * n))))
                 | None => None
                 end = None).
  { intros sign s. pose proof (scan_digits_first s) as H.
    destruct s as [|c s]; [rewrite H; reflexivity|].
    destruct (digit_of c).
    - destruct H as [n ->]. eexists. split; [reflexivity | apply to_int_range].
    - rewrite H. reflexivity. }
  destruct (skip_space value) as [|c s]; [apply (Hstore 1 "")|].
  destruct c as [[|] [|] [|] [|] [|] [|] [|] [|]];
    first [apply (Hstore (-1) s) | apply (Hstore 1 s) | apply (Hstore 1 (String _ s))].
Qed.

(** The text that ["%d"] prints is read back by ["%d"]. *)
Lemma scan_digits_of_uint_acc d : forall acc,
  scan_digits (NilEmpty.string_of_uint d) (Some (Z.pos acc))
  = Some (Z.pos (Pos.of_uint_acc d acc)).
Proof.
  induction d; intros acc; cbn [NilEmpty.string_of_uint scan_digits Pos.of_uint_acc];
    try reflexivity;
    match goal with
    | |- context [digit_of ?c] =>
        let v := eval vm_compute in (digit_of c) in
        change (digit_of c) with v
    end; cbv beta iota;
    match goal with
    | |- scan_digits _ (Some ?z) = Some (Z.pos (Pos.of_uint_acc _ ?p)) =>
        replace z with (Z.pos p) by lia
    end; apply IHd.
Qed.

Lemma scan_digits_of_uint d : forall acc,
  d <> Decimal.Nil ->
  match acc with Some a => a = 0 | None => True end ->
  scan_digits (NilEmpty.string_of_uint d) acc = Some (Z.of_N (Pos.of_uint d)).
Proof.
  induction d; intros acc Hd Hacc; try congruence;
    cbn [NilEmpty.string_of_uint scan_digits Pos.of_uint];
    match goal with
    | |- context [digit_of ?c] =>
        let v := eval vm_compute in (digit_of c) in
        change (digit_of c) with v
    end; cbv beta iota;
    assert (Ha : match acc with Some a => a | None => 0 end = 0)
      by (destruct acc; [exact Hacc | reflexivity]);
    rewrite Ha; cbn [Z.mul Z.add];
    try (rewrite scan_digits_of_uint_acc; reflexivity).
  destruct d; try (apply IHd; [discriminate | reflexivity]).
  reflexivity.
Qed.

Lemma sscanf_d_fmt_d i :
  INT_MIN <= i <= INT_MAX -> sscanf_d (fmt_d i) = Some i.
Proof.
  intros Hi.
  assert (Hint : to_int (Z.max LONG_MIN (Z.min LONG_MAX i)) = i).
  { unfold to_int, LONG_MIN, LONG_MAX, INT_MIN, INT_MAX in *.
    rewrite Z.min_r, Z.max_r by lia.
    rewrite Z.mod_small by lia. lia. }
  unfold fmt_d.
  destruct i as [|p|p]; cbn [Z.to_int NilZero.string_of_int].
  - vm_compute. reflexivity.
  - pose proof (DecimalPos.Unsigned.to_uint_nonnil p) as Hnil.
    pose proof (DecimalPos.Unsigned.of_to p) as Hof.
    pose proof (scan_digits_of_uint (Pos.to_uint p) None Hnil I) as Hscan.
    rewrite Hof in Hscan. cbn [Z.of_N] in Hscan.
    unfold NilZero.string_of_uint.
    destruct (Pos.to_uint p) eqn:E; try congruence;
      cbn [NilEmpty.string_of_uint] in *;
      unfold sscanf_d; cbn [skip_space];
      match goal with
      | |- context [isspace ?c] =>
          let v := eval vm_compute in (isspace c) in
          change (isspace c) with v
      end; cbv beta iota;
      (rewrite Hscan; rewrite Z.mul_1_l, Hint; reflexivity).
  - pose proof (DecimalPos.Unsigned.to_uint_nonnil p) as Hnil.
    pose proof (DecimalPos.Unsigned.of_to p) as Hof.
    pose proof (scan_digits_of_uint (Pos.to_uint p) None Hnil I) as Hscan.
    rewrite Hof in Hscan. cbn [Z.of_N] in Hscan.
    unfold NilZero.string_of_uint.
    destruct (Pos.to_uint p) eqn:E; try congruence;
      unfold sscanf_d; cbn [skip_space];
      match goal with
      | |- context [isspace ?c] =>
          let v := eval vm_compute in (isspace c) in
          change (isspace c) with v
      end; cbv beta iota;
      (rewrite Hscan; change (-1 * Z.pos p) with (Z.neg p); rewrite Hint; reflexivity).
Qed.

(** C8, as amended.  For a property name that [gdf_change] takes for
    [voice_threshold], [voice_duration] or [silence_duration], a value that
    is empty, or that does not start with an integer (white space, an
    optional sign, a digit), makes the call answer -1 and leaves the whole
    world, the stored tunable with it, as it was.  Every other value is
    accepted, whatever follows the integer it starts with: the call
    answers 0 and assigns to that tunable, and to nothing else, the [int]
    that [sscanf] converts with [%d]; for a value that is the decimal text
    of an [int], that [int]. *)
Theorem gdf_change_of_a_tunable name value w prop get set :
  In (prop, get, set) tunable_properties ->
  named name prop = true ->
  if ast_strlen_zero value || negb (starts_with_integer value)
  then gdf_change name value w = Some (-1, w)
  else exists i,
         sscanf_d value = Some i
         /\ INT_MIN <= i <= INT_MAX
         /\ gdf_change name value w = Some (0, set_data (set i (data w)) w)
         /\ get (set i (data w)) = i
         /\ (forall n, INT_MIN <= n <= INT_MAX -> value = fmt_d n -> i = n).
Proof.
  intros Hprop Hname.
  pose proof (change_tunable_run set value w) as Hrun.
  assert (Hchange : gdf_change name value w = change_tunable set value w).
  { unfold gdf_change.
    cbn [tunable_properties In] in Hprop.
    destruct Hprop as [E | [E | [E | []]]]; injection E as <- <- <-;
      resolve_names Hname; reflexivity. }
  rewrite Hchange.
  pose proof (sscanf_d_starts_with_integer value) as Hscan.
  destruct (ast_strlen_zero value); cbn [orb]; [exact Hrun|].
  destruct (starts_with_integer value); cbn [negb].
  - destruct Hscan as (i & Hi & Hrange). rewrite Hi in Hrun.
    exists i. split; [exact Hi|]. split; [exact Hrange|].
    split; [exact Hrun|]. split.
    + cbn [tunable_properties In] in Hprop.
      destruct Hprop as [E | [E | [E | []]]]; injection E as <- <- <-;
        reflexivity.
    + intros n Hn ->. rewrite (sscanf_d_fmt_d n Hn) in Hi.
      injection Hi as <-. reflexivity.
  - rewrite Hscan in Hrun. exact Hrun.
Qed.

Lemma gdf_change_of_a_tunable_witness :
  gdf_change "Voice_Threshold" "-40" Example.started
  = Some (0, set_data (set_voice_threshold (-40) (data Example.started))
               Example.started)
  /\ voice_threshold (set_voice_threshold (-40) (data Example.started)) = -40
  /\ gdf_change "SILENCE_DURATION" "long" Example.started
     = Some (-1, Example.started).
Proof.
  assert (Hprop : In (VAD_PROP_VOICE_THRESHOLD, voice_threshold,
                      set_voice_threshold) tunable_properties)
    by (left; reflexivity).
  assert (Hname : named "Voice_Threshold" VAD_PROP_VOICE_THRESHOLD = true)
    by reflexivity.
  assert (Hrange : INT_MIN <= -40 <= INT_MAX)
    by (unfold INT_MIN, INT_MAX; lia).
  destruct (gdf_change_of_a_tunable "Voice_Threshold" "-40" Example.started
              VAD_PROP_VOICE_THRESHOLD voice_threshold set_voice_threshold
              Hprop Hname)
    as (i & _ & _ & Hrun & Hget & Hint).
  rewrite (Hint (-40) Hrange eq_refl) in Hrun, Hget.
  split; [exact Hrun|]. split; [exact Hget|].
  apply (gdf_change_of_a_tunable "SILENCE_DURATION" "long" Example.started
           VAD_PROP_SILENCE_DURATION silence_minimum_duration
           set_silence_minimum_duration).
  - right. right. left. reflexivity.
  - reflexivity.
Defined.

(** C8, as stated, fails on values that are no integers but start with
    one: [sscanf] converts the integer in front and [gdf_change] never
    looks at what follows.  ["12abc"] sets the threshold 100 to 12,
    ["-7.9"] sets a duration to -7 and ["0x1A"] to 0; the digits of
    ["99999999999"] do not fit an [int], and 1215752191 is stored. *)
Lemma gdf_change_accepts_what_starts_with_an_integer :
  voice_threshold (data Example.started) = 100
  /\ gdf_change "voice_threshold" "12abc" Example.started
     = Some (0, set_data (set_voice_threshold 12 (data Example.started))
                  Example.started)
  /\ gdf_change "voice_duration" "-7.9" Example.started
     = Some (0, set_data (set_voice_minimum_duration (-7)
                            (data Example.started))
                  Example.started)
  /\ gdf_change "silence_duration" "0x1A" Example.started
     = Some (0, set_data (set_silence_minimum_duration 0
                            (data Example.started))
                  Example.started)
  /\ gdf_change "silence_duration" "99999999999" Example.started
     = Some (0, set_data (set_silence_minimum_duration 1215752191
                            (data Example.started))
                  Example.started).
Proof. repeat split; vm_compute; reflexivity. Qed.

(** ** The "already attempted" flags *)

(** C10, at the failing input: the call log is off, so [gdf_start] never
    computes the call log path, and the pre-endpoint recordings are on.
    [maybe_record_audio] then reads neither the flags nor the streams, and
    every frame of a speaking session opens both recording files again,
    although both flags have been 1 since the first attempt: four frames of
    20 ms above the threshold commit to speech on the second and open each
    file three times, under a new stream each time. *)
Theorem recordings_are_reopened_without_call_log_path :
  call_log_path (data Example.started_no_call_log) = ""
  /\ exists ws,
       write_frames Example.env_no_call_log
         (repeat (Example.loud_20ms Example.df_ok) 4)
         Example.started_no_call_log = Some ws
       /\ map (fun w =>
                 (vad_state (data w),
                  utterance_preendpointer_recording_open_already_attempted (data w),
                  utterance_preendpointer_recording_file_handle (data w)))
              ws
          = [(VAD_STATE_START, 0, None);
             (VAD_STATE_SPEAK, 1, Some 0%nat);
             (VAD_STATE_SPEAK, 1, Some 2%nat);
             (VAD_STATE_SPEAK, 1, Some 4%nat)]
       /\ fopens (trace (last ws Example.started_no_call_log))
          = ["_pre_1.ul"; "_post_1.ul"; "_pre_1.ul"; "_post_1.ul";
             "_pre_1.ul"; "_post_1.ul"]
       /\ fcloses (trace (last ws Example.started_no_call_log)) = [].
Proof.
  split; [reflexivity|].
  eexists. split; [vm_compute; reflexivity|].
  vm_compute. repeat split.
Qed.

(** * Further properties of the engine *)

(** ** Frames that are accepted *)

Lemma calculate_audio_level_defined buf len :
  len <> 0 -> exists lvl, calculate_audio_level buf len = Some lvl.
Proof.
  intros H. unfold calculate_audio_level.
  destruct (Z.eqb_spec len 0); [contradiction | eexists; reflexivity].
Qed.

(** X1.  The frame of length zero makes [gdf_write] divide by zero: the
    level estimate divides the sum of the samples by [len], and it is
    computed before the endpointer takes a step or the frame is recorded
    or forwarded.  So a [gdf_write] that returns was given a frame of
    another length; the level of that frame is defined, and what is
    returned is 0. *)
Theorem gdf_write_divides_by_the_length_of_the_frame env df buf len w :
  (len = 0 ->
   calculate_audio_level buf len = None
   /\ gdf_write env df buf len w = None)
  /\ (forall r w',
        gdf_write env df buf len w = Some (r, w') ->
        len <> 0
        /\ r = 0
        /\ calculate_audio_level buf len
           = Some (to_int (Z.quot (sum_abs_from buf 0 (Z.to_nat len) 0) len))).
Proof.
  assert (Hzero : len = 0 -> calculate_audio_level buf len = None).
  { intros ->. reflexivity. }
  split.
  - intros E. split; [exact (Hzero E)|].
    unfold gdf_write, bind.
    rewrite (gdf_write_endpointer_fault env buf len w (Hzero E)).
    reflexivity.
  - intros r w' Hrun.
    destruct (gdf_write_returned env df buf len w r w' Hrun)
      as (lvl & Hlvl & _).
    assert (Hlen : len <> 0).
    { intros E. rewrite (Hzero E) in Hlvl. discriminate. }
    split; [exact Hlen|]. split.
    + destruct (gdf_write_run env df buf len w lvl Hlvl) as (w2 & Hrun2 & _).
      congruence.
    + unfold calculate_audio_level.
      destruct (Z.eqb_spec len 0); [contradiction | reflexivity].
Qed.

Lemma gdf_write_divides_by_the_length_of_the_frame_witness :
  (calculate_audio_level (fun _ => 600) 0 = None
   /\ gdf_write Example.env Example.df_ok (fun _ => 600) 0 Example.started
      = None)
  /\ exists w',
       gdf_write Example.env Example.df_ok (fun _ => 600) 320 Example.started
       = Some (0, w')
       /\ calculate_audio_level (fun _ => 600) 320 = Some 600.
Proof.
  split.
  - apply (gdf_write_divides_by_the_length_of_the_frame Example.env
             Example.df_ok (fun _ => 600) 0 Example.started).
    reflexivity.
  - destruct (gdf_write Example.env Example.df_ok (fun _ => 600) 320
                Example.started) as [[r w']|] eqn:Hrun;
      [|vm_compute in Hrun; discriminate].
    destruct (proj2 (gdf_write_divides_by_the_length_of_the_frame Example.env
                       Example.df_ok (fun _ => 600) 320 Example.started)
                r w' Hrun) as (_ & -> & Hlvl).
    exists w'. split; [reflexivity|].
    rewrite Hlvl. vm_compute. reflexivity.
Defined.

(** ** Transitions of the endpointer *)

Lemma vad_step_committed pvt lvl len :
  l_vad_state (vad_step pvt lvl len) <> vad_state pvt ->
  l_cur_duration (vad_step pvt lvl len) = 0
  /\ l_change_duration (vad_step pvt lvl len) = 0.
Proof.
  unfold vad_step, transition. cbn [l_vad_state l_change_duration].
  destruct (vad_state pvt); cbn [l_vad_state];
    repeat match goal with
           | |- context [if ?b then _ else _] => destruct b
           end; cbn; intros H; try congruence; split; reflexivity.
Qed.

(** X2.  Whenever a frame changes the state of the endpointer, both
    duration counters are 0 after it: a committed transition starts the
    time in the new state, and the time of disagreement, afresh. *)
Theorem durations_are_zero_after_a_transition env df buf len w r w' :
  gdf_write env df buf len w = Some (r, w') ->
  vad_state (data w') <> vad_state (data w) ->
  vad_state_duration (data w') = 0 /\ vad_change_duration (data w') = 0.
Proof.
  intros Hrun Hchange.
  destruct (gdf_write_returned env df buf len w r w' Hrun) as (lvl & _ & V & _).
  assert (Hs : vad_state (data w') = l_vad_state (vad_step (data w) lvl len))
    by (rewrite <- V; reflexivity).
  assert (Hd : vad_state_duration (data w')
               = l_cur_duration (vad_step (data w) lvl len))
    by (rewrite <- V; reflexivity).
  assert (Hc : vad_change_duration (data w')
               = l_change_duration (vad_step (data w) lvl len))
    by (rewrite <- V; reflexivity).
  rewrite Hd, Hc. apply vad_step_committed. congruence.
Qed.

Lemma durations_are_zero_after_a_transition_witness :
  exists w',
    gdf_write Example.env Example.df_ok (fun _ => 600) 320
      Example.about_to_speak = Some (0, w')
    /\ vad_state (data Example.about_to_speak) = VAD_STATE_START
    /\ vad_state (data w') = VAD_STATE_SPEAK
    /\ vad_state_duration (data w') = 0
    /\ vad_change_duration (data w') = 0.
Proof.
  destruct (gdf_write Example.env Example.df_ok (fun _ => 600) 320
              Example.about_to_speak) as [[r w']|] eqn:Hrun;
    [|vm_compute in Hrun; discriminate].
  assert (Hr : r = 0 /\ vad_state (data w') = VAD_STATE_SPEAK).
  { vm_compute in Hrun. injection Hrun as <- <-. split; reflexivity. }
  destruct Hr as [-> Hs].
  exists w'. split; [reflexivity|]. split; [reflexivity|]. split; [exact Hs|].
  apply (durations_are_zero_after_a_transition Example.env Example.df_ok
           (fun _ => 600) 320 Example.about_to_speak 0 w' Hrun).
  rewrite Hs. discriminate.
Defined.

(** X3.  A frame below the threshold that is written before speech has
    begun sets the time of disagreement back to 0; the state stays
    [VAD_STATE_START] when [voice_minimum_duration] is positive, and with
    a [voice_minimum_duration] of 0 or less the silent frame commits to
    [VAD_STATE_SPEAK] all the same, because 0 meets the minimum. *)
Theorem silent_frame_before_speech env df buf len w lvl :
  calculate_audio_level buf len = Some lvl ->
  vad_state (data w) = VAD_STATE_START ->
  lvl < voice_threshold (data w) ->
  exists w',
    gdf_write env df buf len w = Some (0, w')
    /\ vad_change_duration (data w') = 0
    /\ vad_state (data w')
       = if voice_minimum_duration (data w) <=? 0
         then VAD_STATE_SPEAK else VAD_STATE_START.
Proof.
  intros Hlvl Hst Hlow.
  destruct (gdf_write_run env df buf len w lvl Hlvl) as (w' & Hrun & V & _).
  exists w'. split; [exact Hrun|].
  assert (Hs : vad_state (data w') = l_vad_state (vad_step (data w) lvl len))
    by (rewrite <- V; reflexivity).
  assert (Hc : vad_change_duration (data w')
               = l_change_duration (vad_step (data w) lvl len))
    by (rewrite <- V; reflexivity).
  rewrite Hs, Hc. unfold vad_step, vote, transition. rewrite Hst.
  cbn [VAD_STATE_eqb negb l_vad_state l_change_duration].
  destruct (Z.geb_spec lvl (voice_threshold (data w))) as [Hge|_]; [lia|].
  cbn [l_vad_state l_change_duration].
  destruct (Z.geb_spec 0 (voice_minimum_duration (data w)));
    destruct (Z.leb_spec (voice_minimum_duration (data w)) 0);
    try lia; split; reflexivity.
Qed.

Lemma silent_frame_before_speech_witness :
  exists w',
    gdf_write Example.env Example.df_ok (fun _ => 0) 320 Example.started
    = Some (0, w')
    /\ vad_change_duration (data w') = 0
    /\ vad_state (data w') = VAD_STATE_START.
Proof.
  apply (silent_frame_before_speech Example.env Example.df_ok (fun _ => 0) 320
           Example.started 0).
  - vm_compute. reflexivity.
  - reflexivity.
  - vm_compute. reflexivity.
Defined.

(** ** Relations that every step of a run keeps *)

Section Steps.

Variable R : world -> world -> Prop.
Hypothesis R_refl : forall w, R w w.
Hypothesis R_trans : forall w1 w2 w3, R w1 w2 -> R w2 w3 -> R w1 w3.

Lemma steps_ret {A} (a : A) : steps R (ret a).
Proof. intros w a' w' H. injection H as _ <-. apply R_refl. Qed.

Lemma steps_fault {A} : steps R (@fault A).
Proof. intros w a w' H. discriminate H. Qed.

Lemma steps_lift {A} (o : option A) : steps R (lift o).
Proof. destruct o; [apply steps_ret | apply steps_fault]. Qed.

Lemma steps_bind {A B} (m : M A) (k : A -> M B) :
  steps R m -> (forall a, steps R (k a)) -> steps R (bind m k).
Proof.
  intros Hm Hk w b w' H. unfold bind in H.
  destruct (m w) as [[a w1]|] eqn:E; [|discriminate].
  eapply R_trans; [eapply Hm; exact E | eapply Hk; exact H].
Qed.

Lemma steps_get_pvt : steps R get_pvt.
Proof. intros w a w' H. injection H as _ <-. apply R_refl. Qed.

Lemma steps_test_spoke : steps R test_spoke.
Proof. intros w a w' H. injection H as _ <-. apply R_refl. Qed.

End Steps.

Lemma grows_by_refl allowed w : grows_by allowed w w.
Proof. exists []. split; [symmetry; apply app_nil_r | reflexivity]. Qed.

Lemma grows_by_trans allowed w1 w2 w3 :
  grows_by allowed w1 w2 -> grows_by allowed w2 w3 -> grows_by allowed w1 w3.
Proof.
  intros (d1 & E1 & F1) (d2 & E2 & F2). exists (d1 ++ d2). split.
  - rewrite E2, E1, app_assoc. reflexivity.
  - rewrite forallb_app, F1, F2. reflexivity.
Qed.

Lemma unchanged_refl {X} (observe : world -> X) w : unchanged observe w w.
Proof. reflexivity. Qed.

Lemma unchanged_trans {X} (observe : world -> X) w1 w2 w3 :
  unchanged observe w1 w2 -> unchanged observe w2 w3 ->
  unchanged observe w1 w3.
Proof. unfold unchanged. congruence. Qed.

Lemma flags_stay_refl w : flags_stay w w.
Proof. unfold flags_stay. tauto. Qed.

Lemma flags_stay_trans w1 w2 w3 :
  flags_stay w1 w2 -> flags_stay w2 w3 -> flags_stay w1 w3.
Proof. unfold flags_stay. tauto. Qed.

(** The primitive actions of the engine, for a relation whose instances on
    them [leaf] can settle. *)
Ltac steps_primitive leaf :=
  let w := fresh "w" in
  let a := fresh "a" in
  let w' := fresh "w'" in
  let H := fresh "H" in
  intros w a w' H;
  cbv [modify_pvt emit ast_speech_change_state set_quiet_and_spoke
       fresh_FILE] in H;
  injection H as _ <-; leaf.

(** Follows the code of an action down to its primitive actions, but for
    the actions that [special] settles as a whole. *)
Ltac steps_with special refl trans leaf :=
  repeat first
    [ special
    | apply (steps_bind _ trans); [|intros ?]
    | apply (steps_ret _ refl)
    | apply steps_fault
    | apply (steps_lift _ refl)
    | apply (steps_get_pvt _ refl)
    | apply (steps_test_spoke _ refl)
    | match goal with
      | |- steps _ (if ?b then _ else _) => destruct b
      | |- steps _ (match ?x with _ => _ end) => destruct x
      | |- steps _ (let _ := _ in _) => cbv zeta
      end
    | match goal with
      | |- steps _ (modify_pvt _) => steps_primitive leaf
      | |- steps _ (emit _) => steps_primitive leaf
      | |- steps _ (ast_speech_change_state _) => steps_primitive leaf
      | |- steps _ set_quiet_and_spoke => steps_primitive leaf
      | |- steps _ fresh_FILE => steps_primitive leaf
      end
    | progress unfold gdf_write, gdf_write_endpointer, gdf_write_start,
        gdf_write_forward, gdf_start, gdf_stop_recognition, gdf_change,
        change_tunable, maybe_record_audio,
        open_preendpointed_recording_file,
        open_postendpointed_recording_file,
        close_preendpointed_audio_recording,
        close_postendpointed_audio_recording,
        are_currently_recording_pre_endpointed_audio,
        write_end_of_recognition_call_event, gdf_log_call_event_only,
        gdf_log_call_event, call_log_enabled_for_pvt,
        log_endpointer_start_event, should_start_call_log, start_call_log,
        calculate_log_path, calculate_log_file_basename, mkdir_log_path,
        build_log_related_filename_to_thread_local_str,
        activate_old_style_event, fopen, fclose, fwrite, fprintf ].

Ltac steps_of refl trans leaf :=
  steps_with ltac:(fail) refl trans leaf.

Ltac flags_stay_leaf :=
  unfold flags_stay; cbn; repeat split; intros; first [assumption | reflexivity].

(** X4.  None of the three "already attempted" flags is ever cleared: a
    flag that is set when [gdf_start], [gdf_write], [gdf_stop_recognition]
    or [gdf_change] is entered is set when it returns. *)
Theorem attempted_flags_are_never_cleared env df buf len name value :
  steps flags_stay (gdf_start env df)
  /\ steps flags_stay (gdf_write env df buf len)
  /\ steps flags_stay (gdf_stop_recognition env)
  /\ steps flags_stay (gdf_change name value).
Proof.
  split; [|split; [|split]];
    steps_of flags_stay_refl flags_stay_trans flags_stay_leaf.
Qed.

(** ** What reaches the DialogFlow library *)


Lemma df_calls_none d : forallb not_df_call d = true -> df_calls d = [].
Proof.
  induction d as [|e d IH]; [reflexivity|].
  cbn [forallb]. intros H. apply andb_prop in H. destruct H as [He Hd].
  destruct e; cbn in He; try discriminate; cbn; apply IH; exact Hd.
Qed.

Lemma fopens_none d : forallb not_file_creation d = true -> fopens d = [].
Proof.
  induction d as [|e d IH]; [reflexivity|].
  cbn [forallb]. intros H. apply andb_prop in H. destruct H as [He Hd].
  destruct e; cbn in He; try discriminate; cbn; apply IH; exact Hd.
Qed.

Ltac grows_by_leaf :=
  unfold grows_by, add_trace, set_data, set_state, set_flags, set_next_FILE;
  cbn;
  first
    [ exists []; split; [symmetry; apply app_nil_r | reflexivity]
    | eexists; split; [reflexivity | reflexivity] ].

(** The recording side channel does not talk to the library. *)
Lemma maybe_record_audio_calls env mulaw current_vad_state :
  steps (grows_by not_df_call) (maybe_record_audio env mulaw current_vad_state).
Proof.
  steps_of (grows_by_refl not_df_call) (grows_by_trans not_df_call)
    grows_by_leaf.
Qed.

Lemma df_calls_transition_line env pvt l :
  df_calls (transition_line env pvt l) = [].
Proof.
  unfold transition_line.
  destruct (vad_state pvt), (l_vad_state l);
    first [reflexivity | apply df_calls_log_line].
Qed.

Lemma trace_responded df w :
  trace (responded df w)
  = trace w ++ (if AST_SPEECH_SPOKE w then [] else [io_df_get_response_count]).
Proof.
  unfold responded. destruct (AST_SPEECH_SPOKE w);
    [symmetry; apply app_nil_r|].
  destruct (df_get_response_count_ret df >? 0); reflexivity.
Qed.

Lemma gdf_write_forward_calls env df buf datasamples vad_state w :
  exists w' d,
    gdf_write_forward env df buf datasamples vad_state w = Some (tt, w')
    /\ trace w' = trace w ++ d
    /\ df_calls d
       = if negb (VAD_STATE_eqb vad_state VAD_STATE_START)
         then io_df_write_audio (lin2mu_frame env buf datasamples)
              :: (if AST_SPEECH_SPOKE w then []
                  else [io_df_get_response_count])
              ++ (if terminal (df_write_audio_ret df)
                  then [io_df_stop_recognition] else [])
         else [].
Proof.
  unfold gdf_write_forward.
  destruct (negb (VAD_STATE_eqb vad_state VAD_STATE_START)).
  - destruct (maybe_record_audio_run env (lin2mu_frame env buf datasamples)
                vad_state w) as (w1 & Hrun & (_ & Hspoke & _)).
    destruct (maybe_record_audio_calls env _ _ w tt w1 Hrun) as (d1 & Ht1 & Hd1).
    apply df_calls_none in Hd1.
    erewrite bind_run by exact Hrun. do 2 step.
    set (write := io_df_write_audio (lin2mu_frame env buf datasamples)).
    set (w2 := add_trace [write] w1).
    set (count := if AST_SPEECH_SPOKE w then []
                  else [io_df_get_response_count]).
    erewrite bind_run by apply response_count_run.
    assert (Ht3 : trace (responded df w2) = trace w ++ d1 ++ [write] ++ count).
    { rewrite trace_responded. subst w2. cbn [add_trace trace AST_SPEECH_SPOKE].
      rewrite Hspoke, Ht1, <- !app_assoc. reflexivity. }
    assert (Hcount : df_calls count = count)
      by (subst count; destruct (AST_SPEECH_SPOKE w); reflexivity).
    destruct (df_write_audio_ret df); cbn [terminal].
    + eexists. exists (d1 ++ [write] ++ count). split; [reflexivity|].
      split; [exact Ht3|].
      rewrite !df_calls_app, Hd1, Hcount, app_nil_r. reflexivity.
    + step. erewrite bind_run by apply gdf_stop_recognition_run.
      eexists. exists (d1 ++ [write] ++ count ++ [io_df_stop_recognition]
                       ++ finalize_events env (data (responded df w2))).
      split; [reflexivity|].
      split; [cbn; rewrite Ht3, <- !app_assoc; reflexivity|].
      rewrite !df_calls_app, Hd1, Hcount, df_calls_finalize_events.
      reflexivity.
    + step. erewrite bind_run by apply gdf_stop_recognition_run.
      eexists. exists (d1 ++ [write] ++ count ++ [io_df_stop_recognition]
                       ++ finalize_events env (data (responded df w2))).
      split; [reflexivity|].
      split; [cbn; rewrite Ht3, <- !app_assoc; reflexivity|].
      rewrite !df_calls_app, Hd1, Hcount, df_calls_finalize_events.
      reflexivity.
  - unfold are_currently_recording_pre_endpointed_audio. do 2 step.
    destruct (truthy _).
    + destruct (maybe_record_audio_run env (lin2mu_frame env buf datasamples)
                  vad_state w) as (w1 & Hrun & _).
      destruct (maybe_record_audio_calls env _ _ w tt w1 Hrun)
        as (d1 & Ht1 & Hd1).
      exists w1, d1. split; [exact Hrun|]. split; [exact Ht1|].
      apply df_calls_none, Hd1.
    + exists w, []. split; [reflexivity|].
      split; [symmetry; apply app_nil_r | reflexivity].
Qed.

Lemma datasamples_of_frame len :
  0 <= len <= INT_MAX -> datasamples_of len = len / 2.
Proof.
  unfold datasamples_of, to_size_t, INT_MAX. intros H.
  rewrite Z.mod_small by lia. apply to_int_small.
  unfold INT_MIN, INT_MAX.
  assert (0 <= len / 2 <= len) by (split; [apply Z.div_pos | apply Z.div_le_upper_bound]; lia).
  lia.
Qed.

(** X5.  The calls that one frame of [len] bytes, [len] above 0, makes to
    the DialogFlow library, in order: [df_start_recognition] with the
    session's language on the frame that commits to speech and on no
    other; then, whenever the state after the frame is not
    [VAD_STATE_START] (so during speech and during the silence after it,
    and also when the start has just failed), [df_write_audio] with the
    mu-law copy of the [len / 2] samples of the frame, followed by
    [df_get_response_count] unless the spoke flag is up already, and by
    [df_stop_recognition] when the write answered a terminal status.  A
    frame that leaves the session waiting for speech makes no call at
    all. *)
Theorem library_calls_of_a_frame env df buf len w lvl :
  0 < len <= INT_MAX ->
  calculate_audio_level buf len = Some lvl ->
  let vad_state' := l_vad_state (vad_step (data w) lvl len) in
  exists w' d,
    gdf_write env df buf len w = Some (0, w')
    /\ trace w' = trace w ++ d
    /\ df_calls d
       = (if VAD_STATE_eqb vad_state' VAD_STATE_SPEAK
             && VAD_STATE_eqb (vad_state (data w)) VAD_STATE_START
          then [io_df_start_recognition (language (data w))] else [])
         ++ (if negb (VAD_STATE_eqb vad_state' VAD_STATE_START)
             then io_df_write_audio (lin2mu_frame env buf (len / 2))
                  :: (if AST_SPEECH_SPOKE w then []
                      else [io_df_get_response_count])
                  ++ (if terminal (df_write_audio_ret df)
                      then [io_df_stop_recognition] else [])
             else []).
Proof.
  intros Hlen Hlvl st'. unfold gdf_write.
  rewrite <- (datasamples_of_frame len) by lia.
  erewrite bind_run by (apply gdf_write_endpointer_run; exact Hlvl).
  erewrite bind_run by apply gdf_write_start_run.
  cbn [fst snd]. fold st'.
  set (l := vad_step (data w) lvl len).
  set (w1 := set_data (commit l (data w))
               (add_trace (transition_line env (data w) l) w)).
  set (start := io_df_start_recognition (language (data w))).
  set (w2 := if VAD_STATE_eqb st' VAD_STATE_SPEAK
                && VAD_STATE_eqb (vad_state (data w)) VAD_STATE_START
             then if truthy (df_start_recognition_ret df)
                  then finalized env (add_trace [start] w1)
                  else add_trace [start] w1
             else w1).
  assert (H2 : exists d2,
            trace w2 = trace w ++ d2
            /\ AST_SPEECH_SPOKE w2 = AST_SPEECH_SPOKE w
            /\ df_calls d2
               = if VAD_STATE_eqb st' VAD_STATE_SPEAK
                    && VAD_STATE_eqb (vad_state (data w)) VAD_STATE_START
                 then [start] else []).
  { subst w2.
    destruct (VAD_STATE_eqb st' VAD_STATE_SPEAK
              && VAD_STATE_eqb (vad_state (data w)) VAD_STATE_START).
    - destruct (truthy (df_start_recognition_ret df)).
      + exists (transition_line env (data w) l ++ [start]
                ++ finalize_events env (data w1)).
        split; [cbn; rewrite <- !app_assoc; reflexivity|].
        split; [reflexivity|].
        rewrite !df_calls_app, df_calls_transition_line,
          df_calls_finalize_events. reflexivity.
      + exists (transition_line env (data w) l ++ [start]).
        split; [cbn; rewrite <- !app_assoc; reflexivity|].
        split; [reflexivity|].
        rewrite !df_calls_app, df_calls_transition_line. reflexivity.
    - exists (transition_line env (data w) l).
      split; [reflexivity|].
      split; [reflexivity | apply df_calls_transition_line]. }
  destruct H2 as (d2 & Ht2 & Hs2 & Hd2).
  destruct (gdf_write_forward_calls env df buf (datasamples_of len) st' w2)
    as (w3 & d3 & Hrun & Ht3 & Hd3).
  erewrite bind_run by exact Hrun.
  exists w3, (d2 ++ d3). split; [reflexivity|].
  split; [rewrite Ht3, Ht2, app_assoc; reflexivity|].
  rewrite df_calls_app, Hd2, Hd3, Hs2. reflexivity.
Qed.

Lemma library_calls_of_a_frame_witness :
  (exists w' d,
     gdf_write Example.env Example.df_ok (fun _ => 600) 320 Example.started
     = Some (0, w')
     /\ trace w' = trace Example.started ++ d
     /\ df_calls d = [])
  /\ (exists w' d,
        gdf_write Example.env Example.df_write_error (fun _ => 600) 320
          Example.about_to_speak = Some (0, w')
        /\ trace w' = trace Example.about_to_speak ++ d
        /\ df_calls d
           = [io_df_start_recognition "";
              io_df_write_audio (repeat 2 160);
              io_df_get_response_count;
              io_df_stop_recognition]).
Proof.
  assert (Hlvl : calculate_audio_level (fun _ => 600) 320 = Some 600)
    by (vm_compute; reflexivity).
  assert (Hlen : 0 < 320 <= INT_MAX) by (vm_compute; split; congruence).
  split.
  - apply (library_calls_of_a_frame Example.env Example.df_ok (fun _ => 600)
             320 Example.started 600 Hlen Hlvl).
  - apply (library_calls_of_a_frame Example.env Example.df_write_error
             (fun _ => 600) 320 Example.about_to_speak 600 Hlen Hlvl).
Defined.

(** ** Files that are opened once *)

(** With the call log path set and both recording flags set,
    [maybe_record_audio] opens nothing: it writes to the streams that are
    held and leaves the private data alone. *)
Lemma maybe_record_audio_no_reopen env mulaw current_vad_state w :
  call_log_path (data w) <> "" ->
  truthy (utterance_preendpointer_recording_open_already_attempted (data w))
  = true ->
  truthy (utterance_postendpointer_recording_open_already_attempted (data w))
  = true ->
  exists w' d,
    maybe_record_audio env mulaw current_vad_state w = Some (tt, w')
    /\ trace w' = trace w ++ d
    /\ data w' = data w
    /\ forallb not_file_creation d = true.
Proof.
  intros Hpath Hpre Hpost.
  unfold maybe_record_audio, read_recording_flags. step.
  rewrite (ast_strlen_zero_false _ Hpath). cbn [negb]. rewrite !andb_true_r.
  set (e1 := match config env with
             | Some cfg => enable_preendpointer_recordings cfg
             | None => 0
             end).
  set (e2 := match config env with
             | Some cfg => enable_postendpointer_recordings cfg
             | None => 0
             end).
  destruct (truthy e1) eqn:E1; destruct (truthy e2) eqn:E2;
    cbn [orb andb currently_recording_preendpointed_audio
         already_attempted_open_for_preendpointed_audio
         currently_recording_postendpointed_audio
         already_attempted_open_for_postendpointed_audio];
    rewrite ?Hpre, ?Hpost; cbn [negb andb]; rewrite ?andb_false_r;
    destruct (utterance_preendpointer_recording_file_handle (data w)) eqn:Hh1;
    destruct (utterance_postendpointer_recording_file_handle (data w)) eqn:Hh2;
    destruct (VAD_STATE_eqb current_vad_state VAD_STATE_SPEAK);
    cbn [of_bool truthy Z.eqb negb andb];
    unfold bind, ret, get_pvt, fwrite, emit; cbn;
    rewrite ?Hh1, ?Hh2; cbn; rewrite ?Hh1, ?Hh2; cbn;
    first
      [ exists w, []; split; [reflexivity|];
        split; [symmetry; apply app_nil_r|]; split; reflexivity
      | eexists; eexists; split; [reflexivity|];
        split; [cbn; rewrite <- ?app_assoc; reflexivity|];
        split; reflexivity ].
Qed.

(** X6.  Once both recording files have been tried and the call log path
    is set, a frame opens no file and creates no directory: the recordings
    are opened at most once in the life of a session, whether the first
    attempt succeeded or failed and whichever utterance the frame belongs
    to. *)
Theorem recordings_are_opened_once env df buf len w :
  len <> 0 ->
  call_log_path (data w) <> "" ->
  truthy (utterance_preendpointer_recording_open_already_attempted (data w))
  = true ->
  truthy (utterance_postendpointer_recording_open_already_attempted (data w))
  = true ->
  exists w' d,
    gdf_write env df buf len w = Some (0, w')
    /\ trace w' = trace w ++ d
    /\ fopens d = [].
Proof.
  intros Hlen Hpath Hpre Hpost.
  destruct (calculate_audio_level_defined buf len Hlen) as [lvl Hlvl].
  unfold gdf_write.
  erewrite bind_run by (apply gdf_write_endpointer_run; exact Hlvl).
  erewrite bind_run by apply gdf_write_start_run.
  cbn [fst snd].
  set (l := vad_step (data w) lvl len).
  set (w1 := set_data (commit l (data w))
               (add_trace (transition_line env (data w) l) w)).
  set (start := io_df_start_recognition (language (data w1))).
  set (w2 := if VAD_STATE_eqb (l_vad_state l) VAD_STATE_SPEAK
                && VAD_STATE_eqb (vad_state (data w)) VAD_STATE_START
             then if truthy (df_start_recognition_ret df)
                  then finalized env (add_trace [start] w1)
                  else add_trace [start] w1
             else w1).
  assert (Hline : forall pvt type ev dt,
            forallb not_file_creation (log_line env pvt type ev dt) = true).
  { intros. unfold log_line. destruct (call_log_stream env pvt); reflexivity. }
  assert (Hfin : forall pvt,
            forallb not_file_creation (finalize_events env pvt) = true).
  { intros. unfold finalize_events. rewrite !forallb_app, !Hline.
    destruct (utterance_preendpointer_recording_file_handle pvt),
             (utterance_postendpointer_recording_file_handle pvt);
      reflexivity. }
  assert (Htl : forallb not_file_creation (transition_line env (data w) l)
                = true).
  { unfold transition_line.
    destruct (vad_state (data w)), (l_vad_state l);
      first [reflexivity | apply Hline]. }
  assert (H2 : grows_by not_file_creation w w2
               /\ call_log_path (data w2) = call_log_path (data w)
               /\ utterance_preendpointer_recording_open_already_attempted
                    (data w2)
                  = utterance_preendpointer_recording_open_already_attempted
                      (data w)
               /\ utterance_postendpointer_recording_open_already_attempted
                    (data w2)
                  = utterance_postendpointer_recording_open_already_attempted
                      (data w)).
  { subst w2.
    destruct (VAD_STATE_eqb (l_vad_state l) VAD_STATE_SPEAK
              && VAD_STATE_eqb (vad_state (data w)) VAD_STATE_START).
    - destruct (truthy (df_start_recognition_ret df)).
      + split; [|repeat split].
        exists (transition_line env (data w) l ++ [start]
                ++ finalize_events env (data w1)).
        split; [cbn; rewrite <- !app_assoc; reflexivity|].
        rewrite !forallb_app, Htl, Hfin. reflexivity.
      + split; [|repeat split].
        exists (transition_line env (data w) l ++ [start]).
        split; [cbn; rewrite <- !app_assoc; reflexivity|].
        rewrite !forallb_app, Htl. reflexivity.
    - split; [|repeat split].
      exists (transition_line env (data w) l). split; [reflexivity | exact Htl]. }
  destruct H2 as (G2 & Hp2 & Hf2 & Hg2).
  rewrite <- Hp2 in Hpath. rewrite <- Hf2 in Hpre. rewrite <- Hg2 in Hpost.
  assert (H3 : exists w3,
            gdf_write_forward env df buf (datasamples_of len) (l_vad_state l) w2
            = Some (tt, w3)
            /\ grows_by not_file_creation w2 w3).
  { unfold gdf_write_forward.
    destruct (negb (VAD_STATE_eqb (l_vad_state l) VAD_STATE_START)).
    - destruct (maybe_record_audio_no_reopen env
                  (lin2mu_frame env buf (datasamples_of len)) (l_vad_state l)
                  w2 Hpath Hpre Hpost) as (w3 & d3 & Hrun & Ht3 & Hd3 & Hn3).
      erewrite bind_run by exact Hrun. do 2 step.
      set (w4 := add_trace _ w3).
      assert (G4 : grows_by not_file_creation w2 w4).
      { eapply grows_by_trans; [exists d3; split; eassumption|].
        subst w4. grows_by_leaf. }
      assert (H5 : exists w5,
        (if negb (AST_SPEECH_SPOKE w4) then
           emit io_df_get_response_count ;;
           if df_get_response_count_ret df >? 0 then set_quiet_and_spoke
           else ret tt
         else ret tt) w4 = Some (tt, w5)
        /\ grows_by not_file_creation w2 w5).
      { rewrite response_count_run. eexists. split; [reflexivity|].
        eapply grows_by_trans; [exact G4|].
        unfold responded. destruct (AST_SPEECH_SPOKE w4);
          [apply grows_by_refl|].
        destruct (df_get_response_count_ret df >? 0); grows_by_leaf. }
      destruct H5 as (w5 & Hrun5 & G5).
      erewrite bind_run by exact Hrun5.
      destruct (df_write_audio_ret df).
      + exists w5. split; [reflexivity | exact G5].
      + step. erewrite bind_run by apply gdf_stop_recognition_run.
        eexists. split; [reflexivity|].
        eapply grows_by_trans; [exact G5|].
        exists ([io_df_stop_recognition] ++ finalize_events env (data w5)).
        split; [cbn; rewrite <- !app_assoc; reflexivity|].
        rewrite forallb_app, Hfin. reflexivity.
      + step. erewrite bind_run by apply gdf_stop_recognition_run.
        eexists. split; [reflexivity|].
        eapply grows_by_trans; [exact G5|].
        exists ([io_df_stop_recognition] ++ finalize_events env (data w5)).
        split; [cbn; rewrite <- !app_assoc; reflexivity|].
        rewrite forallb_app, Hfin. reflexivity.
    - unfold are_currently_recording_pre_endpointed_audio. do 2 step.
      match goal with
      | |- context [if truthy ?x then maybe_record_audio _ _ _ else _] =>
          destruct (truthy x)
      end.
      + destruct (maybe_record_audio_no_reopen env
                    (lin2mu_frame env buf (datasamples_of len)) (l_vad_state l)
                    w2 Hpath Hpre Hpost) as (w3 & d3 & Hrun & Ht3 & _ & Hn3).
        exists w3. split; [exact Hrun|]. exists d3. split; assumption.
      + exists w2. split; [reflexivity | apply grows_by_refl]. }
  destruct H3 as (w3 & Hrun3 & G3).
  erewrite bind_run by exact Hrun3.
  destruct (grows_by_trans _ _ _ _ G2 G3) as (d & Ht & Hd).
  exists w3, d. split; [reflexivity|]. split; [exact Ht|].
  apply fopens_none, Hd.
Qed.

Lemma recordings_are_opened_once_witness :
  fopens (trace Example.speaking)
  = ["/var/log/dialogflow/unknown/0709_0x7f01_log.jsonl";
     "/var/log/dialogflow/unknown/0709_0x7f01_pre_1.ul";
     "/var/log/dialogflow/unknown/0709_0x7f01_post_1.ul"]
  /\ exists w' d,
       gdf_write Example.env Example.df_ok (fun _ => 600) 320 Example.speaking
       = Some (0, w')
       /\ trace w' = trace Example.speaking ++ d
       /\ fopens d = [].
Proof.
  split; [vm_compute; reflexivity|].
  apply (recordings_are_opened_once Example.env Example.df_ok (fun _ => 600)
           320 Example.speaking).
  - discriminate.
  - vm_compute. discriminate.
  - vm_compute. reflexivity.
  - vm_compute. reflexivity.
Defined.

(** ** Every start of an utterance *)

Lemma log_line_creates_no_file env pvt type ev dt :
  forallb not_file_creation (log_line env pvt type ev dt) = true.
Proof. unfold log_line. destruct (call_log_stream env pvt); reflexivity. Qed.

Lemma finalize_events_create_no_file env pvt :
  forallb not_file_creation (finalize_events env pvt) = true.
Proof.
  unfold finalize_events. rewrite !forallb_app, !log_line_creates_no_file.
  destruct (utterance_preendpointer_recording_file_handle pvt),
           (utterance_postendpointer_recording_file_handle pvt);
    reflexivity.
Qed.

Lemma should_start_call_log_once env w :
  exists v,
    should_start_call_log env w = Some (v, w)
    /\ (truthy (call_log_open_already_attempted (data w)) = true ->
        truthy v = false).
Proof.
  unfold should_start_call_log. step.
  destruct (truthy (call_log_open_already_attempted (data w))) eqn:E;
    cbn [negb of_bool truthy Z.eqb].
  - eexists. split; [reflexivity|]. reflexivity.
  - destruct (config env); eexists; (split; [reflexivity | discriminate]).
Qed.

Ltac unchanged_leaf := unfold unchanged; cbn; reflexivity.

Lemma start_call_log_keeps_the_utterance env :
  steps (unchanged utterance_of) (start_call_log env).
Proof.
  steps_of (unchanged_refl utterance_of) (unchanged_trans utterance_of)
    unchanged_leaf.
Qed.

(** One [gdf_start], whatever the session and its surroundings. *)
Lemma gdf_start_run env df w :
  exists w' d,
    gdf_start env df w = Some (0, w')
    /\ trace w' = trace w ++ d
    /\ vad_of (data w') = Build_vad_locals VAD_STATE_START 0 0
    /\ event (data w') = ""
    /\ utterance_counter (data w') = int_add (utterance_counter (data w)) 1
    /\ tunables_of (data w') = tunables_of (data w)
    /\ state w'
       = (if ast_strlen_zero (event (data w)) then AST_SPEECH_STATE_READY
          else if truthy (df_recognize_event_ret df)
               then AST_SPEECH_STATE_NOT_READY
               else AST_SPEECH_STATE_DONE)
    /\ df_calls d
       = (if ast_strlen_zero (event (data w)) then []
          else [io_df_recognize_event (event (data w)) (language (data w))])
    /\ (truthy (call_log_open_already_attempted (data w)) = true ->
        fopens d = []).
Proof.
  unfold gdf_start, log_endpointer_start_event.
  do 2 step.
  set (w1 := set_data _ w).
  assert (Htr1 : trace w1 = trace w) by reflexivity.
  assert (Hu1 : utterance_of w1
                = (Build_vad_locals VAD_STATE_START 0 0, "",
                   int_add (utterance_counter (data w)) 1,
                   tunables_of (data w))) by reflexivity.
  assert (Hflag1 : call_log_open_already_attempted (data w1)
                   = call_log_open_already_attempted (data w)) by reflexivity.
  destruct (should_start_call_log_once env w1) as (v & Hv & Honce).
  rewrite Hflag1 in Honce.
  erewrite bind_run by exact Hv.
  assert (Hlog : exists w2 d2,
            (if truthy v then start_call_log env else ret tt) w1 = Some (tt, w2)
            /\ trace w2 = trace w1 ++ d2
            /\ utterance_of w2 = utterance_of w1
            /\ df_calls d2 = []
            /\ (truthy v = false -> d2 = [])).
  { destruct (truthy v) eqn:Ev.
    - destruct (start_call_log_run env w1)
        as (w2 & Hrun & _ & _ & d2 & Ht & _ & _ & Hdf).
      exists w2, d2. split; [exact Hrun|]. split; [exact Ht|].
      split; [exact (start_call_log_keeps_the_utterance env w1 tt w2 Hrun)|].
      split; [exact Hdf | discriminate].
    - exists w1, []. split; [reflexivity|].
      split; [symmetry; apply app_nil_r|]. repeat split; reflexivity. }
  destruct Hlog as (w2 & d2 & Hrun2 & Htr2 & Hu2 & Hdf2 & Hnone2).
  erewrite bind_run by exact Hrun2.
  do 4 step.
  set (line1 := log_line env (data w2) CALL_LOG_TYPE_SESSION "start" _).
  set (line2 := log_line env _ CALL_LOG_TYPE_ENDPOINTER "start" _).
  set (w4 := add_trace line2 (add_trace line1 w2)).
  assert (Hu4 : utterance_of w4 = utterance_of w1) by exact Hu2.
  assert (Hd1 : df_calls line1 = []) by apply df_calls_log_line.
  assert (Hd3 : df_calls line2 = []) by apply df_calls_log_line.
  assert (Hn1 : forallb not_file_creation line1 = true)
    by apply log_line_creates_no_file.
  assert (Hn3 : forallb not_file_creation line2 = true)
    by apply log_line_creates_no_file.
  assert (Hfinish : forall w' rest,
            trace w' = trace w4 ++ rest ->
            utterance_of w' = utterance_of w4 ->
            forallb not_file_creation rest = true ->
            trace w' = trace w ++ (d2 ++ line1 ++ line2 ++ rest)
            /\ vad_of (data w') = Build_vad_locals VAD_STATE_START 0 0
            /\ event (data w') = ""
            /\ utterance_counter (data w') = int_add (utterance_counter (data w)) 1
            /\ tunables_of (data w') = tunables_of (data w)
            /\ df_calls (d2 ++ line1 ++ line2 ++ rest) = df_calls rest
            /\ (truthy (call_log_open_already_attempted (data w)) = true ->
                fopens (d2 ++ line1 ++ line2 ++ rest) = [])).
  { intros w' rest Ht Hu Hn.
    rewrite Hu4, Hu1 in Hu.
    pose proof (f_equal (fun t => fst (fst (fst t))) Hu) as Hvad.
    pose proof (f_equal (fun t => snd (fst (fst t))) Hu) as Hev.
    pose proof (f_equal (fun t => snd (fst t)) Hu) as Hcnt.
    pose proof (f_equal snd Hu) as Htun.
    cbn in Hvad, Hev, Hcnt, Htun.
    split; [rewrite Ht; subst w4; cbn; rewrite Htr2, Htr1, <- !app_assoc;
            reflexivity|].
    split; [exact Hvad|]. split; [exact Hev|]. split; [exact Hcnt|].
    split; [exact Htun|]. split.
    - rewrite !df_calls_app, Hdf2, Hd1, Hd3. reflexivity.
    - intros Hflag. rewrite (Hnone2 (Honce Hflag)).
      apply fopens_none. cbn [app]. rewrite !forallb_app, Hn1, Hn3, Hn.
      reflexivity. }
  assert (Hdone : forall w' rest st calls,
            trace w' = trace w4 ++ rest ->
            utterance_of w' = utterance_of w4 ->
            forallb not_file_creation rest = true ->
            state w' = st -> df_calls rest = calls ->
            trace w' = trace w ++ (d2 ++ line1 ++ line2 ++ rest)
            /\ vad_of (data w') = Build_vad_locals VAD_STATE_START 0 0
            /\ event (data w') = ""
            /\ utterance_counter (data w') = int_add (utterance_counter (data w)) 1
            /\ tunables_of (data w') = tunables_of (data w)
            /\ state w' = st
            /\ df_calls (d2 ++ line1 ++ line2 ++ rest) = calls
            /\ (truthy (call_log_open_already_attempted (data w)) = true ->
                fopens (d2 ++ line1 ++ line2 ++ rest) = [])).
  { intros w' rest st calls Ht Hu Hn Hs Hc.
    destruct (Hfinish w' rest Ht Hu Hn) as (F1 & F2 & F3 & F4 & F5 & F6 & F7).
    repeat split; try assumption. rewrite F6. exact Hc. }
  destruct (ast_strlen_zero (event (data w))) eqn:Hev; cbn [negb].
  - step. eexists. eexists. split; [reflexivity|].
    apply (Hdone _ []); try reflexivity.
    cbn. rewrite app_nil_r. reflexivity.
  - step.
    set (call := io_df_recognize_event (event (data w)) (language (data w))).
    destruct (truthy (df_recognize_event_ret df)).
    + step. eexists. eexists. split; [reflexivity|].
      apply (Hdone _ [call]); reflexivity.
    + rewrite bind_assoc.
      erewrite bind_run by apply gdf_stop_recognition_run.
      eexists. eexists. split; [reflexivity|].
      apply (Hdone _ ([call] ++ finalize_events env (data w4))).
      * cbn. rewrite <- !app_assoc. reflexivity.
      * reflexivity.
      * rewrite forallb_app, finalize_events_create_no_file. reflexivity.
      * reflexivity.
      * rewrite df_calls_app, df_calls_finalize_events. reflexivity.
Qed.

(** X7.  A [gdf_start] that returns has returned 0 and has begun a new
    utterance: the endpointer is back in [VAD_STATE_START] with both
    durations 0, the priming event is used up, the utterance counter has
    gone up by one and the three tunables are what they were.  Without a
    priming event the speech state has become [AST_SPEECH_STATE_READY] and
    the DialogFlow library was not called.  When the call log had been
    tried before, in this or in an earlier utterance, no file was
    opened. *)
Theorem gdf_start_begins_an_utterance env df w r w' :
  gdf_start env df w = Some (r, w') ->
  r = 0
  /\ exists d,
       trace w' = trace w ++ d
       /\ vad_of (data w') = Build_vad_locals VAD_STATE_START 0 0
       /\ event (data w') = ""
       /\ utterance_counter (data w') = int_add (utterance_counter (data w)) 1
       /\ tunables_of (data w') = tunables_of (data w)
       /\ (event (data w) = "" ->
           state w' = AST_SPEECH_STATE_READY /\ df_calls d = [])
       /\ (truthy (call_log_open_already_attempted (data w)) = true ->
           fopens d = []).
Proof.
  intros Hret.
  destruct (gdf_start_run env df w)
    as (w2 & d & Hrun & Ht & Hv & He & Hc & Htun & Hs & Hd & Hf).
  rewrite Hrun in Hret. injection Hret as <- <-.
  split; [reflexivity|].
  exists d. repeat split; try assumption.
  - rewrite Hs. destruct (event (data w)); [reflexivity | discriminate].
  - rewrite Hd. destruct (event (data w)); [reflexivity | discriminate].
Qed.

Lemma gdf_start_begins_an_utterance_witness :
  gdf_start Example.env Example.df_ok Example.started
  = Some (0, Example.after (gdf_start Example.env Example.df_ok)
               Example.started)
  /\ utterance_counter (data Example.started) = 1
  /\ truthy (call_log_open_already_attempted (data Example.started)) = true
  /\ exists d,
       trace (Example.after (gdf_start Example.env Example.df_ok)
                Example.started)
       = trace Example.started ++ d
       /\ vad_of (data (Example.after (gdf_start Example.env Example.df_ok)
                          Example.started))
          = Build_vad_locals VAD_STATE_START 0 0
       /\ utterance_counter
            (data (Example.after (gdf_start Example.env Example.df_ok)
                     Example.started)) = 2
       /\ state (Example.after (gdf_start Example.env Example.df_ok)
                   Example.started) = AST_SPEECH_STATE_READY
       /\ df_calls d = []
       /\ fopens d = [].
Proof.
  assert (Hrun : gdf_start Example.env Example.df_ok Example.started
                 = Some (0, Example.after (gdf_start Example.env Example.df_ok)
                              Example.started))
    by (vm_compute; reflexivity).
  assert (Hflag : truthy (call_log_open_already_attempted
                            (data Example.started)) = true)
    by (vm_compute; reflexivity).
  assert (Hevent : event (data Example.started) = "")
    by (vm_compute; reflexivity).
  split; [exact Hrun|]. split; [vm_compute; reflexivity|].
  split; [exact Hflag|].
  destruct (gdf_start_begins_an_utterance Example.env Example.df_ok
              Example.started 0 _ Hrun)
    as (_ & d & Ht & Hv & _ & Hc & _ & Hready & Hopen).
  exists d. split; [exact Ht|]. split; [exact Hv|].
  split; [rewrite Hc; vm_compute; reflexivity|].
  split; [exact (proj1 (Hready Hevent))|].
  split; [exact (proj2 (Hready Hevent)) | exact (Hopen Hflag)].
Defined.

(** ** Every change of a property *)

(** X8.  [gdf_change] always returns, with 0 or with -1, and a call that is
    answered -1 has changed nothing at all.  Accepted or not, a change
    leaves the speech state, the endpointer's state and durations, the
    recordings and the three flags alone, and writes no file: a new
    threshold or duration is first seen by the next frame. *)
Theorem gdf_change_rejects_without_change name value w :
  exists r w',
    gdf_change name value w = Some (r, w')
    /\ (r = 0 \/ r = -1 /\ w' = w)
    /\ state w' = state w
    /\ vad_of (data w') = vad_of (data w)
    /\ recordings (data w') = recordings (data w)
    /\ attempted_flags w' = attempted_flags w
    /\ exists d, trace w' = trace w ++ d /\ fopens d = [] /\ fcloses d = [].
Proof.
  assert (Hsame : exists d : list io_event,
            trace w = trace w ++ d /\ fopens d = [] /\ fcloses d = []).
  { exists []. repeat split. symmetry. apply app_nil_r. }
  unfold gdf_change, change_tunable.
  repeat match goal with
         | |- context [if ?b then _ else _] => destruct b
         | |- context [match sscanf_d ?v with _ => _ end] =>
             destruct (sscanf_d v)
         end;
    unfold bind, ret, emit, modify_pvt; cbn;
    eexists; eexists; (split; [reflexivity|]);
    first
      [ split; [right; split; reflexivity|];
        repeat (split; [reflexivity|]); exact Hsame
      | split; [left; reflexivity|];
        repeat (split; [reflexivity|]);
        first
          [ exact Hsame
          | eexists; split; [cbn; reflexivity|]; split; reflexivity ] ].
Qed.

(** X9.  The string properties of [gdf_change].  An empty session id, under
    either of its names, and an empty project id are refused with -1 and
    change nothing; a name that is none of the ten known ones is refused
    likewise.  A session id or project id that is not empty is stored and
    handed to the library; the language is stored even when it is empty. *)
Theorem gdf_change_of_a_string_property name value w :
  (named name GDF_PROP_SESSION_ID_NAME = true
   \/ named name GDF_PROP_ALTERNATE_SESSION_NAME = true ->
   gdf_change name value w
   = if ast_strlen_zero value then Some (-1, w)
     else Some (0, set_data (set_session_id value (data w))
                     (add_trace [io_df_set_session_id value] w)))
  /\ (named name GDF_PROP_PROJECT_ID_NAME = true ->
      gdf_change name value w
      = if ast_strlen_zero value then Some (-1, w)
        else Some (0, add_trace [io_df_set_project_id value]
                        (set_data (set_project_id value (data w)) w)))
  /\ (named name GDF_PROP_LANGUAGE_NAME = true ->
      gdf_change name value w
      = Some (0, set_data (set_language value (data w)) w))
  /\ (forallb (fun prop => negb (named name prop))
        [GDF_PROP_SESSION_ID_NAME; GDF_PROP_ALTERNATE_SESSION_NAME;
         GDF_PROP_PROJECT_ID_NAME; GDF_PROP_LANGUAGE_NAME;
         GDF_PROP_LOG_CONTEXT; GDF_PROP_ALTERNATE_LOG_CONTEXT;
         GDF_PROP_APPLICATION_CONTEXT; VAD_PROP_VOICE_THRESHOLD;
         VAD_PROP_VOICE_DURATION; VAD_PROP_SILENCE_DURATION] = true ->
      gdf_change name value w = Some (-1, w)).
Proof.
  split; [|split; [|split]].
  - intros H. unfold gdf_change.
    assert (E : named name GDF_PROP_SESSION_ID_NAME
                || named name GDF_PROP_ALTERNATE_SESSION_NAME = true)
      by (destruct H as [-> | ->]; [reflexivity | apply orb_true_r]).
    rewrite E. destruct (ast_strlen_zero value); reflexivity.
  - intros H. unfold gdf_change. resolve_names H.
    destruct (ast_strlen_zero value); reflexivity.
  - intros H. unfold gdf_change. resolve_names H. reflexivity.
  - intros H. cbn [forallb] in H.
    repeat match type of H with
           | (_ && _)%bool = true =>
               let H1 := fresh "N" in
               apply andb_prop in H; destruct H as [H1 H];
               apply negb_true_iff in H1
           end.
    unfold gdf_change.
    repeat match goal with
           | N : named name ?p = false |- context [named name ?p] => rewrite N
           end.
    reflexivity.
Qed.

Lemma gdf_change_of_a_string_property_witness :
  gdf_change "Name" "" Example.started = Some (-1, Example.started)
  /\ gdf_change "PROJECT_ID" "my-agent" Example.started
     = Some (0, add_trace [io_df_set_project_id "my-agent"]
                  (set_data (set_project_id "my-agent" (data Example.started))
                     Example.started))
  /\ gdf_change "language" "" Example.started
     = Some (0, set_data (set_language "" (data Example.started))
                  Example.started)
  /\ gdf_change "volume" "11" Example.started = Some (-1, Example.started).
Proof.
  destruct (gdf_change_of_a_string_property "Name" "" Example.started)
    as (H1 & _).
  destruct (gdf_change_of_a_string_property "PROJECT_ID" "my-agent"
              Example.started) as (_ & H2 & _).
  destruct (gdf_change_of_a_string_property "language" "" Example.started)
    as (_ & _ & H3 & _).
  destruct (gdf_change_of_a_string_property "volume" "11" Example.started)
    as (_ & _ & _ & H4).
  split; [exact (H1 (or_intror eq_refl))|].
  split; [exact (H2 eq_refl)|].
  split; [exact (H3 eq_refl) | exact (H4 eq_refl)].
Defined.

(** ** Reading a setting back *)

Lemma substring_all s : forall n,
  (String.length s <= n)%nat -> substring 0 n s = s.
Proof.
  induction s as [|c s IH]; intros [|n] H; cbn in *; try reflexivity; try lia.
  rewrite IH by lia. reflexivity.
Qed.

(** How [gdf_get_setting] answers for a tunable. *)
Lemma gdf_get_setting_of_a_tunable session name len pvt prop get set :
  In (prop, get, set) tunable_properties ->
  named name prop = true ->
  gdf_get_setting session name len pvt
  = Some (0, ast_build_string_d (get pvt) len).
Proof.
  intros Hprop Hname. unfold gdf_get_setting.
  cbn [tunable_properties In] in Hprop.
  destruct Hprop as [E | [E | [E | []]]]; injection E as <- <- <-;
    resolve_names Hname; reflexivity.
Qed.

Lemma gdf_change_is_change_tunable name value prop get set :
  In (prop, get, set) tunable_properties ->
  named name prop = true ->
  gdf_change name value = change_tunable set value
  /\ forall i pvt, get (set i pvt) = i.
Proof.
  intros Hprop Hname. unfold gdf_change.
  cbn [tunable_properties In] in Hprop.
  destruct Hprop as [E | [E | [E | []]]]; injection E as <- <- <-;
    resolve_names Hname; (split; [reflexivity | intros i pvt; reflexivity]).
Qed.

(** X10.  What [gdf_change] stored under [language] or under the name of a
    tunable is what [gdf_get_setting] answers under that name: the language
    as given, a tunable as the decimal text of the integer that the value
    converted to.  The buffer of [len + 1] bytes receives the first [len]
    characters. *)
Theorem gdf_get_setting_reads_what_gdf_change_stored session name value len
    w w' :
  gdf_change name value w = Some (0, w') ->
  (named name GDF_PROP_LANGUAGE_NAME = true ->
   gdf_get_setting session name (S len) (data w')
   = Some (0, Some (substring 0 len value)))
  /\ (forall prop get set,
        In (prop, get, set) tunable_properties ->
        named name prop = true ->
        exists i,
          sscanf_d value = Some i
          /\ get (data w') = i
          /\ gdf_get_setting session name (S len) (data w')
             = Some (0, Some (substring 0 len (fmt_d i)))).
Proof.
  intros Hrun. split.
  - intros Hname.
    assert (E : gdf_change name value w
                = Some (0, set_data (set_language value (data w)) w))
      by (unfold gdf_change; resolve_names Hname; reflexivity).
    rewrite E in Hrun. injection Hrun as <-.
    unfold gdf_get_setting. resolve_names Hname. reflexivity.
  - intros prop get set Hprop Hname.
    destruct (gdf_change_is_change_tunable name value prop get set Hprop Hname)
      as [E Hget].
    rewrite E in Hrun. pose proof (change_tunable_run set value w) as Hc.
    destruct (ast_strlen_zero value); [congruence|].
    destruct (sscanf_d value) as [i|]; [|congruence].
    rewrite Hc in Hrun. injection Hrun as <-.
    exists i. split; [reflexivity|]. split; [apply Hget|].
    rewrite (gdf_get_setting_of_a_tunable session name (S len) _ prop get set
               Hprop Hname).
    cbn [data set_data ast_build_string_d]. rewrite Hget. reflexivity.
Qed.

Lemma gdf_get_setting_reads_what_gdf_change_stored_witness :
  (named "Voice_Threshold" GDF_PROP_LANGUAGE_NAME = true ->
   gdf_get_setting (Build_df_session "0x7f01" "sales-project-1")
     "Voice_Threshold" 3
     (data (set_data (set_voice_threshold 250 (data Example.started))
              Example.started))
   = Some (0, Some (substring 0 2 " 250 Hz")))
  /\ (forall prop get set,
        In (prop, get, set) tunable_properties ->
        named "Voice_Threshold" prop = true ->
        exists i,
          sscanf_d " 250 Hz" = Some i
          /\ get (data (set_data (set_voice_threshold 250 (data Example.started))
                          Example.started)) = i
          /\ gdf_get_setting (Build_df_session "0x7f01" "sales-project-1")
               "Voice_Threshold" 3
               (data (set_data (set_voice_threshold 250 (data Example.started))
                        Example.started))
             = Some (0, Some (substring 0 2 (fmt_d i)))).
Proof.
  apply (gdf_get_setting_reads_what_gdf_change_stored
           (Build_df_session "0x7f01" "sales-project-1") "Voice_Threshold"
           " 250 Hz" 2 Example.started).
  vm_compute. reflexivity.
Defined.

(** X11.  The text that [gdf_get_setting] answers for a tunable, in a
    buffer that has room for all of it, is a value that [gdf_change]
    accepts under the same name, and that sets the tunable of any session
    to the integer that was read. *)
Theorem gdf_change_restores_what_gdf_get_setting_read session name len
    pvt w prop get set :
  In (prop, get, set) tunable_properties ->
  named name prop = true ->
  INT_MIN <= get pvt <= INT_MAX ->
  (String.length (fmt_d (get pvt)) < len)%nat ->
  exists text,
    gdf_get_setting session name len pvt = Some (0, Some text)
    /\ gdf_change name text w
       = Some (0, set_data (set (get pvt) (data w)) w).
Proof.
  intros Hprop Hname Hint Hlen.
  exists (fmt_d (get pvt)). split.
  - rewrite (gdf_get_setting_of_a_tunable session name len pvt prop get set
               Hprop Hname).
    destruct len as [|len]; [lia|].
    cbn [ast_build_string_d]. rewrite substring_all by lia. reflexivity.
  - destruct (gdf_change_is_change_tunable name (fmt_d (get pvt)) prop get set
                Hprop Hname) as [E _].
    rewrite E. pose proof (change_tunable_run set (fmt_d (get pvt)) w) as Hc.
    pose proof (sscanf_d_fmt_d (get pvt) Hint) as Hscan.
    destruct (ast_strlen_zero (fmt_d (get pvt))) eqn:Hz.
    + destruct (fmt_d (get pvt)); [discriminate Hscan | discriminate Hz].
    + rewrite Hscan in Hc. exact Hc.
Qed.

Lemma gdf_change_restores_what_gdf_get_setting_read_witness :
  exists text,
    gdf_get_setting (Build_df_session "0x7f01" "sales-project-1")
      "SILENCE_DURATION" 8 (data Example.speaking)
    = Some (0, Some text)
    /\ gdf_change "SILENCE_DURATION" text Example.started
       = Some (0, set_data
                    (set_silence_minimum_duration
                       (silence_minimum_duration (data Example.speaking))
                       (data Example.started))
                    Example.started).
Proof.
  apply (gdf_change_restores_what_gdf_get_setting_read
           (Build_df_session "0x7f01" "sales-project-1") "SILENCE_DURATION" 8
           (data Example.speaking) Example.started VAD_PROP_SILENCE_DURATION
           silence_minimum_duration set_silence_minimum_duration).
  - right. right. left. reflexivity.
  - reflexivity.
  - split; vm_compute; discriminate.
  - apply Nat.ltb_lt. vm_compute. reflexivity.
Defined.

(** X12.  Four of the names that [gdf_change] stores a value under are
    unknown to [gdf_get_setting]: [name], the second name of the session
    id, the two names of the logging context, and [application].  What was
    stored under them cannot be read back: the answer is -1 and the buffer
    is left as it was. *)
Theorem gdf_get_setting_rejects_what_gdf_change_stored session name value len
    w :
  ast_strlen_zero value = false ->
  named name GDF_PROP_ALTERNATE_SESSION_NAME
  || named name GDF_PROP_LOG_CONTEXT
  || named name GDF_PROP_ALTERNATE_LOG_CONTEXT
  || named name GDF_PROP_APPLICATION_CONTEXT = true ->
  exists w',
    gdf_change name value w = Some (0, w')
    /\ In value [session_id (data w'); call_logging_context (data w');
                 call_logging_application_name (data w')]
    /\ gdf_get_setting session name len (data w') = Some (-1, None).
Proof.
  intros Hvalue Hname.
  repeat match type of Hname with
         | (_ || _)%bool = true =>
             apply orb_true_iff in Hname; destruct Hname as [Hname | Hname]
         end;
    unfold gdf_change, gdf_get_setting; resolve_names Hname;
    rewrite ?Hname, ?orb_true_r, ?Hvalue;
    unfold bind, emit, modify_pvt, ret; cbn;
    (eexists; split; [reflexivity|]; split; [cbn; tauto | reflexivity]).
Qed.

Lemma gdf_get_setting_rejects_what_gdf_change_stored_witness :
  exists w',
    gdf_change "logContext" "ivr-main" Example.started = Some (0, w')
    /\ In "ivr-main"
         [session_id (data w'); call_logging_context (data w');
          call_logging_application_name (data w')]
    /\ gdf_get_setting (Build_df_session "0x7f01" "sales-project-1")
         "logContext" 64 (data w')
       = Some (-1, None).
Proof.
  apply (gdf_get_setting_rejects_what_gdf_change_stored
           (Build_df_session "0x7f01" "sales-project-1") "logContext"
           "ivr-main" 64 Example.started); reflexivity.
Defined.

(** ** Activating a grammar *)

Lemma substring_prefix p : forall s,
  substring 0 (String.length p) (p ++ s) = p.
Proof.
  induction p as [|c p IH]; intros s; cbn.
  - destruct s; reflexivity.
  - rewrite IH. reflexivity.
Qed.

Lemma advance_prefix p : forall s, advance (String.length p) (p ++ s) = s.
Proof. induction p as [|c p IH]; intros s; cbn; [reflexivity | apply IH]. Qed.

Lemma substring_suffix p : forall s,
  substring (String.length p) (String.length (p ++ s) - String.length p)
    (p ++ s) = s.
Proof.
  induction p as [|c p IH]; intros s; cbn [String.length append].
  - rewrite Nat.sub_0_r. apply substring_all. reflexivity.
  - cbn [substring]. change (S ?a - S ?b)%nat with (a - b)%nat. apply IH.
Qed.

Lemma strchr_found name c s :
  strchr name c = None ->
  strchr (name ++ String c s) c = Some (String.length name).
Proof.
  induction name as [|d name IH]; cbn [strchr append String.length].
  - rewrite Ascii.eqb_refl. reflexivity.
  - destruct (Ascii.eqb d c); [discriminate|].
    destruct (strchr name c); [discriminate|].
    intros _. rewrite IH by reflexivity. reflexivity.
Qed.

Lemma advance_found name c s :
  advance (S (String.length name)) (name ++ String c s) = s.
Proof. induction name as [|d name IH]; cbn; [reflexivity | exact IH]. Qed.

Lemma strchr_none_length name c :
  strchr name c = None -> forall n, strchr name c <> Some n.
Proof. intros -> n. discriminate. Qed.

Lemma is_grammar_old_style_event_prefix prefix rest :
  String.length prefix = EVENT_COLON_LEN ->
  strcasecmp prefix EVENT_COLON = 0 ->
  is_grammar_old_style_event (prefix ++ rest) = true.
Proof.
  intros Hlen Hcmp. unfold is_grammar_old_style_event, strncasecmp.
  rewrite <- Hlen at 1. rewrite substring_prefix.
  change (substring 0 EVENT_COLON_LEN EVENT_COLON) with EVENT_COLON.
  rewrite Hcmp. reflexivity.
Qed.

Lemma is_grammar_new_style_format_prefix prefix rest :
  String.length prefix = BUILTIN_COLON_GRAMMAR_SLASH_LEN ->
  strcasecmp prefix BUILTIN_COLON_GRAMMAR_SLASH = 0 ->
  is_grammar_old_style_event (prefix ++ rest) = false
  /\ is_grammar_new_style_format (prefix ++ rest) = true.
Proof.
  intros Hlen Hcmp. split.
  - destruct prefix as [|c prefix]; [discriminate Hlen|].
    unfold BUILTIN_COLON_GRAMMAR_SLASH in Hcmp. cbn [strcasecmp] in Hcmp.
    destruct (Ascii.eqb_spec (tolower c) (tolower "b")) as [E|E].
    + unfold is_grammar_old_style_event, strncasecmp, EVENT_COLON_LEN,
        EVENT_COLON.
      cbn [append substring strcasecmp]. rewrite E. reflexivity.
    + exfalso. apply E, code_inj. lia.
  - unfold is_grammar_new_style_format, strncasecmp.
    rewrite <- Hlen at 1. rewrite substring_prefix.
    change (substring 0 BUILTIN_COLON_GRAMMAR_SLASH_LEN
              BUILTIN_COLON_GRAMMAR_SLASH) with BUILTIN_COLON_GRAMMAR_SLASH.
    rewrite Hcmp. reflexivity.
Qed.

(** One [activate_agent_for_name], whatever the session and the
    configuration. *)
Lemma activate_agent_for_name_run env agents name name_len ev w :
  let agent_name_given := substring 0 name_len name in
  let found := get_logical_agent_by_name agents agent_name_given in
  exists calls w',
    activate_agent_for_name env agents name name_len ev w = Some (calls, w')
    /\ calls = [call_df_set_project_id (project_id (data w'));
                call_df_set_endpoint (endpoint (data w'));
                call_df_set_auth_key (service_key (data w'))]
    /\ w' = set_data (data w') w
    /\ logical_agent_name (data w') = agent_name_given
    /\ event (data w') = ev
    /\ project_id (data w')
       = match config env with
         | Some _ => S_OR (option_map agent_project_id found) agent_name_given
         | None => agent_name_given
         end
    /\ service_key (data w')
       = match config env with
         | Some cfg =>
             S_OR (option_map agent_service_key found) (cfg_service_key cfg)
         | None => service_key (data w)
         end
    /\ endpoint (data w')
       = match config env with
         | Some cfg => S_OR (option_map agent_endpoint found) (cfg_endpoint cfg)
         | None => endpoint (data w)
         end
    /\ data w
       = set_logical_agent_name (logical_agent_name (data w))
           (set_project_id (project_id (data w))
              (set_service_key (service_key (data w))
                 (set_endpoint (endpoint (data w))
                    (set_event (event (data w)) (data w'))))).
Proof.
  intros agent_name_given found. subst found agent_name_given.
  unfold activate_agent_for_name, bind, modify_pvt, get_pvt, ret.
  destruct w as [st q s pvt nf tr]. destruct pvt.
  destruct (config env) as [cfg|]; cbn;
    (eexists; eexists; split; [reflexivity|]; repeat split; reflexivity).
Qed.

Lemma activate_old_style_event_run prefix ev w :
  String.length prefix = EVENT_COLON_LEN ->
  activate_old_style_event (prefix ++ ev) w
  = Some (tt, set_data (set_event ev (data w)) w).
Proof.
  intros Hlen. unfold activate_old_style_event.
  rewrite <- Hlen, substring_suffix. reflexivity.
Qed.

Lemma gdf_activate_old_style env agents prefix ev w :
  String.length prefix = EVENT_COLON_LEN ->
  strcasecmp prefix EVENT_COLON = 0 ->
  gdf_activate env agents (prefix ++ ev) w
  = Some ((0, []), set_data (set_event ev (data w)) w).
Proof.
  intros Hlen Hcmp. unfold gdf_activate.
  rewrite (is_grammar_old_style_event_prefix prefix ev Hlen Hcmp).
  unfold bind. rewrite (activate_old_style_event_run prefix ev w Hlen).
  reflexivity.
Qed.

Lemma gdf_activate_new_style env agents prefix name rest ev w :
  String.length prefix = BUILTIN_COLON_GRAMMAR_SLASH_LEN ->
  strcasecmp prefix BUILTIN_COLON_GRAMMAR_SLASH = 0 ->
  strchr name "?" = None ->
  (rest, ev) = (name, "") \/ rest = (name ++ "?" ++ ev)%string ->
  gdf_activate env agents (prefix ++ rest) w
  = (calls <- activate_agent_for_name env agents rest (String.length name) ev ;;
     ret (0, calls)) w.
Proof.
  intros Hlen Hcmp Hname Hrest. unfold gdf_activate.
  destruct (is_grammar_new_style_format_prefix prefix rest Hlen Hcmp)
    as [-> ->].
  unfold activate_new_style_grammar. rewrite <- Hlen, advance_prefix.
  destruct Hrest as [E | ->].
  - injection E as -> ->. rewrite Hname. reflexivity.
  - cbn [append]. rewrite (strchr_found name "?" ev Hname), advance_found.
    reflexivity.
Qed.

(** X13.  [gdf_activate] always returns, with 0 or with -1.  A grammar name
    that is answered -1 has changed nothing and reached no setter of the
    library.  Whatever the name, the call leaves the speech state and the
    trace alone, and of the private data it can change the logical agent
    name, the project id, the service key, the endpoint and the event
    only. *)
Theorem gdf_activate_changes_the_agent_only env agents grammar_name w :
  exists r calls w',
    gdf_activate env agents grammar_name w = Some ((r, calls), w')
    /\ (r = 0 \/ r = -1 /\ calls = [] /\ w' = w)
    /\ w' = set_data (data w') w
    /\ data w
       = set_logical_agent_name (logical_agent_name (data w))
           (set_project_id (project_id (data w))
              (set_service_key (service_key (data w))
                 (set_endpoint (endpoint (data w))
                    (set_event (event (data w)) (data w'))))).
Proof.
  unfold gdf_activate.
  destruct (is_grammar_old_style_event grammar_name).
  - unfold activate_old_style_event, bind, modify_pvt, ret.
    eexists; eexists; eexists. split; [reflexivity|].
    split; [left; reflexivity|].
    destruct w as [st q s pvt nf tr]. destruct pvt.
    split; reflexivity.
  - destruct (is_grammar_new_style_format grammar_name).
    + unfold activate_new_style_grammar. cbv zeta.
      destruct (strchr _ "?");
        match goal with
        | |- context [activate_agent_for_name env agents ?n ?l ?e] =>
            destruct (activate_agent_for_name_run env agents n l e w)
              as (calls & w' & Hrun & _ & Hw & _ & _ & _ & _ & _ & Hframe)
        end;
        unfold bind; rewrite Hrun;
        exists 0, calls, w'; (split; [reflexivity|]);
        (split; [left; reflexivity|]); (split; [exact Hw | exact Hframe]).
    + exists (-1), [], w. split; [reflexivity|].
      split; [right; repeat split; reflexivity|].
      destruct w as [st q s pvt nf tr]. destruct pvt.
      split; reflexivity.
Qed.

(** X14.  A grammar name that starts with [builtin:grammar/], in any case,
    names a logical agent and, after the first question mark, an event.
    [gdf_activate] stores both, an empty event when there is no question
    mark, so that an event primed before is dropped.  With a configuration,
    the project id, the service key and the endpoint are those of the
    first agent whose name is the given one up to case, where that agent
    has them; the project id falls back to the given name, key and endpoint
    to the general ones.  Without a configuration the project id is the
    given name and key and endpoint stay.  What is stored is handed to the
    library: project id, endpoint, key, in this order. *)
Theorem gdf_activate_of_a_new_style_grammar env agents prefix name rest ev w :
  String.length prefix = BUILTIN_COLON_GRAMMAR_SLASH_LEN ->
  strcasecmp prefix BUILTIN_COLON_GRAMMAR_SLASH = 0 ->
  strchr name "?" = None ->
  (rest, ev) = (name, "") \/ rest = (name ++ "?" ++ ev)%string ->
  let found := get_logical_agent_by_name agents name in
  exists calls w',
    gdf_activate env agents (prefix ++ rest) w = Some ((0, calls), w')
    /\ logical_agent_name (data w') = name
    /\ event (data w') = ev
    /\ project_id (data w')
       = match config env with
         | Some _ => S_OR (option_map agent_project_id found) name
         | None => name
         end
    /\ service_key (data w')
       = match config env with
         | Some cfg =>
             S_OR (option_map agent_service_key found) (cfg_service_key cfg)
         | None => service_key (data w)
         end
    /\ endpoint (data w')
       = match config env with
         | Some cfg => S_OR (option_map agent_endpoint found) (cfg_endpoint cfg)
         | None => endpoint (data w)
         end
    /\ calls = [call_df_set_project_id (project_id (data w'));
                call_df_set_endpoint (endpoint (data w'));
                call_df_set_auth_key (service_key (data w'))].
Proof.
  intros Hlen Hcmp Hname Hrest found. subst found.
  rewrite (gdf_activate_new_style env agents prefix name rest ev w
             Hlen Hcmp Hname Hrest).
  destruct (activate_agent_for_name_run env agents rest (String.length name)
              ev w)
    as (calls & w' & Hrun & Hcalls & _ & Hn & He & Hp & Hk & Hep & _).
  assert (Hsub : substring 0 (String.length name) rest = name).
  { destruct Hrest as [E | ->].
    - injection E as -> _. apply substring_all. reflexivity.
    - apply substring_prefix. }
  rewrite Hsub in Hn, Hp, Hk, Hep.
  unfold bind. rewrite Hrun.
  exists calls, w'. split; [reflexivity|].
  repeat (split; [assumption|]). exact Hcalls.
Qed.

Lemma gdf_activate_of_a_new_style_grammar_witness :
  exists calls w',
    gdf_activate ControlExample.env ControlExample.agents
      "Builtin:Grammar/SALES?welcome" Example.primed
    = Some ((0, calls), w')
    /\ logical_agent_name (data w') = "SALES"
    /\ event (data w') = "welcome"
    /\ project_id (data w') = "sales-project-1"
    /\ service_key (data w') = "{general key}"
    /\ endpoint (data w') = "eu-dialogflow.googleapis.com"
    /\ calls = [call_df_set_project_id (project_id (data w'));
                call_df_set_endpoint (endpoint (data w'));
                call_df_set_auth_key (service_key (data w'))].
Proof.
  exact (gdf_activate_of_a_new_style_grammar ControlExample.env
           ControlExample.agents "Builtin:Grammar/" "SALES" "SALES?welcome"
           "welcome" Example.primed eq_refl eq_refl eq_refl
           (or_intror eq_refl)).
Defined.

(** Two utterances started after an event was primed. *)
Lemma primed_event_is_sent_once env df df' w1 :
  ast_strlen_zero (event (data w1)) = false ->
  exists w2 w3 d1 d2,
    gdf_start env df w1 = Some (0, w2)
    /\ trace w2 = trace w1 ++ d1
    /\ df_calls d1
       = [io_df_recognize_event (event (data w1)) (language (data w1))]
    /\ gdf_start env df' w2 = Some (0, w3)
    /\ trace w3 = trace w2 ++ d2
    /\ df_calls d2 = []
    /\ state w3 = AST_SPEECH_STATE_READY.
Proof.
  intros Hev.
  destruct (gdf_start_run env df w1)
    as (w2 & d1 & Hrun1 & Ht1 & _ & He1 & _ & _ & _ & Hdf1 & _).
  destruct (gdf_start_run env df' w2)
    as (w3 & d2 & Hrun2 & Ht2 & _ & _ & _ & _ & Hst2 & Hdf2 & _).
  rewrite Hev in Hdf1. rewrite He1 in Hst2, Hdf2. cbn in Hst2, Hdf2.
  exists w2, w3, d1, d2. repeat (split; [assumption|]). exact Hst2.
Qed.

(** X15.  An event that a grammar name carries, after [event:] or after
    the question mark of a [builtin:grammar/] name, primes one utterance:
    the next [gdf_start] sends it to the library with the session's
    language, as the only call into the library, and the [gdf_start] after
    that one sends nothing and makes the session ready for audio. *)
Theorem an_activated_event_is_sent_once env agents df df'
    grammar_name ev w :
  ast_strlen_zero ev = false ->
  (exists prefix,
     String.length prefix = EVENT_COLON_LEN
     /\ strcasecmp prefix EVENT_COLON = 0
     /\ grammar_name = (prefix ++ ev)%string)
  \/ (exists prefix name,
        String.length prefix = BUILTIN_COLON_GRAMMAR_SLASH_LEN
        /\ strcasecmp prefix BUILTIN_COLON_GRAMMAR_SLASH = 0
        /\ strchr name "?" = None
        /\ grammar_name = (prefix ++ name ++ "?" ++ ev)%string) ->
  exists calls w1 w2 w3 d1 d2,
    gdf_activate env agents grammar_name w = Some ((0, calls), w1)
    /\ trace w1 = trace w
    /\ gdf_start env df w1 = Some (0, w2)
    /\ trace w2 = trace w1 ++ d1
    /\ df_calls d1 = [io_df_recognize_event ev (language (data w))]
    /\ gdf_start env df' w2 = Some (0, w3)
    /\ trace w3 = trace w2 ++ d2
    /\ df_calls d2 = []
    /\ state w3 = AST_SPEECH_STATE_READY.
Proof.
  intros Hev Hform.
  assert (Hact : exists calls w1,
            gdf_activate env agents grammar_name w = Some ((0, calls), w1)
            /\ trace w1 = trace w
            /\ event (data w1) = ev
            /\ language (data w1) = language (data w)).
  { destruct Hform as [(prefix & Hlen & Hcmp & ->)
                      | (prefix & name & Hlen & Hcmp & Hname & ->)].
    - rewrite (gdf_activate_old_style env agents prefix ev w Hlen Hcmp).
      eexists; eexists. split; [reflexivity|].
      destruct w as [st q s pvt nf tr]. destruct pvt.
      repeat split; reflexivity.
    - rewrite (gdf_activate_new_style env agents prefix name
                 (name ++ "?" ++ ev) ev w Hlen Hcmp Hname
                 (or_intror eq_refl)).
      destruct (activate_agent_for_name_run env agents (name ++ "?" ++ ev)
                  (String.length name) ev w)
        as (calls & w1 & Hrun & _ & Hw & _ & He & _ & _ & _ & Hframe).
      unfold bind. rewrite Hrun.
      exists calls, w1. split; [reflexivity|].
      split; [rewrite Hw; reflexivity|]. split; [exact He|].
      rewrite Hframe. destruct (data w1). reflexivity. }
  destruct Hact as (calls & w1 & Hrun & Ht & He & Hl).
  assert (Hev1 : ast_strlen_zero (event (data w1)) = false)
    by (rewrite He; exact Hev).
  destruct (primed_event_is_sent_once env df df' w1 Hev1)
    as (w2 & w3 & d1 & d2 & H1 & H2 & H3 & H4 & H5 & H6 & H7).
  rewrite He, Hl in H3.
  exists calls, w1, w2, w3, d1, d2.
  repeat (split; [assumption|]). exact H7.
Qed.

Lemma an_activated_event_is_sent_once_witness :
  exists calls w1 w2 w3 d1 d2,
    gdf_activate ControlExample.env ControlExample.agents
      "builtin:grammar/Support?welcome" ResultsExample.w
    = Some ((0, calls), w1)
    /\ trace w1 = trace ResultsExample.w
    /\ gdf_start ControlExample.env Example.df_ok w1 = Some (0, w2)
    /\ trace w2 = trace w1 ++ d1
    /\ df_calls d1
       = [io_df_recognize_event "welcome" (language (data ResultsExample.w))]
    /\ gdf_start ControlExample.env Example.df_ok w2 = Some (0, w3)
    /\ trace w3 = trace w2 ++ d2
    /\ df_calls d2 = []
    /\ state w3 = AST_SPEECH_STATE_READY.
Proof.
  apply (an_activated_event_is_sent_once ControlExample.env
           ControlExample.agents Example.df_ok Example.df_ok
           "builtin:grammar/Support?welcome" "welcome" ResultsExample.w).
  - reflexivity.
  - right. exists "builtin:grammar/", "Support".
    repeat split; reflexivity.
Defined.

(** ** The results of an utterance *)

Lemma last_such_from (p : dialogflow_result -> bool) l : forall init,
  fold_left (fun found r => if p r then Some r else found) l init
  = match last_such p l with
    | Some r => Some r
    | None => init
    end.
Proof.
  unfold last_such.
  induction l as [|r l IH]; intros init; cbn [fold_left]; [reflexivity|].
  rewrite (IH (if p r then Some r else init)), (IH (if p r then Some r else None)).
  destruct (fold_left _ l None); [reflexivity|].
  destruct (p r); reflexivity.
Qed.

Lemma last_such_cons (p : dialogflow_result -> bool) r l :
  last_such p (r :: l)
  = match last_such p l with
    | Some r' => Some r'
    | None => if p r then Some r else None
    end.
Proof. unfold last_such at 1. cbn [fold_left]. apply last_such_from. Qed.

Lemma output_audio_is_no_fulfillment_text r :
  is_output_audio r = true -> is_fulfillment_text r = false.
Proof.
  unfold is_output_audio, is_fulfillment_text. intros H.
  apply (named_exclusive _ _ _ H). vm_compute. discriminate.
Qed.

(** The loop of [gdf_get_results] over what the library answers. *)
Lemma results_loop_run l : forall acc,
  let somes :=
    flat_map (fun r : option dialogflow_result =>
                match r with Some r => [r] | None => [] end) l in
  let r := fold_left results_round l acc in
  start r
  = start acc ++ map listed (filter (fun r => negb (is_output_audio r)) somes)
  /\ output_audio r
     = match last_such is_output_audio somes with
       | Some a => Some a
       | None => output_audio acc
       end
  /\ fulfillment_text r
     = match last_such is_fulfillment_text somes with
       | Some a => Some a
       | None => fulfillment_text acc
       end.
Proof.
  induction l as [|[r|] l IH]; intros acc; cbn zeta.
  - cbn. rewrite app_nil_r. repeat split; reflexivity.
  - cbn [fold_left flat_map app]. rewrite !last_such_cons.
    destruct (IH (results_round acc (Some r))) as (Hs & Ha & Hf).
    cbn zeta in Hs, Ha, Hf. rewrite Hs, Ha, Hf. clear Hs Ha Hf IH.
    cbn [results_round filter].
    fold (is_output_audio r). fold (is_fulfillment_text r).
    destruct (is_output_audio r) eqn:Ea.
    + rewrite (output_audio_is_no_fulfillment_text r Ea).
      cbn [negb start output_audio fulfillment_text].
      repeat split;
        match goal with
        | |- context [last_such ?p ?l] => destruct (last_such p l)
        end; reflexivity.
    + cbn [negb start output_audio fulfillment_text map].
      rewrite <- app_assoc. cbn [app].
      repeat split; try reflexivity;
        match goal with
        | |- context [last_such ?p ?l] => destruct (last_such p l)
        end; try reflexivity.
      destruct (is_fulfillment_text r); reflexivity.
  - cbn [fold_left flat_map app results_round]. apply IH.
Qed.

Lemma answered_loop lib :
  let r :=
    fold_left results_round
      (map (df_get_result_ret lib)
         (seq 0 (Z.to_nat (df_get_result_count_ret lib))))
      (Build_results_loop [] None None) in
  start r
  = map listed (filter (fun r => negb (is_output_audio r)) (answered lib))
  /\ output_audio r = last_such is_output_audio (answered lib)
  /\ fulfillment_text r = last_such is_fulfillment_text (answered lib).
Proof.
  cbn zeta.
  destruct (results_loop_run
              (map (df_get_result_ret lib)
                 (seq 0 (Z.to_nat (df_get_result_count_ret lib))))
              (Build_results_loop [] None None)) as (Hs & Ha & Hf).
  cbn zeta in Hs, Ha, Hf. fold (answered lib) in Hs, Ha, Hf.
  rewrite Hs, Ha, Hf. cbn [start output_audio fulfillment_text app].
  repeat split;
    match goal with
    | |- context [last_such ?p ?l] => destruct (last_such p l)
    end; reflexivity.
Qed.

(** One [gdf_get_results], by what the library answered. *)
Lemma gdf_get_results_cases env lib last_resort pvt :
  let base :=
    map listed (filter (fun r => negb (is_output_audio r)) (answered lib)) in
  let removal := map rc_unlink (file_named (lastAudioResponse pvt)) in
  match last_such is_output_audio (answered lib) with
  | Some audio =>
      exists fd file opening last_resort',
        named_by lib last_resort file last_resort'
        /\ ast_strlen_zero file = false
        /\ (opening = [rc_mkstemps (Some file)]
            \/ opening = [rc_mkstemps None; rc_open file (open_ret lib)])
        /\ gdf_get_results env lib last_resort pvt
           = Some (base ++ [fulfillment_audio file],
                   opening
                   ++ [rc_write fd (df_value audio) (df_valueLen audio);
                       rc_close fd]
                   ++ removal,
                   last_resort', set_lastAudioResponse file pvt)
  | None =>
      match last_such is_fulfillment_text (answered lib) with
      | Some fulfillment =>
          if ast_strlen_zero (df_value fulfillment) then
            gdf_get_results env lib last_resort pvt
            = Some (base, [], last_resort, pvt)
          else
            match config env with
            | Some cfg =>
                exists file opening last_resort',
                  named_by lib last_resort file last_resort'
                  /\ ast_strlen_zero file = false
                  /\ ((exists fd,
                         opening = [rc_mkstemps (Some file); rc_close fd])
                      \/ opening = [rc_mkstemps None])
                  /\ gdf_get_results env lib last_resort pvt
                     = Some (base
                             ++ (if truthy (google_synth_speech_ret lib)
                                 then []
                                 else [fulfillment_audio file]),
                             opening
                             ++ [rc_google_synth_speech (cfg_service_key cfg)
                                   (df_value fulfillment) (language pvt) file]
                             ++ removal,
                             last_resort', set_lastAudioResponse file pvt)
            | None => gdf_get_results env lib last_resort pvt = None
            end
      | None =>
          gdf_get_results env lib last_resort pvt
          = Some (base, [], last_resort, pvt)
      end
  end.
Proof.
  cbn zeta. unfold gdf_get_results.
  destruct (answered_loop lib) as (Hs & Ha & Hf). cbn zeta in Hs, Ha, Hf.
  rewrite Hs, Ha, Hf. clear Hs Ha Hf.
  assert (Hremoval :
            (if negb (ast_strlen_zero (lastAudioResponse pvt))
             then [rc_unlink (lastAudioResponse pvt)] else [])
            = map rc_unlink (file_named (lastAudioResponse pvt))).
  { unfold file_named. destruct (ast_strlen_zero _); reflexivity. }
  destruct (last_such is_output_audio (answered lib)) as [audio|].
  - unfold named_by.
    destruct (mkstemps_ret lib) as [[fd chars]|]; cbv beta iota zeta;
      unfold temporary_name, last_resort_name;
      cbn [append ast_strlen_zero negb]; rewrite Hremoval, <- app_assoc.
    + exists fd. eexists; eexists; eexists.
      split; [split; reflexivity|]. split; [reflexivity|].
      split; [left; reflexivity | reflexivity].
    + exists (open_ret lib). eexists; eexists; eexists.
      split; [split; reflexivity|]. split; [reflexivity|].
      split; [right; reflexivity | reflexivity].
  - destruct (last_such is_fulfillment_text (answered lib)) as [ft|];
      [|reflexivity].
    destruct (ast_strlen_zero (df_value ft)); cbn [negb]; [reflexivity|].
    destruct (config env) as [cfg|]; [|reflexivity].
    unfold named_by.
    destruct (mkstemps_ret lib) as [[fd chars]|]; cbv beta iota zeta;
      unfold temporary_name, last_resort_name;
      cbn [append ast_strlen_zero negb]; rewrite Hremoval, <- app_assoc.
    + eexists; eexists; eexists.
      split; [split; reflexivity|]. split; [reflexivity|].
      split; [left; exists fd; reflexivity|].
      destruct (truthy (google_synth_speech_ret lib));
        rewrite ?app_nil_r; reflexivity.
    + eexists; eexists; eexists.
      split; [split; reflexivity|]. split; [reflexivity|].
      split; [right; reflexivity|].
      destruct (truthy (google_synth_speech_ret lib));
        rewrite ?app_nil_r; reflexivity.
Qed.


Lemma unlinked_files_app a b :
  unlinked_files (a ++ b) = unlinked_files a ++ unlinked_files b.
Proof.
  induction a as [|c a IH]; [reflexivity|].
  destruct c; cbn; rewrite ?IH; reflexivity.
Qed.

Lemma synthesized_app a b :
  synthesized (a ++ b) = synthesized a ++ synthesized b.
Proof.
  induction a as [|c a IH]; [reflexivity|].
  destruct c; cbn; rewrite ?IH; reflexivity.
Qed.

Lemma unlinked_files_removal l : unlinked_files (map rc_unlink l) = l.
Proof. induction l as [|p l IH]; cbn; [|rewrite IH]; reflexivity. Qed.


Lemma synthesized_removal l : synthesized (map rc_unlink l) = [].
Proof. induction l as [|p l IH]; cbn; [|rewrite IH]; reflexivity. Qed.

Lemma lastAudioResponse_set file pvt :
  lastAudioResponse (set_lastAudioResponse file pvt) = file.
Proof. reflexivity. Qed.

(** X17.  The list that [gdf_get_results] returns holds the results of the
    library in their order, each with its value, score and slot, except
    those in the slot [output_audio], which are left out.  At most one
    entry follows them: [fulfillment_audio] with score 100, whose text is
    the name of the audio file that the session then remembers.  It is
    there exactly when the library gave audio, or gave a fulfillment text
    that is not empty and was synthesized without error. *)
Theorem gdf_get_results_lists_the_results env lib last_resort pvt
    found calls last_resort' pvt' :
  gdf_get_results env lib last_resort pvt
  = Some (found, calls, last_resort', pvt') ->
  exists audio,
    found
    = map listed (filter (fun r => negb (is_output_audio r)) (answered lib))
      ++ audio
    /\ (audio = [] \/ audio = [fulfillment_audio (lastAudioResponse pvt')])
    /\ (audio <> [] <->
        last_such is_output_audio (answered lib) <> None
        \/ exists fulfillment,
             last_such is_fulfillment_text (answered lib) = Some fulfillment
             /\ ast_strlen_zero (df_value fulfillment) = false
             /\ truthy (google_synth_speech_ret lib) = false).
Proof.
  intros Hrun.
  pose proof (gdf_get_results_cases env lib last_resort pvt) as Hc.
  cbn zeta in Hc.
  destruct (last_such is_output_audio (answered lib)) as [audio|].
  - destruct Hc as (fd & file & opening & lr' & _ & _ & _ & Hc).
    rewrite Hc in Hrun. injection Hrun as <- <- <- <-.
    exists [fulfillment_audio file]. split; [reflexivity|].
    split; [right; reflexivity|].
    split; [intros _; left; discriminate | intros _; discriminate].
  - destruct (last_such is_fulfillment_text (answered lib)) as [ft|].
    + destruct (ast_strlen_zero (df_value ft)) eqn:Ez.
      * rewrite Hc in Hrun. injection Hrun as <- <- <- <-.
        exists []. split; [symmetry; apply app_nil_r|].
        split; [left; reflexivity|].
        split; [intros H; contradiction H; reflexivity|].
        intros [H | (ft' & E & Hz & _)]; [contradiction H; reflexivity|].
        injection E as <-. congruence.
      * destruct (config env) as [cfg|]; [|congruence].
        destruct Hc as (file & opening & lr' & _ & _ & _ & Hc).
        rewrite Hc in Hrun. injection Hrun as <- <- <- <-.
        destruct (truthy (google_synth_speech_ret lib)) eqn:Es.
        -- exists []. split; [reflexivity|]. split; [left; reflexivity|].
           split; [intros H; contradiction H; reflexivity|].
           intros [H | (ft' & _ & _ & H)];
             [contradiction H; reflexivity | discriminate H].
        -- exists [fulfillment_audio file]. split; [reflexivity|].
           split; [right; reflexivity|].
           split; [|intros _; discriminate].
           intros _. right. exists ft. repeat split. exact Ez.
    + rewrite Hc in Hrun. injection Hrun as <- <- <- <-.
      exists []. split; [symmetry; apply app_nil_r|].
      split; [left; reflexivity|].
      split; [intros H; contradiction H; reflexivity|].
      intros [H | (ft' & E & _)]; [contradiction H; reflexivity | discriminate E].
Qed.

Lemma gdf_get_results_lists_the_results_witness :
  exists audio,
    fst (fst (fst (ResultsExample.outcome ResultsExample.lib_text)))
    = map listed
        (filter (fun r => negb (is_output_audio r))
           (answered ResultsExample.lib_text))
      ++ audio
    /\ (audio = []
        \/ audio
           = [fulfillment_audio
                (lastAudioResponse
                   (snd (ResultsExample.outcome ResultsExample.lib_text)))])
    /\ (audio <> [] <->
        last_such is_output_audio (answered ResultsExample.lib_text) <> None
        \/ exists fulfillment,
             last_such is_fulfillment_text (answered ResultsExample.lib_text)
             = Some fulfillment
             /\ ast_strlen_zero (df_value fulfillment) = false
             /\ truthy (google_synth_speech_ret ResultsExample.lib_text)
                = false).
Proof.
  apply (gdf_get_results_lists_the_results ControlExample.env
           ResultsExample.lib_text 0 (data ResultsExample.w)
           (fst (fst (fst (ResultsExample.outcome ResultsExample.lib_text))))
           (snd (fst (fst (ResultsExample.outcome ResultsExample.lib_text))))
           (snd (fst (ResultsExample.outcome ResultsExample.lib_text)))
           (snd (ResultsExample.outcome ResultsExample.lib_text))).
  vm_compute. reflexivity.
Defined.



(** X19.  A fulfillment text is synthesized when the library gave no audio
    and the text is not empty: the last result in the slot
    [fulfillment_text], in the session's language, with the service key of
    the general configuration, whatever key the activated agent has.
    Without a configuration the call faults.  Whether or not the synthesis
    succeeds, the session remembers the file it was to go to, and the file
    remembered before is removed. *)
Theorem fulfillment_text_is_synthesized_with_the_general_key env lib
    last_resort pvt fulfillment :
  last_such is_output_audio (answered lib) = None ->
  last_such is_fulfillment_text (answered lib) = Some fulfillment ->
  ast_strlen_zero (df_value fulfillment) = false ->
  match config env with
  | Some cfg =>
      exists found calls last_resort' pvt',
        gdf_get_results env lib last_resort pvt
        = Some (found, calls, last_resort', pvt')
        /\ In (rc_google_synth_speech (cfg_service_key cfg)
                 (df_value fulfillment) (language pvt)
                 (lastAudioResponse pvt')) calls
        /\ synthesized calls = [df_value fulfillment]
        /\ ast_strlen_zero (lastAudioResponse pvt') = false
        /\ pvt' = set_lastAudioResponse (lastAudioResponse pvt') pvt
        /\ unlinked_files calls = file_named (lastAudioResponse pvt)
  | None => gdf_get_results env lib last_resort pvt = None
  end.
Proof.
  intros Haudio Htext Hvalue.
  pose proof (gdf_get_results_cases env lib last_resort pvt) as Hc.
  cbn zeta in Hc. rewrite Haudio, Htext, Hvalue in Hc.
  destruct (config env) as [cfg|]; [|exact Hc].
  destruct Hc as (file & opening & lr' & _ & Hfile & Hopening & Hc).
  rewrite Hc. eexists; eexists; eexists; eexists.
  split; [reflexivity|].
  rewrite !synthesized_app, !unlinked_files_app, synthesized_removal,
    unlinked_files_removal, lastAudioResponse_set.
  split; [apply in_or_app; right; left; reflexivity|].
  split; [|split; [exact Hfile | split; [reflexivity|]]];
    destruct Hopening as [(fd & ->) | ->]; reflexivity.
Qed.

Lemma fulfillment_text_is_synthesized_with_the_general_key_witness :
  exists found calls last_resort' pvt',
    gdf_get_results ControlExample.env ResultsExample.lib_text 0
      (data ResultsExample.w)
    = Some (found, calls, last_resort', pvt')
    /\ In (rc_google_synth_speech (cfg_service_key ControlExample.cfg)
             (df_value ResultsExample.reply)
             (language (data ResultsExample.w))
             (lastAudioResponse pvt')) calls
    /\ synthesized calls = [df_value ResultsExample.reply]
    /\ ast_strlen_zero (lastAudioResponse pvt') = false
    /\ pvt' = set_lastAudioResponse (lastAudioResponse pvt')
                (data ResultsExample.w)
    /\ unlinked_files calls
       = file_named (lastAudioResponse (data ResultsExample.w)).
Proof.
  exact (fulfillment_text_is_synthesized_with_the_general_key
           ControlExample.env ResultsExample.lib_text 0
           (data ResultsExample.w) ResultsExample.reply
           eq_refl eq_refl eq_refl).
Defined.






(** ** The end of a session *)

Lemma gdf_destroy_closes w :
  closed_at_teardown (snd (gdf_destroy w))
  = held (call_log_file_handle (data w)).
Proof.
  unfold gdf_destroy. cbn [snd].
  destruct (state w); destruct (ast_strlen_zero (lastAudioResponse (data w)));
    destruct (call_log_file_handle (data w)); reflexivity.
Qed.

Lemma gdf_destroy_stops w :
  In td_df_stop_recognition (snd (gdf_destroy w))
  <-> state w = AST_SPEECH_STATE_READY.
Proof.
  unfold gdf_destroy. cbn [snd].
  destruct (state w); destruct (ast_strlen_zero (lastAudioResponse (data w)));
    destruct (call_log_file_handle (data w)); cbn;
    split; intros H; try discriminate H; try tauto;
    repeat (destruct H as [H | H]; [discriminate H|]); contradiction H.
Qed.

(** X16.  [gdf_destroy] closes the stream of the call log when one is held,
    and no other stream: a recording that is open when the session is
    destroyed stays open.  It stops the recognition of the library exactly
    for a session that is ready for audio.  Recordings are closed by
    [gdf_stop_recognition]: after it the session holds none, [gdf_destroy]
    does not stop the library again, and the two together close every
    stream that the session held, each once, the call log last. *)
Theorem gdf_destroy_closes_the_call_log_only env w :
  closed_at_teardown (snd (gdf_destroy w))
  = held (call_log_file_handle (data w))
  /\ (In td_df_stop_recognition (snd (gdf_destroy w))
      <-> state w = AST_SPEECH_STATE_READY)
  /\ exists w' d,
       gdf_stop_recognition env w = Some (0, w')
       /\ trace w' = trace w ++ d
       /\ recordings (data w') = []
       /\ ~ In td_df_stop_recognition (snd (gdf_destroy w'))
       /\ fcloses d ++ closed_at_teardown (snd (gdf_destroy w'))
          = recordings (data w) ++ held (call_log_file_handle (data w)).
Proof.
  split; [apply gdf_destroy_closes|]. split; [apply gdf_destroy_stops|].
  exists (finalized env w), (finalize_events env (data w)).
  split; [apply gdf_stop_recognition_run|]. split; [reflexivity|].
  split; [reflexivity|]. split.
  - rewrite gdf_destroy_stops. discriminate.
  - rewrite gdf_destroy_closes, fcloses_finalize_events. reflexivity.
Qed.

(** ** Loading the configuration *)

(** X21.  Without a configuration file, or with one that is invalid,
    [load_config] still succeeds and installs the defaults: a threshold of
    512, 40 ms of voice, 500 ms of silence, the call log on and both
    recordings off, no service key, no endpoint, the standard location and
    no logical agent.  A session created under them starts with these
    three tunables. *)
Theorem load_config_without_a_file source reload env sid :
  ast_config_load source (truthy reload) = CONFIG_STATUS_FILEMISSING
  \/ ast_config_load source (truthy reload) = CONFIG_STATUS_FILEINVALID ->
  exists conf w,
    load_config source reload = Some (AST_MODULE_LOAD_SUCCESS, conf, [])
    /\ conf
       = Build_gdf_config 512 40 500 1 0 0 "" ""
           "/var/log/dialogflow/${APPLICATION}/${STRFTIME(,,%Y/%m/%d/%H)}/"
    /\ gdf_create (with_config env conf) sid = Some w
    /\ tunables_of (data w) = (512, 40, 500).
Proof.
  intros Hstatus. unfold load_config.
  destruct Hstatus as [-> | ->];
    (eexists; eexists; split; [reflexivity|]; split; [reflexivity|];
     split; reflexivity).
Qed.

Lemma load_config_without_a_file_witness :
  exists conf w,
    load_config ConfigExample.no_file 1
    = Some (AST_MODULE_LOAD_SUCCESS, conf, [])
    /\ conf
       = Build_gdf_config 512 40 500 1 0 0 "" ""
           "/var/log/dialogflow/${APPLICATION}/${STRFTIME(,,%Y/%m/%d/%H)}/"
    /\ gdf_create (with_config Example.env conf) "0x7f01" = Some w
    /\ tunables_of (data w) = (512, 40, 500).
Proof.
  apply (load_config_without_a_file ConfigExample.no_file 1 Example.env
           "0x7f01").
  left. reflexivity.
Defined.

Lemma load_logical_agent_project source cfg category agent :
  In agent (load_logical_agent source cfg category) ->
  ast_strlen_zero (agent_project_id agent) = false
  /\ agent_name agent = category
  /\ strcasecmp "general" category <> 0
  /\ ast_variable_retrieve cfg category "project_id"
     = Some (agent_project_id agent).
Proof.
  unfold load_logical_agent.
  destruct (Z.eqb_spec (strcasecmp "general" category) 0) as [E|E];
    cbn [negb]; [intros []|].
  destruct (ast_variable_retrieve cfg category "project_id") as [project|];
    [|intros []].
  destruct (ast_strlen_zero project) eqn:Ez; cbn [negb]; [intros []|].
  intros [<- | []]. cbn. repeat split; assumption.
Qed.

(** X22.  The logical agents that [load_config] installs are the sections
    of the file other than [general], under any case of that name, that
    give a project id which is not empty; each has the name of its
    section.  So whenever a [builtin:grammar/] name finds an agent of the
    installed configuration, the project id that [gdf_activate] stores and
    hands to the library first is that agent's, and the given name where
    it finds none. *)
Theorem loaded_agents_supply_the_project source reload r conf agents :
  load_config source reload = Some (r, conf, agents) ->
  (forall agent,
     In agent agents ->
     ast_strlen_zero (agent_project_id agent) = false
     /\ strcasecmp "general" (agent_name agent) <> 0)
  /\ forall env prefix name rest ev w,
       String.length prefix = BUILTIN_COLON_GRAMMAR_SLASH_LEN ->
       strcasecmp prefix BUILTIN_COLON_GRAMMAR_SLASH = 0 ->
       strchr name "?" = None ->
       (rest, ev) = (name, "") \/ rest = (name ++ "?" ++ ev)%string ->
       exists calls w',
         gdf_activate (with_config env conf) agents (prefix ++ rest) w
         = Some ((0, calls), w')
         /\ project_id (data w')
            = match get_logical_agent_by_name agents name with
              | Some agent => agent_project_id agent
              | None => name
              end
         /\ hd_error calls
            = Some (call_df_set_project_id (project_id (data w'))).
Proof.
  intros Hload.
  assert (Hagents : forall agent,
            In agent agents ->
            ast_strlen_zero (agent_project_id agent) = false
            /\ strcasecmp "general" (agent_name agent) <> 0).
  { unfold load_config in Hload.
    destruct (ast_config_load source (truthy reload)) as [| | |cfg];
      try discriminate Hload; injection Hload as <- <- <-;
      intros agent Hin;
      first
        [ contradiction Hin
        | apply in_flat_map in Hin;
          destruct Hin as (category & _ & Hin);
          destruct (load_logical_agent_project source _ category agent Hin)
            as (Hp & Hn & Hg & _); rewrite Hn; split; assumption ]. }
  split; [exact Hagents|].
  intros env prefix name rest ev w Hlen Hcmp Hname Hrest.
  rewrite (gdf_activate_new_style (with_config env conf) agents prefix name
             rest ev w Hlen Hcmp Hname Hrest).
  destruct (activate_agent_for_name_run (with_config env conf) agents rest
              (String.length name) ev w)
    as (calls & w' & Hrun & Hcalls & _ & _ & _ & Hp & _).
  assert (Hsub : substring 0 (String.length name) rest = name).
  { destruct Hrest as [E | ->].
    - injection E as -> _. apply substring_all. reflexivity.
    - apply substring_prefix. }
  rewrite Hsub in Hp. cbn [with_config config] in Hp.
  unfold bind. rewrite Hrun.
  exists calls, w'. split; [reflexivity|].
  split; [|rewrite Hcalls; reflexivity].
  rewrite Hp. unfold get_logical_agent_by_name.
  destruct (find _ agents) as [agent|] eqn:Hfind; [|reflexivity].
  apply find_some in Hfind. destruct Hfind as [Hin _].
  destruct (Hagents agent Hin) as [Hproject _].
  cbn [option_map S_OR]. rewrite Hproject. reflexivity.
Qed.

Lemma loaded_agents_supply_the_project_witness :
  (forall agent,
     In agent ConfigExample.agents ->
     ast_strlen_zero (agent_project_id agent) = false
     /\ strcasecmp "general" (agent_name agent) <> 0)
  /\ forall env prefix name rest ev w,
       String.length prefix = BUILTIN_COLON_GRAMMAR_SLASH_LEN ->
       strcasecmp prefix BUILTIN_COLON_GRAMMAR_SLASH = 0 ->
       strchr name "?" = None ->
       (rest, ev) = (name, "") \/ rest = (name ++ "?" ++ ev)%string ->
       exists calls w',
         gdf_activate (with_config env ConfigExample.conf)
           ConfigExample.agents (prefix ++ rest) w
         = Some ((0, calls), w')
         /\ project_id (data w')
            = match get_logical_agent_by_name ConfigExample.agents name with
              | Some agent => agent_project_id agent
              | None => name
              end
         /\ hd_error calls
            = Some (call_df_set_project_id (project_id (data w'))).
Proof.
  apply (loaded_agents_supply_the_project ConfigExample.source 0
           AST_MODULE_LOAD_SUCCESS ConfigExample.conf ConfigExample.agents).
  vm_compute. reflexivity.
Defined.
(** ** A call log that was given up *)

Lemma mkdirs_app t1 t2 : mkdirs (t1 ++ t2) = mkdirs t1 ++ mkdirs t2.
Proof.
  induction t1 as [|e t1 IH]; [reflexivity|].
  destruct e; cbn; rewrite ?IH; reflexivity.
Qed.

Lemma never_logs_refl w : never_logs w w.
Proof.
  intros H. split; [exact H|]. exists [].
  split; [symmetry; apply app_nil_r | split; reflexivity].
Qed.

Lemma never_logs_trans w1 w2 w3 :
  never_logs w1 w2 -> never_logs w2 w3 -> never_logs w1 w3.
Proof.
  intros H12 H23 H1.
  destruct (H12 H1) as (H2 & d1 & E1 & L1 & D1).
  destruct (H23 H2) as (H3 & d2 & E2 & L2 & D2).
  split; [exact H3|]. exists (d1 ++ d2). split; [|split].
  - rewrite E2, E1, app_assoc. reflexivity.
  - rewrite log_lines_app, L1, L2. reflexivity.
  - rewrite mkdirs_app, D1, D2. reflexivity.
Qed.

Lemma gdf_log_call_event_never_logs env type log_event log_data :
  steps never_logs (gdf_log_call_event env type log_event log_data).
Proof.
  intros w a w' Hrun [Hflag Hnone].
  rewrite gdf_log_call_event_run in Hrun. injection Hrun as _ <-.
  assert (Hline : log_line env (data w) type log_event log_data = []).
  { unfold log_line, call_log_stream. rewrite Hnone.
    destruct (config env) as [cfg|]; [|reflexivity].
    destruct (truthy (enable_call_logs cfg)); reflexivity. }
  rewrite Hline. split; [split; assumption|].
  exists []. split; [reflexivity | split; reflexivity].
Qed.

(** The head of [gdf_start]: the call log is not started twice. *)
Lemma start_call_log_never_logs env :
  steps never_logs
    (should_start <- should_start_call_log env ;;
     if truthy should_start then start_call_log env else ret tt).
Proof.
  intros w a w' Hrun [Hflag Hnone].
  destruct (should_start_call_log_once env w) as (v & Hv & Honce).
  unfold bind in Hrun. rewrite Hv in Hrun. rewrite (Honce Hflag) in Hrun.
  injection Hrun as _ <-. apply never_logs_refl. split; assumption.
Qed.

Lemma steps_bind_assoc R {A B C} (m : M A) (f : A -> M B) (g : B -> M C) :
  steps R (bind (bind m f) g) -> steps R (bind m (fun a => bind (f a) g)).
Proof.
  intros H w c w' Hrun. apply (H w c w'). rewrite bind_assoc. exact Hrun.
Qed.

Ltac never_logs_leaf :=
  let H := fresh "H" in
  intros H; split; [exact H|];
  first [ exists []; split; [symmetry; apply app_nil_r | split; reflexivity]
        | eexists; split; [cbn; reflexivity | split; reflexivity] ].

Ltac never_logs_special env :=
  first
    [ apply gdf_log_call_event_never_logs
    | apply (steps_bind_assoc never_logs (should_start_call_log env));
      apply (steps_bind _ never_logs_trans);
      [apply start_call_log_never_logs | intros ?] ].

(** X23.  A call log that was given up stays given up.  Once the call log
    has been tried and no stream is held for it (the file could not be
    opened, or there was no path to open), [gdf_start], [gdf_write],
    [gdf_stop_recognition] and [gdf_change] leave it so: the flag stays
    set and the stream [NULL], no directory is made, which is how
    [start_call_log] begins each attempt at the file, and no line of a
    call log is written. *)
Theorem a_call_log_given_up_is_never_written env df buf len name value :
  steps never_logs (gdf_start env df)
  /\ steps never_logs (gdf_write env df buf len)
  /\ steps never_logs (gdf_stop_recognition env)
  /\ steps never_logs (gdf_change name value).
Proof.
  split; [|split; [|split]].
  - steps_with ltac:(never_logs_special env) never_logs_refl never_logs_trans
      never_logs_leaf.
  - steps_with ltac:(never_logs_special env) never_logs_refl never_logs_trans
      never_logs_leaf.
  - steps_with ltac:(never_logs_special env) never_logs_refl never_logs_trans
      never_logs_leaf.
  - steps_with ltac:(never_logs_special env) never_logs_refl never_logs_trans
      never_logs_leaf.
Qed.

Lemma a_call_log_given_up_is_never_written_witness :
  call_log_given_up CallLogExample.about_to_speak
  /\ (exists w' d,
        gdf_write CallLogExample.env Example.df_ok
          CallLogExample.loud 320 CallLogExample.about_to_speak
        = Some (0, w')
        /\ call_log_given_up w'
        /\ trace w' = trace CallLogExample.about_to_speak ++ d
        /\ log_lines d = []
        /\ mkdirs d = []
        /\ fopens d = ["/var/log/dialogflow/unknown/0709_0x7f01_pre_1.ul";
                       "/var/log/dialogflow/unknown/0709_0x7f01_post_1.ul"]
        /\ recordings (data w') = [0%nat; 1%nat]
        /\ df_calls d = [io_df_start_recognition "";
                         io_df_write_audio (repeat 2 160);
                         io_df_get_response_count])
  /\ log_lines
       (trace (Example.after
                 (gdf_write Example.env Example.df_ok CallLogExample.loud 320)
                 Example.about_to_speak))
     = [(CALL_LOG_TYPE_SESSION, "start");
        (CALL_LOG_TYPE_ENDPOINTER, "start");
        (CALL_LOG_TYPE_ENDPOINTER, "start_of_speech");
        (CALL_LOG_TYPE_ENDPOINTER, "pre_recording_start");
        (CALL_LOG_TYPE_ENDPOINTER, "post_recording_start")].
Proof.
  assert (H : call_log_given_up CallLogExample.about_to_speak)
    by (split; vm_compute; reflexivity).
  split; [exact H|]. split; [|vm_compute; reflexivity].
  destruct (gdf_write CallLogExample.env Example.df_ok
              CallLogExample.loud 320 CallLogExample.about_to_speak)
    as [[r w']|] eqn:Hrun; [|vm_compute in Hrun; discriminate].
  destruct (a_call_log_given_up_is_never_written CallLogExample.env
              Example.df_ok CallLogExample.loud 320 "" "")
    as (_ & Hwrite & _).
  destruct (Hwrite CallLogExample.about_to_speak r w' Hrun H)
    as (Hg & d & Ht & Hl & Hm).
  vm_compute in Hrun. injection Hrun as <- <-.
  vm_compute in Ht. injection Ht as <-.
  eexists. eexists. split; [reflexivity|].
  split; [exact Hg|]. split; [vm_compute; reflexivity|].
  split; [exact Hl|]. split; [exact Hm|].
  split; [reflexivity|]. split; vm_compute; reflexivity.
Defined.
(** ** Runs of frames against the state *)

(** One frame that votes against the state: the disagreement grows by its
    milliseconds, and the state changes when the minimum is reached. *)
Lemma gdf_write_disagreeing env fr w :
  disagrees (vad_state (data w)) (voice_threshold (data w)) fr = true ->
  0 <= vad_change_duration (data w) ->
  0 <= frame_ms fr ->
  vad_change_duration (data w) + frame_ms fr <= INT_MAX ->
  exists r w',
    gdf_write env (fst (fst fr)) (snd (fst fr)) (snd fr) w = Some (r, w')
    /\ tunables_of (data w') = tunables_of (data w)
    /\ if vad_change_duration (data w) + frame_ms fr
          >=? minimum_duration (vad_state (data w)) (data w)
       then vad_of (data w')
            = Build_vad_locals (next_vad_state (vad_state (data w))) 0 0
       else vad_state (data w') = vad_state (data w)
            /\ vad_change_duration (data w')
               = vad_change_duration (data w) + frame_ms fr.
Proof.
  destruct fr as [[df buf] len]. unfold disagrees, frame_ms. cbn [fst snd].
  intros Hvote Hc Hms Hmax.
  destruct (calculate_audio_level buf len) as [lvl|] eqn:Hlvl;
    [|discriminate Hvote].
  destruct (gdf_write_run env df buf len w lvl Hlvl)
    as (w' & Hrun & Hvad & Htun & _).
  exists 0, w'. split; [exact Hrun|]. split; [exact Htun|].
  assert (Hadd : int_add (vad_change_duration (data w)) (datams_of len)
                 = vad_change_duration (data w) + datams_of len).
  { unfold int_add. apply to_int_small. unfold INT_MIN, INT_MAX in *. lia. }
  unfold vad_step, vote, transition in Hvad.
  cbn [l_vad_state l_change_duration] in Hvad.
  assert (Hge : (lvl >=? voice_threshold (data w))
                = match vad_state (data w) with
                  | VAD_STATE_START => true
                  | _ => false
                  end).
  { destruct (vad_state (data w)); [exact Hvote | | discriminate Hvote].
    apply Z.ltb_lt in Hvote. rewrite Z.geb_leb. apply Z.leb_gt. exact Hvote. }
  rewrite Hge in Hvad.
  destruct (vad_state (data w)) eqn:Hs; cbn [VAD_STATE_eqb negb] in Hvad;
    [| |discriminate Hvote];
    rewrite Hadd in Hvad; cbn [minimum_duration next_vad_state];
    match goal with
    | |- if ?b then _ else _ => destruct b
    end;
    first
      [ exact Hvad
      | apply (f_equal (fun l => (l_vad_state l, l_change_duration l))) in Hvad;
        cbn in Hvad; injection Hvad as V1 V2;
        split; assumption ].
Qed.

Lemma total_ms_cons fr frames :
  total_ms (fr :: frames) = frame_ms fr + total_ms frames.
Proof. reflexivity. Qed.

Lemma total_ms_app a b : total_ms (a ++ b) = total_ms a + total_ms b.
Proof.
  induction a as [|fr a IH]; cbn [app total_ms fold_right]; [reflexivity|].
  fold (total_ms (a ++ b)). fold (total_ms a). rewrite IH. lia.
Qed.

Lemma total_ms_nonneg frames :
  Forall (fun fr => 0 <= frame_ms fr) frames -> 0 <= total_ms frames.
Proof.
  induction 1 as [|fr frames Hfr _ IH]; cbn [total_ms fold_right]; [lia|].
  fold (total_ms frames). lia.
Qed.

(** X24.  The endpointer commits exactly when the time of disagreement
    reaches the minimum.  From a state that waits for speech or is in
    speech, with no disagreement counted, frames that all vote against the
    state (at or above the threshold while waiting, below it in speech)
    leave the state as it is as long as their milliseconds sum to less
    than the minimum of the state ([voice_minimum_duration] or
    [silence_minimum_duration]), and the frame with which the sum reaches
    it commits to the next state, with both durations 0. *)
Theorem the_endpointer_commits_when_the_minimum_is_reached env frames last w :
  vad_change_duration (data w) = 0 ->
  forallb (disagrees (vad_state (data w)) (voice_threshold (data w)))
    (frames ++ [last]) = true ->
  Forall (fun fr => 0 <= frame_ms fr) (frames ++ [last]) ->
  total_ms frames < minimum_duration (vad_state (data w)) (data w) ->
  minimum_duration (vad_state (data w)) (data w) <= total_ms (frames ++ [last]) ->
  total_ms (frames ++ [last]) <= INT_MAX ->
  exists ws w',
    write_frames env (frames ++ [last]) w = Some (ws ++ [w'])
    /\ List.length ws = List.length frames
    /\ Forall (fun x => vad_state (data x) = vad_state (data w)) ws
    /\ vad_of (data w')
       = Build_vad_locals (next_vad_state (vad_state (data w))) 0 0.
Proof.
  intros Hzero.
  assert (Hgen : forall frames w c,
            vad_change_duration (data w) = c -> 0 <= c ->
            forallb (disagrees (vad_state (data w)) (voice_threshold (data w)))
              (frames ++ [last]) = true ->
            Forall (fun fr => 0 <= frame_ms fr) (frames ++ [last]) ->
            c + total_ms frames
            < minimum_duration (vad_state (data w)) (data w) ->
            minimum_duration (vad_state (data w)) (data w)
            <= c + total_ms (frames ++ [last]) ->
            c + total_ms (frames ++ [last]) <= INT_MAX ->
            exists ws w',
              write_frames env (frames ++ [last]) w = Some (ws ++ [w'])
              /\ List.length ws = List.length frames
              /\ Forall (fun x => vad_state (data x) = vad_state (data w)) ws
              /\ vad_of (data w')
                 = Build_vad_locals (next_vad_state (vad_state (data w))) 0 0).
  { clear frames w Hzero.
    induction frames as [|fr frames IH]; intros w c Hc Hc0 Hvote Hms Hlt Hge Hmax.
    - cbn [app] in *. cbn [forallb] in Hvote.
      apply andb_prop in Hvote. destruct Hvote as [Hvote _].
      apply Forall_inv in Hms. cbn beta in Hms.
      rewrite total_ms_cons in Hge, Hmax. cbn [total_ms fold_right] in Hge, Hmax.
      destruct (gdf_write_disagreeing env last w Hvote)
        as (r & w' & Hrun & _ & Hstep); [rewrite ?Hc; lia ..|].
      rewrite Hc in Hstep.
      destruct (Z.geb_spec (c + frame_ms last)
                  (minimum_duration (vad_state (data w)) (data w)));
        [|lia].
      exists [], w'. destruct last as [[df buf] len]. cbn [fst snd] in Hrun.
      cbn [write_frames app]. rewrite Hrun.
      repeat split; [constructor | exact Hstep].
    - cbn [app] in *. cbn [forallb] in Hvote.
      apply andb_prop in Hvote. destruct Hvote as [Hvote Hvotes].
      pose proof (Forall_inv Hms) as Hfr. cbn beta in Hfr.
      apply Forall_inv_tail in Hms.
      pose proof (total_ms_nonneg _ Hms) as Hrest.
      rewrite total_ms_cons in Hlt, Hge, Hmax.
      assert (Hrest' : 0 <= total_ms frames)
        by (apply total_ms_nonneg;
            exact (proj1 (proj1 (Forall_app _ _ _) Hms))).
      destruct (gdf_write_disagreeing env fr w Hvote)
        as (r & w1 & Hrun & Htun & Hstep); [rewrite ?Hc; lia ..|].
      rewrite Hc in Hstep.
      destruct (Z.geb_spec (c + frame_ms fr)
                  (minimum_duration (vad_state (data w)) (data w)));
        [lia|].
      destruct Hstep as [Hs1 Hc1].
      assert (Hthr : voice_threshold (data w1) = voice_threshold (data w))
        by (apply (f_equal (fun t => fst (fst t))) in Htun; exact Htun).
      assert (Hmin : minimum_duration (vad_state (data w1)) (data w1)
                     = minimum_duration (vad_state (data w)) (data w)).
      { rewrite Hs1. unfold minimum_duration.
        pose proof (f_equal (fun t => snd (fst t)) Htun) as H2.
        pose proof (f_equal snd Htun) as H3. cbn in H2, H3.
        destruct (vad_state (data w)); assumption. }
      assert (P0 : 0 <= c + frame_ms fr) by lia.
      assert (P1 : forallb
                     (disagrees (vad_state (data w1)) (voice_threshold (data w1)))
                     (frames ++ [last]) = true)
        by (rewrite Hs1, Hthr; exact Hvotes).
      assert (P2 : c + frame_ms fr + total_ms frames
                   < minimum_duration (vad_state (data w1)) (data w1))
        by (rewrite Hmin; lia).
      assert (P3 : minimum_duration (vad_state (data w1)) (data w1)
                   <= c + frame_ms fr + total_ms (frames ++ [last]))
        by (rewrite Hmin; lia).
      assert (P4 : c + frame_ms fr + total_ms (frames ++ [last]) <= INT_MAX)
        by lia.
      destruct (IH w1 (c + frame_ms fr) Hc1 P0 P1 Hms P2 P3 P4)
        as (ws & w' & Hrun' & Hlen & Hst & Hv).
      rewrite Hs1 in Hst, Hv.
      exists (w1 :: ws), w'. destruct fr as [[df buf] len]. cbn [fst snd] in Hrun.
      cbn [write_frames app]. rewrite Hrun, Hrun'.
      split; [reflexivity|]. split; [cbn; rewrite Hlen; reflexivity|].
      split; [|exact Hv].
      constructor; [exact Hs1 | exact Hst]. }
  intros Hvote Hms Hlt Hge Hmax.
  apply (Hgen frames w 0 Hzero); try assumption; lia.
Qed.

Lemma the_endpointer_commits_when_the_minimum_is_reached_witness :
  exists ws w',
    write_frames Example.env
      ([Example.loud_20ms Example.df_ok] ++ [Example.loud_20ms Example.df_ok])
      Example.started
    = Some (ws ++ [w'])
    /\ List.length ws = List.length [Example.loud_20ms Example.df_ok]
    /\ Forall (fun x => vad_state (data x) = vad_state (data Example.started))
         ws
    /\ vad_of (data w')
       = Build_vad_locals
           (next_vad_state (vad_state (data Example.started))) 0 0.
Proof.
  apply (the_endpointer_commits_when_the_minimum_is_reached Example.env
           [Example.loud_20ms Example.df_ok] (Example.loud_20ms Example.df_ok)
           Example.started).
  - vm_compute. reflexivity.
  - vm_compute. reflexivity.
  - repeat constructor; vm_compute; discriminate.
  - vm_compute. reflexivity.
  - vm_compute. discriminate.
  - vm_compute. discriminate.
Defined.

(** ** Before speech *)

(** X25.  Nothing is recorded before speech.  A frame that leaves the
    endpointer waiting for speech, in a session that holds no
    pre-endpointer recording, changes the three fields of the endpointer
    and nothing else: no file is opened or written, no line is logged, the
    library is not called.  The session still holds no recording after
    it, so no audio from before the frame that commits to speech reaches a
    recording. *)
Theorem nothing_is_recorded_before_speech env df buf len w lvl :
  calculate_audio_level buf len = Some lvl ->
  l_vad_state (vad_step (data w) lvl len) = VAD_STATE_START ->
  utterance_preendpointer_recording_file_handle (data w) = None ->
  gdf_write env df buf len w
  = Some (0, set_data (commit (vad_step (data w) lvl len) (data w)) w).
Proof.
  intros Hlvl Hstart Hnone. unfold gdf_write.
  erewrite bind_run by (apply gdf_write_endpointer_run; exact Hlvl).
  erewrite bind_run by apply gdf_write_start_run.
  cbn [fst snd]. rewrite Hstart. cbn [VAD_STATE_eqb andb].
  assert (Hline : transition_line env (data w) (vad_step (data w) lvl len)
                  = []).
  { unfold transition_line. rewrite Hstart.
    destruct (vad_state (data w)); reflexivity. }
  rewrite Hline, add_trace_nil.
  unfold gdf_write_forward. cbn [VAD_STATE_eqb negb].
  unfold are_currently_recording_pre_endpointed_audio.
  do 2 step.
  assert (Hkept :
            utterance_preendpointer_recording_file_handle
              (data (set_data (commit (vad_step (data w) lvl len) (data w)) w))
            = None) by exact Hnone.
  rewrite Hkept. cbn [of_bool truthy].
  change (truthy 0) with false. cbv iota.
  step. reflexivity.
Qed.

Lemma nothing_is_recorded_before_speech_witness :
  gdf_write Example.env Example.df_ok (fun _ => 150) 80 Example.started
  = Some (0, set_data
               (commit (vad_step (data Example.started) 150 80)
                  (data Example.started))
               Example.started).
Proof.
  apply (nothing_is_recorded_before_speech Example.env Example.df_ok
           (fun _ => 150) 80 Example.started 150);
    vm_compute; reflexivity.
Defined.
